(** * gateway-cd: the canary reconciliation engine

    A shallow embedding of the three cooperating parts of the controller:

    - the route mutator ([pkg/gateway]: [UpdateTrafficSplit],
      [updateHTTPRouteBackends], [Cleanup]);
    - the analyzer ([pkg/metrics]: [RunAnalysis], [evaluateMetric],
      [GetMetric], [compareValues]);
    - the reconciler ([pkg/controller]: [Reconcile] and its per-phase
      handlers).

    Go values are modelled as follows.  [int32] fields are [Z] with the
    wrap-around written out ([int32]); [float64] is the primitive binary64
    type; Go maps are [gmap]; a pointer that may be nil is an [option];
    an [error] is the text of its message, [None] standing for [nil].
    Everything the engine reaches outside its own process (the API server,
    the metrics backend, the clock, the Go library parsers) is read from an
    explicit [Env], and every call that leaves the process is appended to the
    [trace] of the [World]. *)

From Stdlib Require Import ZArith Lia.
From Stdlib Require Import Floats.PrimFloat Floats.SpecFloat Floats.FloatOps.
From Stdlib Require Floats.FloatAxioms.
From stdpp Require Import base option strings list gmap pretty.

Local Open Scope string_scope.
Local Open Scope Z_scope.
Local Open Scope list_scope.

(** ** Scalars *)

Definition error := string.
Definition Time := Z.
Definition Duration := Z.

(** [time.Second], in nanoseconds. *)
Definition Second : Duration := 1000000000.

(** Conversion of an integer to [int32]: the low 32 bits, read as a signed
    number.  The conversion [int(x)] of an [int32] to the 64-bit [int] keeps
    the value and is not written. *)
Definition int32 (z : Z) : Z := (z + 2147483648) mod 4294967296 - 2147483648.

(** [fmt.Errorf("... %w", err)] and [fmt.Sprintf("... %v", err)]: the
    message of the wrapped error is spliced in. *)
Definition wrap_err (prefix : string) (err : error) : error := prefix +:+ err.

(** Characters that cannot be typed inside a string literal here. *)
Definition dquote : string := String (Ascii.ascii_of_nat 34) "".
Definition newline : string := String (Ascii.ascii_of_nat 10) "".
Definition tab : string := String (Ascii.ascii_of_nat 9) "".

(** ** pkg/api/v1alpha1 *)

Definition CanaryDeploymentPhase := string.
Definition CanaryDeploymentPhasePending : CanaryDeploymentPhase := "Pending".
Definition CanaryDeploymentPhaseProgressing : CanaryDeploymentPhase := "Progressing".
Definition CanaryDeploymentPhasePaused : CanaryDeploymentPhase := "Paused".
Definition CanaryDeploymentPhaseSucceeded : CanaryDeploymentPhase := "Succeeded".
Definition CanaryDeploymentPhaseFailed : CanaryDeploymentPhase := "Failed".
Definition CanaryDeploymentPhaseRollingBack : CanaryDeploymentPhase := "RollingBack".

Module TrafficSplitStep.
Record t := mk {
  Weight : Z;
  Duration : string;
  Pause : bool;
}.
End TrafficSplitStep.

Module AnalysisMetric.
Record t := mk {
  Name : string;
  Query : string;
  Threshold : float;
  Operator : string;
}.
End AnalysisMetric.

Module AnalysisTemplate.
Record t := mk {
  Metrics : list AnalysisMetric.t;
  SuccessRate : float;
  MaxLatency : Z;
  AnalysisInterval : string;
}.
End AnalysisTemplate.

Module WorkloadRef.
Record t := mk {
  APIVersion : string;
  Kind : string;
  Name : string;
}.
End WorkloadRef.

Module ServiceRef.
Record t := mk {
  Name : string;
  Port : Z;
}.
End ServiceRef.

Module GatewayRef.
Record t := mk {
  HTTPRoute : string;
  Gateway : string;
  Namespace : string;
}.
End GatewayRef.

Module CanaryDeploymentSpec.
Record t := mk {
  TargetRef : WorkloadRef.t;
  Service : ServiceRef.t;
  Gateway : GatewayRef.t;
  TrafficSplit : list TrafficSplitStep.t;
  Analysis : AnalysisTemplate.t;
  AutoPromote : bool;
  SkipAnalysis : bool;
}.
End CanaryDeploymentSpec.

Module MetricResult.
Record t := mk {
  Name : string;
  Value : float;
  Threshold : float;
  Passed : bool;
}.
End MetricResult.

Module AnalysisRunStatus.
Record t := mk {
  Phase : string;
  SuccessRate : float;
  AverageLatency : Z;
  MetricResults : list MetricResult.t;
  StartedAt : option Time;
  CompletedAt : option Time;
}.
End AnalysisRunStatus.

(** [metav1.Condition]; the engine carries the list and never touches it. *)
Module Condition.
Record t := mk {
  Type_ : string;
  Status : string;
  Reason : string;
  Message : string;
  LastTransitionTime : Time;
}.
End Condition.

Module CanaryDeploymentStatus.
Record t := mk {
  Phase : CanaryDeploymentPhase;
  Message : string;
  CurrentStep : Z;
  CanaryWeight : Z;
  StableWeight : Z;
  Conditions : list Condition.t;
  LastTransitionTime : option Time;
  AnalysisRun : option AnalysisRunStatus.t;
}.

Definition with_Phase (p : CanaryDeploymentPhase) (s : t) : t :=
  mk p (Message s) (CurrentStep s) (CanaryWeight s) (StableWeight s)
     (Conditions s) (LastTransitionTime s) (AnalysisRun s).
Definition with_Message (m : string) (s : t) : t :=
  mk (Phase s) m (CurrentStep s) (CanaryWeight s) (StableWeight s)
     (Conditions s) (LastTransitionTime s) (AnalysisRun s).
Definition with_CurrentStep (k : Z) (s : t) : t :=
  mk (Phase s) (Message s) k (CanaryWeight s) (StableWeight s)
     (Conditions s) (LastTransitionTime s) (AnalysisRun s).
Definition with_CanaryWeight (w : Z) (s : t) : t :=
  mk (Phase s) (Message s) (CurrentStep s) w (StableWeight s)
     (Conditions s) (LastTransitionTime s) (AnalysisRun s).
Definition with_StableWeight (w : Z) (s : t) : t :=
  mk (Phase s) (Message s) (CurrentStep s) (CanaryWeight s) w
     (Conditions s) (LastTransitionTime s) (AnalysisRun s).
Definition with_LastTransitionTime (tm : option Time) (s : t) : t :=
  mk (Phase s) (Message s) (CurrentStep s) (CanaryWeight s) (StableWeight s)
     (Conditions s) tm (AnalysisRun s).
Definition with_AnalysisRun (a : option AnalysisRunStatus.t) (s : t) : t :=
  mk (Phase s) (Message s) (CurrentStep s) (CanaryWeight s) (StableWeight s)
     (Conditions s) (LastTransitionTime s) a.
End CanaryDeploymentStatus.

(** The object: the part of [metav1.ObjectMeta] the engine reads, the spec
    and the status. *)
Module CanaryDeployment.
Record t := mk {
  Namespace : string;
  Name : string;
  Annotations : gmap string string;
  DeletionTimestamp : option Time;
  Spec : CanaryDeploymentSpec.t;
  Status : CanaryDeploymentStatus.t;
}.

(** The zero value of the Go struct. *)
Definition zero : t :=
  mk "" "" ∅ None
     (CanaryDeploymentSpec.mk (WorkloadRef.mk "" "" "") (ServiceRef.mk "" 0)
        (GatewayRef.mk "" "" "") [] (AnalysisTemplate.mk [] 0%float 0 "")
        false false)
     (CanaryDeploymentStatus.mk "" "" 0 0 0 [] None None).

Definition with_Status (s : CanaryDeploymentStatus.t) (c : t) : t :=
  mk (Namespace c) (Name c) (Annotations c) (DeletionTimestamp c) (Spec c) s.
Definition with_Annotations (a : gmap string string) (c : t) : t :=
  mk (Namespace c) (Name c) a (DeletionTimestamp c) (Spec c) (Status c).
(** [canary.Status.f = v], for a setter [f] of the status. *)
Definition upd_Status (f : CanaryDeploymentStatus.t → CanaryDeploymentStatus.t)
    (c : t) : t :=
  with_Status (f (Status c)) c.
End CanaryDeployment.

(** ** Decoding a reply into an object

    A typed client decodes the object the API server answers with into the
    object it was given.  A field tagged [omitempty] whose value on the
    server is zero is absent from the reply, and the field in memory keeps
    what it held; any other field takes the value of the reply.  A pointer
    to a struct that is present is decoded field by field into the struct
    in memory, or into a fresh one when the pointer in memory is nil; a
    slice that is present replaces the one in memory, its elements having
    no [omitempty] field here. *)
Definition decoded_string (reply mine : string) : string :=
  if bool_decide (reply = "") then mine else reply.
Definition decoded_int32 (reply mine : Z) : Z :=
  if bool_decide (reply = 0) then mine else reply.
Definition decoded_float64 (reply mine : float) : float :=
  if PrimFloat.eqb reply 0 then mine else reply.
Definition decoded_pointer {A} (reply mine : option A) : option A :=
  match reply with
  | Some _ => reply
  | None => mine
  end.
Definition decoded_slice {A} (reply mine : list A) : list A :=
  match reply with
  | [] => mine
  | _ :: _ => reply
  end.

Definition decoded_AnalysisRunStatus (reply mine : AnalysisRunStatus.t)
  : AnalysisRunStatus.t :=
  AnalysisRunStatus.mk
    (decoded_string (AnalysisRunStatus.Phase reply) (AnalysisRunStatus.Phase mine))
    (decoded_float64 (AnalysisRunStatus.SuccessRate reply)
                     (AnalysisRunStatus.SuccessRate mine))
    (decoded_int32 (AnalysisRunStatus.AverageLatency reply)
                   (AnalysisRunStatus.AverageLatency mine))
    (decoded_slice (AnalysisRunStatus.MetricResults reply)
                   (AnalysisRunStatus.MetricResults mine))
    (decoded_pointer (AnalysisRunStatus.StartedAt reply)
                     (AnalysisRunStatus.StartedAt mine))
    (decoded_pointer (AnalysisRunStatus.CompletedAt reply)
                     (AnalysisRunStatus.CompletedAt mine)).

Definition decoded_AnalysisRun (reply mine : option AnalysisRunStatus.t)
  : option AnalysisRunStatus.t :=
  match reply with
  | Some run =>
      Some (decoded_AnalysisRunStatus run
              (default (AnalysisRunStatus.mk "" 0%float 0 [] None None) mine))
  | None => mine
  end.

Definition decoded_Status (reply mine : CanaryDeploymentStatus.t)
  : CanaryDeploymentStatus.t :=
  CanaryDeploymentStatus.mk
    (decoded_string (CanaryDeploymentStatus.Phase reply)
                    (CanaryDeploymentStatus.Phase mine))
    (decoded_string (CanaryDeploymentStatus.Message reply)
                    (CanaryDeploymentStatus.Message mine))
    (decoded_int32 (CanaryDeploymentStatus.CurrentStep reply)
                   (CanaryDeploymentStatus.CurrentStep mine))
    (decoded_int32 (CanaryDeploymentStatus.CanaryWeight reply)
                   (CanaryDeploymentStatus.CanaryWeight mine))
    (decoded_int32 (CanaryDeploymentStatus.StableWeight reply)
                   (CanaryDeploymentStatus.StableWeight mine))
    (decoded_slice (CanaryDeploymentStatus.Conditions reply)
                   (CanaryDeploymentStatus.Conditions mine))
    (decoded_pointer (CanaryDeploymentStatus.LastTransitionTime reply)
                     (CanaryDeploymentStatus.LastTransitionTime mine))
    (decoded_AnalysisRun (CanaryDeploymentStatus.AnalysisRun reply)
                         (CanaryDeploymentStatus.AnalysisRun mine)).

(** ** sigs.k8s.io/gateway-api: the route object

    Only the shape the mutator reads and writes is spelled out; the fields
    it never mentions are kept so that frame properties can be stated. *)

Module HTTPBackendRef.
Record t := mk {
  Name : string;
  Port : option Z;
  Weight : option Z;
}.
End HTTPBackendRef.

Module HTTPRouteMatch.
Record t := mk {
  Path : option string;
  Method : option string;
  Headers : list (string * string);
  QueryParams : list (string * string);
}.
(** The zero value [gatewayapi.HTTPRouteMatch{}]. *)
Definition zero : t := mk None None [] [].
End HTTPRouteMatch.

Module HTTPRouteRule.
Record t := mk {
  Matches : list HTTPRouteMatch.t;
  Filters : list string;
  BackendRefs : list HTTPBackendRef.t;
}.
End HTTPRouteRule.

Module HTTPRoute.
Record t := mk {
  Labels : gmap string string;
  ParentRefs : list string;
  Hostnames : list string;
  Rules : list HTTPRouteRule.t;
}.
Definition zero : t := mk ∅ [] [] [].
End HTTPRoute.

(** [types.NamespacedName]: namespace first, then name. *)
Definition NamespacedName := (string * string)%type.

(** ** The world outside the process *)

(** What [json.Unmarshal] stores in an [interface{}]. *)
Inductive JSONValue :=
| JString (s : string)
| JNumber (f : float)
| JBool (b : bool)
| JNull
| JComposite.

Module PromSample.
Record t := mk {
  Metric : gmap string string;
  Value : list JSONValue;
}.
End PromSample.

Module PrometheusResponse.
Record t := mk {
  Status : string;
  ResultType : string;
  Result : list PromSample.t;
}.
End PrometheusResponse.

(** What came back for one HTTP request of [GetMetric]: the request could
    not be built or sent, or a response arrived whose body could not be
    read, could not be decoded, or was decoded. *)
Inductive HTTPBody :=
| ReadFailed (err : error)
| DecodeFailed (err : error)
| Decoded (r : PrometheusResponse.t).

Inductive HTTPReply :=
| RequestFailed (err : error)
| Response (StatusCode : Z) (body : HTTPBody).

(** One entry per call that leaves the process, oldest first. *)
Inductive Event :=
| EvGet (key : NamespacedName)
| EvGetRoute (key : NamespacedName)
| EvUpdateRoute (key : NamespacedName) (route : HTTPRoute.t) (err : option error)
| EvUpdate (canary : CanaryDeployment.t) (err : option error)
| EvStatusUpdate (canary : CanaryDeployment.t) (err : option error)
| EvQuery (baseURL query : string).

Record World := mkWorld {
  canaries : gmap NamespacedName CanaryDeployment.t;
  routes : gmap NamespacedName HTTPRoute.t;
  trace : list Event;
}.

(** The readings of one reconcile invocation.  The [_fault] fields say
    whether the API server refuses the corresponding call (each is issued at
    most once per invocation); the metrics backend and the clock may answer
    differently each time they are asked, so they see the trace so far.
    [url_Parse] and [http_NewRequestWithContext] say whether the URL of a
    query parses and whether the request for a query can be built; the URL
    and the request themselves are not looked into. *)
Record Env := mkEnv {
  time_Now : list Event → Time;
  time_ParseDuration : string → Duration * option error;
  strconv_ParseFloat : string → float * option error;
  url_Parse : string → option error;
  http_NewRequestWithContext : string → string → option error;
  http_Do : list Event → string → string → HTTPReply;
  get_fault : option error;
  route_get_fault : option error;
  route_update_fault : option error;
  update_fault : option error;
  status_update_fault : option error;
}.

(** ** Effects: a state monad over the world, with Go panics *)

Inductive Outcome (A : Type) :=
| Ret (a : A)
| Panic (msg : string).
Arguments Ret {A} a.
Arguments Panic {A} msg.

Definition M (A : Type) : Type := World → Outcome A * World.

#[global] Instance M_ret : MRet M := λ A a w, (Ret a, w).
#[global] Instance M_bind : MBind M := λ A B f m w,
  match m w with
  | (Ret a, w') => f a w'
  | (Panic msg, w') => (Panic msg, w')
  end.

Definition panic {A} (msg : string) : M A := λ w, (Panic msg, w).
Definition get_trace : M (list Event) := λ w, (Ret (trace w), w).
Definition emit (ev : Event) : M unit :=
  λ w, (Ret tt, mkWorld (canaries w) (routes w) (trace w ++ [ev])).

(** [time.Now()]. *)
Definition Now (env : Env) : M Time :=
  tr ← get_trace; mret (time_Now env tr).

(** The message of the API server's NotFound error,
    [apierrors.NewNotFound(resource, name)]: the resource with its group,
    then the name as [%q] prints it.  Object names are DNS names, in which
    [%q] has nothing to escape. *)
Definition not_found (resource name : string) : error :=
  resource +:+ " " +:+ dquote +:+ name +:+ dquote +:+ " not found".

Definition httproutes : string := "httproutes.gateway.networking.k8s.io".
Definition canarydeployments : string := "canarydeployments.gateway-cd.io".

(** [client.Get] of a route into a fresh [&gatewayapi.HTTPRoute{}]: on an
    error the object is left at its zero value. *)
Definition Get_route (env : Env) (key : NamespacedName)
  : M (HTTPRoute.t * option error) :=
  emit (EvGetRoute key);;
  match route_get_fault env with
  | Some err => mret (HTTPRoute.zero, Some err)
  | None => λ w,
      match routes w !! key with
      | Some r => (Ret (r, None), w)
      | None => (Ret (HTTPRoute.zero, Some (not_found httproutes key.2)), w)
      end
  end.

(** [client.Update] of a route: stored unless the server refuses. *)
Definition Update_route (env : Env) (key : NamespacedName) (r : HTTPRoute.t)
  : M (option error) :=
  emit (EvUpdateRoute key r (route_update_fault env));;
  match route_update_fault env with
  | Some err => mret (Some err)
  | None => λ w, (Ret None, mkWorld (canaries w) (<[key := r]> (routes w)) (trace w))
  end.

(** [client.Get] of the rollout into a zero-valued variable; the flag that
    comes with an error is [apierrors.IsNotFound] of it. *)
Definition Get_canary (env : Env) (key : NamespacedName)
  : M (CanaryDeployment.t * option (error * bool)) :=
  emit (EvGet key);;
  match get_fault env with
  | Some err => mret (CanaryDeployment.zero, Some (err, false))
  | None => λ w,
      match canaries w !! key with
      | Some c => (Ret (c, None), w)
      | None =>
          (Ret (CanaryDeployment.zero, Some (not_found canarydeployments key.2, true)), w)
      end
  end.

Definition key_of (c : CanaryDeployment.t) : NamespacedName :=
  (CanaryDeployment.Namespace c, CanaryDeployment.Name c).

(** [r.Status().Update]: only the status of the stored object is replaced.
    The object was read from the server in the same invocation.  The reply
    is decoded into the object as well, which no caller looks at
    afterwards. *)
Definition Status_Update (env : Env) (c : CanaryDeployment.t) : M (option error) :=
  emit (EvStatusUpdate c (status_update_fault env));;
  match status_update_fault env with
  | Some err => mret (Some err)
  | None => λ w,
      (Ret None,
       mkWorld (alter (CanaryDeployment.with_Status (CanaryDeployment.Status c))
                      (key_of c) (canaries w))
               (routes w) (trace w))
  end.

(** [r.Update]: metadata and spec of the stored object are replaced, its
    status is kept (the kind has a status subresource).  The server answers
    with the object it now stores, which the client decodes into the object
    in memory: what comes back with the error is that object, whose status
    is the stored one wherever the reply carries it.  Metadata and spec of
    the reply are those just sent. *)
Definition Update (env : Env) (c : CanaryDeployment.t)
  : M (CanaryDeployment.t * option error) :=
  emit (EvUpdate c (update_fault env));;
  match update_fault env with
  | Some err => mret (c, Some err)
  | None => λ w,
      (Ret (match canaries w !! key_of c with
            | Some old =>
                CanaryDeployment.with_Status
                  (decoded_Status (CanaryDeployment.Status old)
                                  (CanaryDeployment.Status c)) c
            | None => c
            end, None),
       mkWorld (alter (λ old, CanaryDeployment.with_Status (CanaryDeployment.Status old) c)
                      (key_of c) (canaries w))
               (routes w) (trace w))
  end.

(** ** pkg/gateway *)

Module HTTPRouteRuleOps.
Import HTTPRouteRule.
Definition with_Matches (ms : list HTTPRouteMatch.t) (r : t) : t :=
  mk ms (Filters r) (BackendRefs r).
Definition with_BackendRefs (bs : list HTTPBackendRef.t) (r : t) : t :=
  mk (Matches r) (Filters r) bs.
End HTTPRouteRuleOps.

Definition with_Rules (rs : list HTTPRouteRule.t) (r : HTTPRoute.t) : HTTPRoute.t :=
  HTTPRoute.mk (HTTPRoute.Labels r) (HTTPRoute.ParentRefs r) (HTTPRoute.Hostnames r) rs.

(** Conversion to Go's 64-bit [int]. *)
Definition int64 (z : Z) : Z :=
  (z + 9223372036854775808) mod 18446744073709551616 - 9223372036854775808.

Section Gateway.
Import CanaryDeployment CanaryDeploymentSpec.

Definition stableBackend (canary : CanaryDeployment.t) (stableWeight : Z)
  : HTTPBackendRef.t :=
  HTTPBackendRef.mk (ServiceRef.Name (Service (Spec canary)))
                    (Some (ServiceRef.Port (Service (Spec canary))))
                    (Some (int32 stableWeight)).

Definition canaryBackend (canary : CanaryDeployment.t) (canaryWeight : Z)
  : HTTPBackendRef.t :=
  HTTPBackendRef.mk (ServiceRef.Name (Service (Spec canary)) +:+ "-canary")
                    (Some (ServiceRef.Port (Service (Spec canary))))
                    (Some (int32 canaryWeight)).

(** The body of the loop of [updateHTTPRouteBackends], for one rule. *)
Definition updateRule (canary : CanaryDeployment.t) (canaryWeight : Z)
    (rule : HTTPRouteRule.t) : HTTPRouteRule.t :=
  let stableWeight := int64 (100 - canaryWeight) in
  let rule :=
    if bool_decide (length (HTTPRouteRule.Matches rule) = 0%nat)
    then HTTPRouteRuleOps.with_Matches [HTTPRouteMatch.zero] rule
    else rule in
  if bool_decide (canaryWeight = 0) then
    HTTPRouteRuleOps.with_BackendRefs [stableBackend canary stableWeight] rule
  else if bool_decide (canaryWeight = 100) then
    HTTPRouteRuleOps.with_BackendRefs [canaryBackend canary canaryWeight] rule
  else
    HTTPRouteRuleOps.with_BackendRefs
      [stableBackend canary stableWeight; canaryBackend canary canaryWeight] rule.

Definition updateHTTPRouteBackends (httpRoute : HTTPRoute.t)
    (canary : CanaryDeployment.t) (canaryWeight : Z)
  : HTTPRoute.t * option error :=
  (with_Rules (updateRule canary canaryWeight <$> HTTPRoute.Rules httpRoute) httpRoute,
   None).

(** The route the rollout refers to: the first lines of
    [UpdateTrafficSplit], where an empty namespace falls back to that of
    the rollout. *)
Definition route_key (canary : CanaryDeployment.t) : NamespacedName :=
  let httpRouteNamespace :=
    if bool_decide (GatewayRef.Namespace (Gateway (Spec canary)) = "")
    then Namespace canary
    else GatewayRef.Namespace (Gateway (Spec canary)) in
  (httpRouteNamespace, GatewayRef.HTTPRoute (Gateway (Spec canary))).

Definition UpdateTrafficSplit (env : Env) (canary : CanaryDeployment.t)
    (canaryWeight : Z) : M (option error) :=
  let key := route_key canary in
  got ← Get_route env key;
  match got with
  | (_, Some err) =>
      mret (Some (wrap_err ("failed to get HTTPRoute " +:+ key.1 +:+ "/" +:+ key.2 +:+ ": ") err))
  | (httpRoute, None) =>
      match updateHTTPRouteBackends httpRoute canary canaryWeight with
      | (_, Some err) =>
          mret (Some (wrap_err "failed to update HTTPRoute backends: " err))
      | (httpRoute', None) =>
          failed ← Update_route env key httpRoute';
          match failed with
          | Some err => mret (Some (wrap_err "failed to update HTTPRoute: " err))
          | None => mret None
          end
      end
  end.

Definition Cleanup (env : Env) (canary : CanaryDeployment.t) : M (option error) :=
  failed ← UpdateTrafficSplit env canary 0;
  match failed with
  | Some err => mret (Some (wrap_err "failed to cleanup traffic split: " err))
  | None => mret None
  end.

End Gateway.

(** The sum of the weights of a list of backends, when all are set. *)
Fixpoint weight_total (refs : list HTTPBackendRef.t) : option Z :=
  match refs with
  | [] => Some 0
  | b :: refs' =>
      w ← HTTPBackendRef.Weight b; s ← weight_total refs'; Some (w + s)
  end.

(** ** pkg/metrics *)

Module AnalysisResult.
Record t := mk {
  Phase : string;
  SuccessRate : float;
  AverageLatency : Z;
  MetricResults : list MetricResult.t;
  StartedAt : option Time;
  CompletedAt : option Time;
  Passed : bool;
}.

Definition with_Phase (p : string) (r : t) : t :=
  mk p (SuccessRate r) (AverageLatency r) (MetricResults r) (StartedAt r)
     (CompletedAt r) (Passed r).
Definition with_SuccessRate (x : float) (r : t) : t :=
  mk (Phase r) x (AverageLatency r) (MetricResults r) (StartedAt r)
     (CompletedAt r) (Passed r).
Definition with_AverageLatency (x : Z) (r : t) : t :=
  mk (Phase r) (SuccessRate r) x (MetricResults r) (StartedAt r)
     (CompletedAt r) (Passed r).
Definition with_MetricResults (x : list MetricResult.t) (r : t) : t :=
  mk (Phase r) (SuccessRate r) (AverageLatency r) x (StartedAt r)
     (CompletedAt r) (Passed r).
Definition with_CompletedAt (x : option Time) (r : t) : t :=
  mk (Phase r) (SuccessRate r) (AverageLatency r) (MetricResults r) (StartedAt r)
     x (Passed r).
Definition with_Passed (x : bool) (r : t) : t :=
  mk (Phase r) (SuccessRate r) (AverageLatency r) (MetricResults r) (StartedAt r)
     (CompletedAt r) x.
End AnalysisResult.

Module PrometheusProvider.
Record t := mk {
  baseURL : string;
}.
End PrometheusProvider.

(** [strings.ReplaceAll s old new] for a non-empty [old]: the occurrences
    are found from the left and do not overlap.  [skip] counts the
    characters of a match that are still to be dropped. *)
Fixpoint ReplaceAll_from (skip : nat) (s old new : string) : string :=
  match s with
  | EmptyString => EmptyString
  | String c s' =>
      match skip with
      | S k => ReplaceAll_from k s' old new
      | O =>
          if String.prefix old s
          then new +:+ ReplaceAll_from (String.length old - 1) s' old new
          else String c (ReplaceAll_from 0 s' old new)
      end
  end.

Definition ReplaceAll (s old new : string) : string := ReplaceAll_from 0 s old new.

Section Metrics.
Import CanaryDeployment CanaryDeploymentSpec.

(** The values of binary64 that [int32] holds are converted by dropping the
    fraction; for the others Go leaves the result to the implementation, and
    it is read from [unrepresentable]. *)
Definition float64_to_int32 (unrepresentable : float → Z) (value : float) : Z :=
  match Prim2SF value with
  | S754_zero _ => 0
  | S754_finite sign m e =>
      let magnitude :=
        match e with
        | Z0 => Z.pos m
        | Zpos k => Z.pos m * 2 ^ Z.pos k
        | Zneg k => Z.pos m / 2 ^ Z.pos k
        end in
      let z := if sign then - magnitude else magnitude in
      if bool_decide (-2147483648 ≤ z ≤ 2147483647) then z
      else unrepresentable value
  | _ => unrepresentable value
  end.

(** The rest of what [GetMetric] and its callers take from outside: the
    order in which [range] visits a map, and the implementation-defined
    float conversion. *)
Record GoRuntime := mkGoRuntime {
  range_order : list (string * string) → list (string * string);
  int32_unrepresentable : float → Z;
}.

Variable env : Env.
Variable rt : GoRuntime.
Variable p : PrometheusProvider.t.

Definition GetMetric (query : string) : M (float * option error) :=
  let u := PrometheusProvider.baseURL p +:+ "/api/v1/query" in
  match url_Parse env u with
  | Some err => mret (0%float, Some err)
  | None =>
  match http_NewRequestWithContext env u query with
  | Some err => mret (0%float, Some err)
  | None =>
  tr ← get_trace;
  emit (EvQuery (PrometheusProvider.baseURL p) query);;
  match http_Do env tr (PrometheusProvider.baseURL p) query with
  | RequestFailed err => mret (0%float, Some err)
  | Response StatusCode body =>
      if bool_decide (StatusCode ≠ 200) then
        mret (0%float,
              Some ("prometheus query failed with status " +:+ pretty StatusCode))
      else
        match body with
        | ReadFailed err => mret (0%float, Some err)
        | DecodeFailed err => mret (0%float, Some err)
        | Decoded promResp =>
            if bool_decide (PrometheusResponse.Status promResp ≠ "success") then
              mret (0%float,
                    Some ("prometheus query failed: "
                          +:+ PrometheusResponse.Status promResp))
            else
              match PrometheusResponse.Result promResp with
              | [] => mret (0%float, Some "no data returned from prometheus query")
              | first :: _ =>
                  match PromSample.Value first !! 1%nat with
                  | None => panic "index out of range [1]"
                  | Some (JString valueStr) =>
                      match strconv_ParseFloat env valueStr with
                      | (_, Some err) =>
                          mret (0%float,
                                Some (wrap_err "failed to parse prometheus value: " err))
                      | (value, None) => mret (value, None)
                      end
                  | Some _ =>
                      mret (0%float, Some "unexpected value type from prometheus")
                  end
              end
        end
  end
  end
  end.

Definition replaceQueryPlaceholders (query : string) (canary : CanaryDeployment.t)
  : string :=
  let replacements :=
    [ ("{{.Service}}", ServiceRef.Name (Service (Spec canary)));
      ("{{.CanaryService}}", ServiceRef.Name (Service (Spec canary)) +:+ "-canary");
      ("{{.Namespace}}", Namespace canary);
      ("{{.Name}}", Name canary) ] in
  foldl (λ result kv, ReplaceAll result kv.1 kv.2) query (range_order rt replacements).

Definition compareValues (value threshold : float) (operator : string) : bool :=
  if bool_decide (operator = ">") then PrimFloat.ltb threshold value
  else if bool_decide (operator = ">=") then PrimFloat.leb threshold value
  else if bool_decide (operator = "<") then PrimFloat.ltb value threshold
  else if bool_decide (operator = "<=") then PrimFloat.leb value threshold
  else if bool_decide (operator = "==") then PrimFloat.eqb value threshold
  else if bool_decide (operator = "!=") then negb (PrimFloat.eqb value threshold)
  else false.

Definition evaluateMetric (canary : CanaryDeployment.t) (metric : AnalysisMetric.t)
  : M (option MetricResult.t * option error) :=
  let query := replaceQueryPlaceholders (AnalysisMetric.Query metric) canary in
  got ← GetMetric query;
  match got with
  | (_, Some err) => mret (None, Some err)
  | (value, None) =>
      let passed :=
        compareValues value (AnalysisMetric.Threshold metric)
                      (AnalysisMetric.Operator metric) in
      mret (Some (MetricResult.mk (AnalysisMetric.Name metric) value
                    (AnalysisMetric.Threshold metric) passed), None)
  end.

Definition successRateQuery (service : string) : string :=
  newline +:+ tab +:+ tab
  +:+ "sum(rate(http_requests_total{service=" +:+ dquote +:+ service +:+ "-canary"
  +:+ dquote +:+ ",code!~" +:+ dquote +:+ "5.." +:+ dquote +:+ "}[5m])) /"
  +:+ newline +:+ tab +:+ tab
  +:+ "sum(rate(http_requests_total{service=" +:+ dquote +:+ service +:+ "-canary"
  +:+ dquote +:+ "}[5m]))"
  +:+ newline +:+ tab.

Definition getSuccessRate (canary : CanaryDeployment.t) : M (float * option error) :=
  GetMetric (successRateQuery (ServiceRef.Name (Service (Spec canary)))).

Definition latencyQuery (service : string) : string :=
  newline +:+ tab +:+ tab
  +:+ "histogram_quantile(0.95,"
  +:+ newline +:+ tab +:+ tab +:+ tab
  +:+ "sum(rate(http_request_duration_seconds_bucket{service=" +:+ dquote
  +:+ service +:+ "-canary" +:+ dquote +:+ "}[5m])) by (le)"
  +:+ newline +:+ tab +:+ tab
  +:+ ") * 1000"
  +:+ newline +:+ tab.

Definition getAverageLatency (canary : CanaryDeployment.t) : M (Z * option error) :=
  got ← GetMetric (latencyQuery (ServiceRef.Name (Service (Spec canary))));
  match got with
  | (_, Some err) => mret (0, Some err)
  | (value, None) =>
      mret (float64_to_int32 (int32_unrepresentable rt) value, None)
  end.

(** The loop of [RunAnalysis] over the configured metrics; an error leaves
    the loop and the function at once. *)
Fixpoint evaluateMetrics (canary : CanaryDeployment.t)
    (metrics : list AnalysisMetric.t) (result : AnalysisResult.t)
  : M (AnalysisResult.t * option error) :=
  match metrics with
  | [] => mret (result, None)
  | metric :: rest =>
      got ← evaluateMetric canary metric;
      match got with
      | (_, Some err) =>
          mret (AnalysisResult.with_Passed false
                  (AnalysisResult.with_Phase "Failed" result),
                Some (wrap_err ("failed to evaluate metric "
                                +:+ AnalysisMetric.Name metric +:+ ": ") err))
      | (None, None) => panic "nil pointer dereference"
      | (Some metricResult, None) =>
          let result :=
            AnalysisResult.with_MetricResults
              (AnalysisResult.MetricResults result ++ [metricResult]) result in
          let result :=
            if negb (MetricResult.Passed metricResult)
            then AnalysisResult.with_Passed false result
            else result in
          evaluateMetrics canary rest result
      end
  end.

(** [RunAnalysis] after the loop: the success-rate check. *)
Definition checkSuccessRate (canary : CanaryDeployment.t) (result : AnalysisResult.t)
  : M (AnalysisResult.t * option error) :=
  let wanted := AnalysisTemplate.SuccessRate (Analysis (Spec canary)) in
  if PrimFloat.ltb 0 wanted then
    got ← getSuccessRate canary;
    match got with
    | (_, Some err) =>
        mret (AnalysisResult.with_Passed false
                (AnalysisResult.with_Phase "Failed" result),
              Some (wrap_err "failed to get success rate: " err))
    | (successRate, None) =>
        let result := AnalysisResult.with_SuccessRate successRate result in
        mret (if PrimFloat.ltb successRate wanted
              then AnalysisResult.with_Passed false result
              else result, None)
    end
  else mret (result, None).

(** [RunAnalysis] after the success rate: the latency check. *)
Definition checkLatency (canary : CanaryDeployment.t) (result : AnalysisResult.t)
  : M (AnalysisResult.t * option error) :=
  let limit := AnalysisTemplate.MaxLatency (Analysis (Spec canary)) in
  if bool_decide (0 < limit) then
    got ← getAverageLatency canary;
    match got with
    | (_, Some err) =>
        mret (AnalysisResult.with_Passed false
                (AnalysisResult.with_Phase "Failed" result),
              Some (wrap_err "failed to get latency: " err))
    | (latency, None) =>
        let result := AnalysisResult.with_AverageLatency latency result in
        mret (if bool_decide (limit < latency)
              then AnalysisResult.with_Passed false result
              else result, None)
    end
  else mret (result, None).

Definition RunAnalysis (canary : CanaryDeployment.t)
  : M (AnalysisResult.t * option error) :=
  startTime ← Now env;
  let result := AnalysisResult.mk "Running" 0%float 0 [] (Some startTime) None true in
  looped ← evaluateMetrics canary
              (AnalysisTemplate.Metrics (Analysis (Spec canary))) result;
  match looped with
  | (result, Some err) => mret (result, Some err)
  | (result, None) =>
      rated ← checkSuccessRate canary result;
      match rated with
      | (result, Some err) => mret (result, Some err)
      | (result, None) =>
          timed ← checkLatency canary result;
          match timed with
          | (result, Some err) => mret (result, Some err)
          | (result, None) =>
              let result := AnalysisResult.with_Phase "Completed" result in
              let result :=
                if AnalysisResult.Passed result
                then AnalysisResult.with_Phase "Successful" result
                else AnalysisResult.with_Phase "Failed" result in
              finished ← Now env;
              mret (AnalysisResult.with_CompletedAt (Some finished) result, None)
          end
      end
  end.

End Metrics.

(** ** pkg/controller *)

(** [ctrl.Result]. *)
Module Result.
Record t := mk {
  Requeue : bool;
  RequeueAfter : Duration;
}.
Definition zero : t := mk false 0.
Definition after (d : Duration) : t := mk false d.
End Result.

(** The reconciler, as far as its own code looks into it: the metrics
    provider is nil when no backend URL was given. *)
Module CanaryDeploymentReconciler.
Record t := mk {
  MetricsProvider : option PrometheusProvider.t;
}.
End CanaryDeploymentReconciler.

(** [m[k]] on a Go map: the zero value for an absent key. *)
Definition map_index (m : gmap string string) (k : string) : string :=
  default "" (m !! k).

Section Controller.
Import CanaryDeployment CanaryDeploymentSpec CanaryDeploymentStatus.

Variable env : Env.
Variable rt : GoRuntime.
Variable r : CanaryDeploymentReconciler.t.

Definition validateCanaryDeployment (canary : CanaryDeployment.t) : option error :=
  None.

Definition runAnalysis (canary : CanaryDeployment.t)
  : M (CanaryDeployment.t * (bool * option error)) :=
  match CanaryDeploymentReconciler.MetricsProvider r with
  | None => mret (canary, (true, None))
  | Some provider =>
      ran ← RunAnalysis env rt provider canary;
      match ran with
      | (_, Some err) => mret (canary, (false, Some err))
      | (result, None) =>
          let canary :=
            upd_Status
              (with_AnalysisRun
                 (Some (AnalysisRunStatus.mk
                          (AnalysisResult.Phase result)
                          (AnalysisResult.SuccessRate result)
                          (AnalysisResult.AverageLatency result)
                          (AnalysisResult.MetricResults result)
                          (AnalysisResult.StartedAt result)
                          (AnalysisResult.CompletedAt result)))) canary in
          mret (canary, (AnalysisResult.Passed result, None))
      end
  end.

Definition handlePending (canary : CanaryDeployment.t)
  : M (Result.t * option error) :=
  match validateCanaryDeployment canary with
  | Some err =>
      let canary := upd_Status (with_Phase CanaryDeploymentPhaseFailed) canary in
      let canary :=
        upd_Status (with_Message (wrap_err "Validation failed: " err)) canary in
      Status_Update env canary;;
      mret (Result.zero, Some err)
  | None =>
      let canary := upd_Status (with_Phase CanaryDeploymentPhaseProgressing) canary in
      let canary := upd_Status (with_Message "Starting canary deployment") canary in
      now ← Now env;
      let canary := upd_Status (with_LastTransitionTime (Some now)) canary in
      failed ← Status_Update env canary;
      match failed with
      | Some err => mret (Result.zero, Some err)
      | None => mret (Result.after (Second * 5), None)
      end
  end.

(** [canary.Spec.TrafficSplit[canary.Status.CurrentStep]]: [None] is the
    index-out-of-range panic. *)
Definition index_step (steps : list TrafficSplitStep.t) (i : Z)
  : option TrafficSplitStep.t :=
  if bool_decide (i < 0) then None else steps !! Z.to_nat i.

Definition handleProgressing (canary : CanaryDeployment.t)
  : M (Result.t * option error) :=
  if bool_decide (Z.of_nat (length (TrafficSplit (Spec canary)))
                  ≤ CurrentStep (Status canary)) then
    let canary := upd_Status (with_Phase CanaryDeploymentPhaseSucceeded) canary in
    let canary :=
      upd_Status (with_Message "Canary deployment completed successfully") canary in
    let canary := upd_Status (with_CanaryWeight 100) canary in
    let canary := upd_Status (with_StableWeight 0) canary in
    now ← Now env;
    let canary := upd_Status (with_LastTransitionTime (Some now)) canary in
    Status_Update env canary;;
    mret (Result.zero, None)
  else
    match index_step (TrafficSplit (Spec canary)) (CurrentStep (Status canary)) with
    | None => panic "index out of range"
    | Some currentStep =>
        let weight := TrafficSplitStep.Weight currentStep in
        failed ← UpdateTrafficSplit env canary weight;
        match failed with
        | Some err =>
            let canary :=
              upd_Status
                (with_Message (wrap_err "Failed to update traffic split: " err))
                canary in
            Status_Update env canary;;
            mret (Result.after (Second * 30), None)
        | None =>
            let canary := upd_Status (with_CanaryWeight weight) canary in
            let canary := upd_Status (with_StableWeight (int32 (100 - weight))) canary in
            let canary :=
              upd_Status
                (with_Message ("Traffic split updated: " +:+ pretty weight
                               +:+ "% canary, " +:+ pretty (int32 (100 - weight))
                               +:+ "% stable")) canary in
            if TrafficSplitStep.Pause currentStep then
              let canary := upd_Status (with_Phase CanaryDeploymentPhasePaused) canary in
              let canary :=
                upd_Status
                  (with_Message
                     ("Paused at step "
                      +:+ pretty (int32 (CurrentStep (Status canary) + 1))
                      +:+ " for manual approval")) canary in
              now ← Now env;
              let canary := upd_Status (with_LastTransitionTime (Some now)) canary in
              Status_Update env canary;;
              mret (Result.zero, None)
            else
              let advance (canary : CanaryDeployment.t) : M (Result.t * option error) :=
                let canary :=
                  upd_Status
                    (with_CurrentStep (int32 (CurrentStep (Status canary) + 1)))
                    canary in
                Status_Update env canary;;
                let requeueAfter :=
                  if bool_decide (TrafficSplitStep.Duration currentStep ≠ "") then
                    match time_ParseDuration env (TrafficSplitStep.Duration currentStep) with
                    | (duration, None) => duration
                    | (_, Some _) => Second * 30
                    end
                  else Second * 30 in
                mret (Result.after requeueAfter, None) in
              if negb (SkipAnalysis (Spec canary))
                 && PrimFloat.ltb 0 (AnalysisTemplate.SuccessRate (Analysis (Spec canary)))
              then
                analysed ← runAnalysis canary;
                match analysed with
                | (canary, (_, Some err)) =>
                    let canary :=
                      upd_Status (with_Message (wrap_err "Analysis failed: " err))
                                 canary in
                    Status_Update env canary;;
                    mret (Result.after (Second * 30), None)
                | (canary, (false, None)) =>
                    let canary :=
                      upd_Status (with_Phase CanaryDeploymentPhaseRollingBack) canary in
                    let canary :=
                      upd_Status (with_Message "Analysis failed, rolling back") canary in
                    now ← Now env;
                    let canary :=
                      upd_Status (with_LastTransitionTime (Some now)) canary in
                    Status_Update env canary;;
                    mret (Result.after (Second * 5), None)
                | (canary, (true, None)) => advance canary
                end
              else advance canary
        end
    end.

Definition handlePaused (canary : CanaryDeployment.t)
  : M (Result.t * option error) :=
  if bool_decide (map_index (Annotations canary) "gateway-cd.io/resume" = "true") then
    let canary :=
      with_Annotations (delete "gateway-cd.io/resume" (Annotations canary)) canary in
    let canary := upd_Status (with_Phase CanaryDeploymentPhaseProgressing) canary in
    let canary :=
      upd_Status (with_CurrentStep (int32 (CurrentStep (Status canary) + 1))) canary in
    let canary := upd_Status (with_Message "Resumed from pause") canary in
    now ← Now env;
    let canary := upd_Status (with_LastTransitionTime (Some now)) canary in
    updated ← Update env canary;
    match updated with
    | (_, Some err) => mret (Result.zero, Some err)
    | (canary, None) =>
        failed ← Status_Update env canary;
        match failed with
        | Some err => mret (Result.zero, Some err)
        | None => mret (Result.after (Second * 5), None)
        end
    end
  else if bool_decide (map_index (Annotations canary) "gateway-cd.io/abort" = "true") then
    let canary := upd_Status (with_Phase CanaryDeploymentPhaseRollingBack) canary in
    let canary := upd_Status (with_Message "Aborted by user") canary in
    now ← Now env;
    let canary := upd_Status (with_LastTransitionTime (Some now)) canary in
    Status_Update env canary;;
    mret (Result.after (Second * 5), None)
  else
    mret (Result.after (Second * 30), None).

Definition handleRollingBack (canary : CanaryDeployment.t)
  : M (Result.t * option error) :=
  failed ← UpdateTrafficSplit env canary 0;
  match failed with
  | Some err => mret (Result.after (Second * 10), None)
  | None =>
      let canary := upd_Status (with_Phase CanaryDeploymentPhaseFailed) canary in
      let canary := upd_Status (with_CanaryWeight 0) canary in
      let canary := upd_Status (with_StableWeight 100) canary in
      let canary := upd_Status (with_Message "Rollback completed") canary in
      now ← Now env;
      let canary := upd_Status (with_LastTransitionTime (Some now)) canary in
      Status_Update env canary;;
      mret (Result.zero, None)
  end.

Definition handleDeletion (canary : CanaryDeployment.t)
  : M (Result.t * option error) :=
  failed ← Cleanup env canary;
  match failed with
  | Some err => mret (Result.zero, Some err)
  | None => mret (Result.zero, None)
  end.

Definition Reconcile (req : NamespacedName) : M (Result.t * option error) :=
  fetched ← Get_canary env req;
  match fetched with
  | (_, Some (err, IsNotFound)) =>
      if IsNotFound : bool then mret (Result.zero, None)
      else mret (Result.zero, Some err)
  | (canary, None) =>
      if bool_decide (DeletionTimestamp canary ≠ None) then handleDeletion canary
      else if bool_decide (Phase (Status canary) = "") then
        let canary := upd_Status (with_Phase CanaryDeploymentPhasePending) canary in
        let canary := upd_Status (with_CurrentStep 0) canary in
        let canary := upd_Status (with_CanaryWeight 0) canary in
        let canary := upd_Status (with_StableWeight 100) canary in
        now ← Now env;
        let canary := upd_Status (with_LastTransitionTime (Some now)) canary in
        failed ← Status_Update env canary;
        match failed with
        | Some err => mret (Result.zero, Some err)
        | None => mret (Result.after (Second * 5), None)
        end
      else if bool_decide (Phase (Status canary) = CanaryDeploymentPhasePending) then
        handlePending canary
      else if bool_decide (Phase (Status canary) = CanaryDeploymentPhaseProgressing) then
        handleProgressing canary
      else if bool_decide (Phase (Status canary) = CanaryDeploymentPhasePaused) then
        handlePaused canary
      else if bool_decide (Phase (Status canary) = CanaryDeploymentPhaseRollingBack) then
        handleRollingBack canary
      else if bool_decide (Phase (Status canary) = CanaryDeploymentPhaseSucceeded
                           ∨ Phase (Status canary) = CanaryDeploymentPhaseFailed) then
        mret (Result.zero, None)
      else
        mret (Result.zero, None)
  end.

End Controller.

(** ** Vocabulary for the statements *)

(** The world after the queries [qs] were sent to [url]: that many more
    entries in the trace, nothing else. *)
Definition after_queries (url : string) (qs : list string) (w : World) : World :=
  mkWorld (canaries w) (routes w) (trace w ++ (EvQuery url <$> qs)).

(** The queries the loop of [RunAnalysis] asks [GetMetric] for, for a list
    of metrics. *)
Definition metric_queries (rt : GoRuntime) (canary : CanaryDeployment.t)
    (metrics : list AnalysisMetric.t) : list string :=
  (λ m, replaceQueryPlaceholders rt (AnalysisMetric.Query m) canary) <$> metrics.

(** [GetMetric] gets as far as sending the request for [query]: the URL
    parses and the request is built. *)
Definition request_built (env : Env) (p : PrometheusProvider.t) (query : string) : bool :=
  match url_Parse env (PrometheusProvider.baseURL p +:+ "/api/v1/query") with
  | Some _ => false
  | None =>
      match http_NewRequestWithContext env
              (PrometheusProvider.baseURL p +:+ "/api/v1/query") query with
      | Some _ => false
      | None => true
      end
  end.

(** Of the queries [GetMetric] is asked for, those that are sent. *)
Fixpoint sent (env : Env) (p : PrometheusProvider.t) (queries : list string)
  : list string :=
  match queries with
  | [] => []
  | query :: rest =>
      if request_built env p query then query :: sent env p rest else sent env p rest
  end.

(** The result [RunAnalysis] starts from. *)
Definition initial_result (env : Env) (w : World) : AnalysisResult.t :=
  AnalysisResult.mk "Running" 0%float 0 [] (Some (time_Now env (trace w))) None true.

(** The operators [compareValues] has a case for. *)
Definition recognized_operators : list string := [">"; ">="; "<"; "<="; "=="; "!="].

(** The replies on which [GetMetric] indexes past the end of the sample. *)
Definition reply_panics (reply : HTTPReply) : bool :=
  match reply with
  | Response StatusCode (Decoded promResp) =>
      bool_decide (StatusCode = 200)
      && bool_decide (PrometheusResponse.Status promResp = "success")
      && match PrometheusResponse.Result promResp with
         | first :: _ => bool_decide (length (PromSample.Value first) < 2)%nat
         | [] => false
         end
  | _ => false
  end.

(** A backend none of whose replies does that. *)
Definition panic_free (env : Env) (p : PrometheusProvider.t) : Prop :=
  ∀ tr q, reply_panics (http_Do env tr (PrometheusProvider.baseURL p) q) = false.

(** The world once [Reconcile] has read the rollout. *)
Definition fetched (req : NamespacedName) (w : World) : World :=
  mkWorld (canaries w) (routes w) (trace w ++ [EvGet req]).

(** The status the API server holds for a rollout. *)
Definition stored_status (req : NamespacedName) (w : World)
  : option CanaryDeploymentStatus.t :=
  CanaryDeployment.Status <$> canaries w !! req.

(** The annotations the API server holds for a rollout. *)
Definition stored_annotations (req : NamespacedName) (w : World)
  : option (gmap string string) :=
  CanaryDeployment.Annotations <$> canaries w !! req.

(** The metric queries recorded in a trace, oldest first. *)
Definition queries_in (tr : list Event) : list string :=
  omap (λ ev, match ev with EvQuery _ q => Some q | _ => None end) tr.

(** One invocation after the other on the same rollout, each with its own
    readings; the world is what the last one leaves. *)
Fixpoint run_reconciles (envs : list Env) (rt : GoRuntime)
    (r : CanaryDeploymentReconciler.t) (req : NamespacedName) (w : World) : World :=
  match envs with
  | [] => w
  | env :: envs' => run_reconciles envs' rt r req (Reconcile env rt r req w).2
  end.

(** The rollout in memory once [handleProgressing] has recorded the
    weights of [step]. *)
Definition split_applied (step : TrafficSplitStep.t) (canary : CanaryDeployment.t)
  : CanaryDeployment.t :=
  let weight := TrafficSplitStep.Weight step in
  CanaryDeployment.upd_Status
    (CanaryDeploymentStatus.with_Message
       ("Traffic split updated: " +:+ pretty weight +:+ "% canary, "
        +:+ pretty (int32 (100 - weight)) +:+ "% stable"))
    (CanaryDeployment.upd_Status
       (CanaryDeploymentStatus.with_StableWeight (int32 (100 - weight)))
       (CanaryDeployment.upd_Status
          (CanaryDeploymentStatus.with_CanaryWeight weight) canary)).

(** The replies of a backend that is of no use: it cannot be reached, it
    answers with a status other than 200, or it answers with no sample. *)
Inductive backend_failure : HTTPReply → Prop :=
| backend_unreachable err :
    backend_failure (RequestFailed err)
| backend_bad_status code body :
    code ≠ 200 → backend_failure (Response code body)
| backend_no_sample promResp :
    PrometheusResponse.Result promResp = [] →
    backend_failure (Response 200 (Decoded promResp)).

(** ** Concrete rollouts, routes and environments

    The rollout of the demo script: service [demo-app-service] on port 80
    behind the route [demo/demo-app-route], three steps of which the second
    pauses. *)

Definition demo_steps : list TrafficSplitStep.t :=
  [ TrafficSplitStep.mk 20 "30s" false;
    TrafficSplitStep.mk 50 "30s" true;
    TrafficSplitStep.mk 100 "" false ].

Definition demo_spec (analysis : AnalysisTemplate.t) (skip : bool)
  : CanaryDeploymentSpec.t :=
  CanaryDeploymentSpec.mk
    (WorkloadRef.mk "apps/v1" "Deployment" "demo-app-canary")
    (ServiceRef.mk "demo-app-service" 80)
    (GatewayRef.mk "demo-app-route" "" "demo")
    demo_steps analysis false skip.

Definition demo_status (phase : CanaryDeploymentPhase) (step canaryWeight : Z)
  : CanaryDeploymentStatus.t :=
  CanaryDeploymentStatus.mk phase "" step canaryWeight (100 - canaryWeight) [] None None.

Definition demo_canary (annotations : gmap string string)
    (analysis : AnalysisTemplate.t) (skip : bool)
    (phase : CanaryDeploymentPhase) (step canaryWeight : Z) : CanaryDeployment.t :=
  CanaryDeployment.mk "demo" "demo-app-canary" annotations None
    (demo_spec analysis skip) (demo_status phase step canaryWeight).

Definition no_analysis : AnalysisTemplate.t := AnalysisTemplate.mk [] 0%float 0 "".

(** A route with two rules: one matching a path prefix, one with no match
    at all; both point at the stable service only. *)
Definition demo_route : HTTPRoute.t :=
  HTTPRoute.mk {[ "app" := "demo" ]} ["demo-gateway"] ["demo.example.com"]
    [ HTTPRouteRule.mk [HTTPRouteMatch.mk (Some "/api") None [] []] ["add-header"]
        [HTTPBackendRef.mk "demo-app-service" (Some 80) (Some 100)];
      HTTPRouteRule.mk [] []
        [HTTPBackendRef.mk "demo-app-service" (Some 80) (Some 100)] ].

Definition demo_world (canary : CanaryDeployment.t) : World :=
  mkWorld {[ ("demo", "demo-app-canary") := canary ]}
          {[ ("demo", "demo-app-route") := demo_route ]} [].

(** A 200 reply of the backend carrying one sample with the given text. *)
Definition sample_reply (value : string) : HTTPReply :=
  Response 200
    (Decoded (PrometheusResponse.mk "success" "vector"
                [PromSample.mk ∅ [JNumber 1700000000%float; JString value]])).

(** The environment of an invocation in which every API call succeeds and
    every request to the metrics backend can be built; the backend answers
    [backend q] to the query [q], and the text [0.5] parses to the number
    one half. *)
Definition env_with (backend : string → HTTPReply) : Env :=
  mkEnv (λ tr, Z.of_nat (length tr))
        (λ s, if bool_decide (s = "30s") then (Second * 30, None)
              else (0, Some "time: invalid duration"))
        (λ s, if bool_decide (s = "0.5") then (0.5%float, None)
              else (0%float, Some "strconv.ParseFloat: parsing: invalid syntax"))
        (λ _, None) (λ _ _, None)
        (λ _ _ q, backend q)
        None None None None None.

Definition go_runtime : GoRuntime := mkGoRuntime (λ l, l) (λ _, -2147483648).

Definition demo_req : NamespacedName := ("demo", "demo-app-canary").

Definition demo_provider : PrometheusProvider.t :=
  PrometheusProvider.mk "http://prometheus:9090".

Definition demo_reconciler : CanaryDeploymentReconciler.t :=
  CanaryDeploymentReconciler.mk (Some demo_provider).

(** The same reconciler started without a backend URL. *)
Definition reconciler_without_provider : CanaryDeploymentReconciler.t :=
  CanaryDeploymentReconciler.mk None.

(** Three named metrics; the operator of the third is a slip of the pen. *)
Definition metric_errors : AnalysisMetric.t :=
  AnalysisMetric.mk "error-rate" "rate(errors{service={{.CanaryService}}})" 0.75 "<".
Definition metric_saturation : AnalysisMetric.t :=
  AnalysisMetric.mk "saturation" "saturation{namespace={{.Namespace}}}" 0.75 "<".
Definition metric_typo : AnalysisMetric.t :=
  AnalysisMetric.mk "queue-depth" "queue{name={{.Name}}}" 0.75 "=<".

Definition demo_analysis : AnalysisTemplate.t :=
  AnalysisTemplate.mk [metric_errors; metric_saturation; metric_typo] 0.75 1000 "15s".

(** Only a success-rate threshold. *)
Definition rate_only : AnalysisTemplate.t := AnalysisTemplate.mk [] 0.75 0 "".

(** Only named metrics. *)
Definition metrics_only : AnalysisTemplate.t :=
  AnalysisTemplate.mk [metric_errors; metric_saturation] 0%float 0 "".

(** Backends: unreachable; answering 503; answering with no sample;
    answering the error-rate query only. *)
Definition backend_down : string → HTTPReply :=
  λ _, RequestFailed "connection refused".
Definition backend_503 : string → HTTPReply :=
  λ _, Response 503 (ReadFailed "").
Definition backend_empty : string → HTTPReply :=
  λ _, Response 200 (Decoded (PrometheusResponse.mk "success" "vector" [])).
Definition backend_errors_only : string → HTTPReply :=
  λ q, if bool_decide (q = "rate(errors{service=demo-app-service-canary})")
       then sample_reply "0.5"
       else RequestFailed "connection refused".

(** A rollout in Pending whose spec breaks every rule of well-formedness at
    once: a weight above 100, weights going down, an operator that does not
    exist; and a world in which its route does not exist. *)
Definition malformed_canary : CanaryDeployment.t :=
  CanaryDeployment.mk "demo" "demo-app-canary" ∅ None
    (CanaryDeploymentSpec.mk
       (WorkloadRef.mk "apps/v1" "Deployment" "demo-app-canary")
       (ServiceRef.mk "demo-app-service" 80)
       (GatewayRef.mk "no-such-route" "" "demo")
       [TrafficSplitStep.mk 150 "" false; TrafficSplitStep.mk 20 "" false]
       (AnalysisTemplate.mk [metric_typo] 0.75 0 "") false false)
    (demo_status "Pending" 0 0).

Definition malformed_world : World :=
  mkWorld {[ demo_req := malformed_canary ]} ∅ [].

(** ** More of the code, and vocabulary for its properties *)

(** [strings.TrimSuffix s suffix]: [s] without the trailing [suffix], or
    [s] itself when it does not end with it. *)
Definition TrimSuffix (s suffix : string) : string :=
  let n := String.length s in
  let k := String.length suffix in
  if bool_decide (k ≤ n)%nat
     && bool_decide (String.substring (n - k) k s = suffix)
  then String.substring 0 (n - k) s
  else s.

(** [NewPrometheusProvider]; the HTTP client with its timeout of 30 s is
    part of the environment. *)
Definition NewPrometheusProvider (prometheusURL : string) : PrometheusProvider.t :=
  PrometheusProvider.mk (TrimSuffix prometheusURL "/").

(** The steps whose weight and complement to 100 are [int32] values as they
    stand; every weight between 0 and 100 is one. *)
Definition weights_fit (steps : list TrafficSplitStep.t) : Prop :=
  Forall (λ step, -2147483547 ≤ TrafficSplitStep.Weight step ≤ 2147483647) steps ∧
  (Z.of_nat (length steps) < 2147483647).

(** What the engine keeps true of a rollout: the two weights add up to 100,
    the step is an index into the steps or one past the last, a paused
    rollout has at least one step, and a succeeded one is past the last
    step with all traffic on the canary.  That a paused rollout has a step
    left to resume from is not kept: see
    [resumed_single_step_is_Paused_past_its_step]. *)
Definition rollout_invariant (c : CanaryDeployment.t) : Prop :=
  let s := CanaryDeployment.Status c in
  let n := Z.of_nat (length (CanaryDeploymentSpec.TrafficSplit (CanaryDeployment.Spec c))) in
  CanaryDeploymentStatus.CanaryWeight s + CanaryDeploymentStatus.StableWeight s = 100 ∧
  0 ≤ CanaryDeploymentStatus.CurrentStep s ≤ n ∧
  (CanaryDeploymentStatus.Phase s = CanaryDeploymentPhasePaused → 0 < n) ∧
  (CanaryDeploymentStatus.Phase s = CanaryDeploymentPhaseSucceeded →
   CanaryDeploymentStatus.CanaryWeight s = 100 ∧
   CanaryDeploymentStatus.CurrentStep s = n).

(** What the engine leaves alone in a rollout: its name, its spec, its
    deletion mark, and its annotations but for the resume annotation. *)
Definition same_declaration (c c' : CanaryDeployment.t) : Prop :=
  CanaryDeployment.Namespace c' = CanaryDeployment.Namespace c ∧
  CanaryDeployment.Name c' = CanaryDeployment.Name c ∧
  CanaryDeployment.DeletionTimestamp c' = CanaryDeployment.DeletionTimestamp c ∧
  CanaryDeployment.Spec c' = CanaryDeployment.Spec c ∧
  (CanaryDeployment.Annotations c' = CanaryDeployment.Annotations c ∨
   CanaryDeployment.Annotations c'
   = delete "gateway-cd.io/resume" (CanaryDeployment.Annotations c)).

(** [kept req w canary w']: between the worlds [w] and [w'] the rollout
    stored under [req], which was [canary], was replaced by one with the same
    declaration, or was not written at all, and no other rollout was
    written; if the weights of the steps fit and [canary] satisfied the
    invariant, so does what is stored now. *)
Definition kept (req : NamespacedName) (w : World) (canary : CanaryDeployment.t)
    (w' : World) : Prop :=
  ∃ c', canaries w' = <[req := c']> (canaries w) ∧
        same_declaration canary c' ∧
        (weights_fit (CanaryDeploymentSpec.TrafficSplit (CanaryDeployment.Spec canary)) →
         rollout_invariant canary → rollout_invariant c').

(** The analysis run [runAnalysis] records in the status for a result of
    the analyzer. *)
Definition run_of (result : AnalysisResult.t) : AnalysisRunStatus.t :=
  AnalysisRunStatus.mk
    (AnalysisResult.Phase result) (AnalysisResult.SuccessRate result)
    (AnalysisResult.AverageLatency result) (AnalysisResult.MetricResults result)
    (AnalysisResult.StartedAt result) (AnalysisResult.CompletedAt result).

(** The phases [Reconcile] has a handler for, and the empty one. *)
Definition handled_phases : list CanaryDeploymentPhase :=
  [""; CanaryDeploymentPhasePending; CanaryDeploymentPhaseProgressing;
   CanaryDeploymentPhasePaused; CanaryDeploymentPhaseRollingBack].

(** The route of a rollout can be read and written. *)
Definition route_available (env : Env) (canary : CanaryDeployment.t) (w : World) : Prop :=
  route_get_fault env = None ∧ route_update_fault env = None ∧
  is_Some (routes w !! route_key canary).

(** The world [UpdateTrafficSplit] leaves when it succeeds on [route]. *)
Definition route_written (canary : CanaryDeployment.t) (weight : Z)
    (route : HTTPRoute.t) (w : World) : World :=
  let route' := (updateHTTPRouteBackends route canary weight).1 in
  mkWorld (canaries w) (<[route_key canary := route']> (routes w))
          (trace w ++ [EvGetRoute (route_key canary);
                       EvUpdateRoute (route_key canary) route' None]).


(** A rollout whose weight is negative on some backend of the rule. *)
Definition has_negative_weight (rule : HTTPRouteRule.t) : Prop :=
  ∃ b x, b ∈ HTTPRouteRule.BackendRefs rule ∧ HTTPBackendRef.Weight b = Some x ∧ x < 0.

(** The rollout in memory once [handleProgressing] has moved to the next
    step, and the delay it then asks for. *)
Definition next_step (canary : CanaryDeployment.t) : CanaryDeployment.t :=
  CanaryDeployment.upd_Status
    (CanaryDeploymentStatus.with_CurrentStep
       (int32 (CanaryDeploymentStatus.CurrentStep (CanaryDeployment.Status canary) + 1)))
    canary.

Definition step_requeue (env : Env) (step : TrafficSplitStep.t) : Duration :=
  if bool_decide (TrafficSplitStep.Duration step ≠ "") then
    match time_ParseDuration env (TrafficSplitStep.Duration step) with
    | (duration, None) => duration
    | (_, Some _) => Second * 30
    end
  else Second * 30.

(** The analyzer is not called for this rollout. *)
Definition analysis_off (r : CanaryDeploymentReconciler.t) (canary : CanaryDeployment.t)
  : Prop :=
  CanaryDeploymentSpec.SkipAnalysis (CanaryDeployment.Spec canary) = true
  ∨ PrimFloat.ltb 0 (AnalysisTemplate.SuccessRate
                       (CanaryDeploymentSpec.Analysis (CanaryDeployment.Spec canary)))
    = false
  ∨ CanaryDeploymentReconciler.MetricsProvider r = None.

(** An environment in which the URL of no query parses. *)
Definition with_unparsable_URL (err : error) (env : Env) : Env :=
  mkEnv (time_Now env) (time_ParseDuration env) (strconv_ParseFloat env)
        (λ _, Some err) (http_NewRequestWithContext env) (http_Do env)
        (get_fault env) (route_get_fault env) (route_update_fault env)
        (update_fault env) (status_update_fault env).

(** Environments in which the API server refuses one kind of call. *)
Definition refusing_status_update (err : error) (env : Env) : Env :=
  mkEnv (time_Now env) (time_ParseDuration env) (strconv_ParseFloat env)
        (url_Parse env) (http_NewRequestWithContext env) (http_Do env)
        (get_fault env) (route_get_fault env) (route_update_fault env)
        (update_fault env) (Some err).

Definition refusing_route_update (err : error) (env : Env) : Env :=
  mkEnv (time_Now env) (time_ParseDuration env) (strconv_ParseFloat env)
        (url_Parse env) (http_NewRequestWithContext env) (http_Do env)
        (get_fault env) (route_get_fault env) (Some err)
        (update_fault env) (status_update_fault env).

(** A reply from which [GetMetric] reads the number [value]: status 200,
    a decoded body that says success, and a first sample whose second
    entry is a text that parses to [value]. *)
Definition reply_carries (env : Env) (reply : HTTPReply) (value : float) : Prop :=
  ∃ promResp first others valueStr,
    reply = Response 200 (Decoded promResp) ∧
    PrometheusResponse.Status promResp = "success" ∧
    PrometheusResponse.Result promResp = first :: others ∧
    PromSample.Value first !! 1%nat = Some (JString valueStr) ∧
    strconv_ParseFloat env valueStr = (value, None).

(** The verdict on one metric, next to the metric it is for. *)
Definition result_of (metric : AnalysisMetric.t) (mr : MetricResult.t) : Prop :=
  MetricResult.Name mr = AnalysisMetric.Name metric ∧
  MetricResult.Threshold mr = AnalysisMetric.Threshold metric ∧
  MetricResult.Passed mr
  = compareValues (MetricResult.Value mr) (AnalysisMetric.Threshold metric)
                  (AnalysisMetric.Operator metric).

(** The two standard checks, on the numbers a result carries. *)
Definition rate_ok (canary : CanaryDeployment.t) (res : AnalysisResult.t) : bool :=
  let wanted := AnalysisTemplate.SuccessRate
                  (CanaryDeploymentSpec.Analysis (CanaryDeployment.Spec canary)) in
  negb (PrimFloat.ltb 0 wanted) || negb (PrimFloat.ltb (AnalysisResult.SuccessRate res) wanted).

Definition latency_ok (canary : CanaryDeployment.t) (res : AnalysisResult.t) : bool :=
  let limit := AnalysisTemplate.MaxLatency
                 (CanaryDeploymentSpec.Analysis (CanaryDeployment.Spec canary)) in
  negb (bool_decide (0 < limit)) || negb (bool_decide (limit < AnalysisResult.AverageLatency res)).

(** The character that opens a placeholder. *)
Definition open_brace : Ascii.ascii := Eval cbv in Ascii.ascii_of_nat 123.

(** The character [c] occurs in [s]. *)
Fixpoint mentions (c : Ascii.ascii) (s : string) : bool :=
  match s with
  | EmptyString => false
  | String a s' => bool_decide (a = c) || mentions c s'
  end.

(** An environment that also parses the text [NaN], as Go does. *)
Definition parsing_NaN (env : Env) : Env :=
  mkEnv (time_Now env) (time_ParseDuration env)
        (λ s, if bool_decide (s = "NaN") then (PrimFloat.nan, None)
              else strconv_ParseFloat env s)
        (url_Parse env) (http_NewRequestWithContext env) (http_Do env)
        (get_fault env) (route_get_fault env) (route_update_fault env)
        (update_fault env) (status_update_fault env).

(** More of the demo: a rollout marked for deletion, and backends that
    answer every query with the sample [0.5], or with [NaN]. *)
Definition being_deleted (at_time : Time) (canary : CanaryDeployment.t)
  : CanaryDeployment.t :=
  CanaryDeployment.mk (CanaryDeployment.Namespace canary) (CanaryDeployment.Name canary)
    (CanaryDeployment.Annotations canary) (Some at_time)
    (CanaryDeployment.Spec canary) (CanaryDeployment.Status canary).

(** A rollout of a single step, which pauses; it is paused there and
    annotated with resume. *)
Definition single_step_canary : CanaryDeployment.t :=
  CanaryDeployment.mk "demo" "demo-app-canary" {[ "gateway-cd.io/resume" := "true" ]} None
    (CanaryDeploymentSpec.mk
       (WorkloadRef.mk "apps/v1" "Deployment" "demo-app-canary")
       (ServiceRef.mk "demo-app-service" 80)
       (GatewayRef.mk "demo-app-route" "" "demo")
       [TrafficSplitStep.mk 50 "" true] no_analysis false true)
    (demo_status "Paused" 0 50).

Definition backend_half : string → HTTPReply := λ _, sample_reply "0.5".
Definition backend_NaN : string → HTTPReply := λ _, sample_reply "NaN".

(** * Properties *)

(** ** Arithmetic of the fixed-width integers *)

Lemma int32_small z : -2147483648 ≤ z ≤ 2147483647 → int32 z = z.
Proof. intros H. unfold int32. rewrite Z.mod_small; lia. Qed.

Lemma int64_small z :
  -9223372036854775808 ≤ z ≤ 9223372036854775807 → int64 z = z.
Proof. intros H. unfold int64. rewrite Z.mod_small; lia. Qed.

(** Unfolds the monad to state passing. *)
Ltac unfold_M :=
  unfold mbind, M_bind, mret, M_ret, emit, get_trace, panic, Now in *.

(** ** The route mutator *)

Lemma updateRule_BackendRefs canary w rule :
  0 ≤ w ≤ 100 →
  let name := ServiceRef.Name (CanaryDeploymentSpec.Service (CanaryDeployment.Spec canary)) in
  let port := ServiceRef.Port (CanaryDeploymentSpec.Service (CanaryDeployment.Spec canary)) in
  let refs := HTTPRouteRule.BackendRefs (updateRule canary w rule) in
  (w = 0 → refs = [HTTPBackendRef.mk name (Some port) (Some 100)]) ∧
  (w = 100 → refs = [HTTPBackendRef.mk (name +:+ "-canary") (Some port) (Some 100)]) ∧
  (0 < w < 100 →
     refs = [HTTPBackendRef.mk name (Some port) (Some (100 - w));
             HTTPBackendRef.mk (name +:+ "-canary") (Some port) (Some w)]) ∧
  weight_total refs = Some 100.
Proof.
  intros Hw. unfold updateRule.
  repeat case_bool_decide; subst; simpl;
    unfold stableBackend, canaryBackend; simpl;
    rewrite ?int64_small, ?int32_small by lia.
  all: repeat split; intros; try lia; try reflexivity; simpl; f_equal; lia.
Qed.

(** A call that reports success found the route, met no refusal, and left
    the world with exactly one more write: the rewritten route. *)
Lemma UpdateTrafficSplit_ok env canary w world world' :
  UpdateTrafficSplit env canary w world = (Ret None, world') →
  ∃ route,
    route_get_fault env = None ∧ route_update_fault env = None ∧
    routes world !! route_key canary = Some route ∧
    world' = mkWorld (canaries world)
               (<[route_key canary := (updateHTTPRouteBackends route canary w).1]>
                  (routes world))
               (trace world
                ++ [EvGetRoute (route_key canary);
                    EvUpdateRoute (route_key canary)
                      (updateHTTPRouteBackends route canary w).1 None]).
Proof.
  unfold UpdateTrafficSplit, Get_route, Update_route. unfold_M. simpl.
  destruct (route_get_fault env) eqn:Hg; simpl; [intros [=]|].
  destruct (routes world !! route_key canary) as [route|] eqn:Hr; simpl; [|intros [=]].
  destruct (route_update_fault env) eqn:Hu; simpl; [intros [=]|].
  intros [= <-]. exists route. rewrite <- app_assoc. simpl. done.
Qed.

(** With the route in place and a willing API server the call succeeds. *)
Lemma UpdateTrafficSplit_succeeds env canary w world route :
  route_get_fault env = None →
  route_update_fault env = None →
  routes world !! route_key canary = Some route →
  ∃ world', UpdateTrafficSplit env canary w world = (Ret None, world').
Proof.
  intros Hget Hupdate Hroute.
  unfold UpdateTrafficSplit, Get_route, Update_route. unfold_M. simpl.
  rewrite Hget. simpl. rewrite Hroute. simpl. rewrite Hupdate. simpl. eauto.
Qed.

(** C6.  For a canary weight [w] between 0 and 100, a successful
    [UpdateTrafficSplit] leaves every rule of the referenced route with: the
    stable backend alone (weight 100) when [w = 0]; the canary backend alone
    (weight 100) when [w = 100]; otherwise the stable backend at [100 - w]
    followed by the canary backend at [w].  In each case the weights of the
    rule's backends add up to 100. *)
Theorem UpdateTrafficSplit_backend_weights env canary w world world' :
  0 ≤ w ≤ 100 →
  UpdateTrafficSplit env canary w world = (Ret None, world') →
  let name := ServiceRef.Name (CanaryDeploymentSpec.Service (CanaryDeployment.Spec canary)) in
  let port := ServiceRef.Port (CanaryDeploymentSpec.Service (CanaryDeployment.Spec canary)) in
  ∃ route route',
    routes world !! route_key canary = Some route ∧
    routes world' !! route_key canary = Some route' ∧
    length (HTTPRoute.Rules route') = length (HTTPRoute.Rules route) ∧
    ∀ rule, rule ∈ HTTPRoute.Rules route' →
      let refs := HTTPRouteRule.BackendRefs rule in
      (w = 0 → refs = [HTTPBackendRef.mk name (Some port) (Some 100)]) ∧
      (w = 100 →
         refs = [HTTPBackendRef.mk (name +:+ "-canary") (Some port) (Some 100)]) ∧
      (0 < w < 100 →
         refs = [HTTPBackendRef.mk name (Some port) (Some (100 - w));
                 HTTPBackendRef.mk (name +:+ "-canary") (Some port) (Some w)]) ∧
      weight_total refs = Some 100.
Proof.
  intros Hw Hrun name port.
  destruct (UpdateTrafficSplit_ok _ _ _ _ _ Hrun) as (route & _ & _ & Hold & ->).
  exists route, (updateHTTPRouteBackends route canary w).1. simpl.
  split; [done|]. split; [apply lookup_insert_eq|].
  split; [apply length_fmap|].
  intros rule [old [-> _]]%list_elem_of_fmap.
  apply updateRule_BackendRefs, Hw.
Qed.

(** The demo rollout at weight 20: the call succeeds and both rules of the
    route end with the pair stable at 80, canary at 20. *)
Lemma UpdateTrafficSplit_backend_weights_witness :
  let env := env_with (λ _, RequestFailed "unreachable") in
  let canary := demo_canary ∅ no_analysis true "Progressing" 0 0 in
  let world := demo_world canary in
  0 ≤ 20 ≤ 100 ∧
  UpdateTrafficSplit env canary 20 world
  = (Ret None, (UpdateTrafficSplit env canary 20 world).2) ∧
  ∃ route route',
    routes world !! route_key canary = Some route ∧
    routes (UpdateTrafficSplit env canary 20 world).2 !! route_key canary = Some route' ∧
    length (HTTPRoute.Rules route') = length (HTTPRoute.Rules route) ∧
    ∀ rule, rule ∈ HTTPRoute.Rules route' →
      let refs := HTTPRouteRule.BackendRefs rule in
      (20 = 0 → refs = [HTTPBackendRef.mk "demo-app-service" (Some 80) (Some 100)]) ∧
      (20 = 100 →
         refs = [HTTPBackendRef.mk "demo-app-service-canary" (Some 80) (Some 100)]) ∧
      (0 < 20 < 100 →
         refs = [HTTPBackendRef.mk "demo-app-service" (Some 80) (Some 80);
                 HTTPBackendRef.mk "demo-app-service-canary" (Some 80) (Some 20)]) ∧
      weight_total refs = Some 100.
Proof.
  intros env canary world.
  assert (Hw : 0 ≤ 20 ≤ 100) by lia.
  assert (Hrun : UpdateTrafficSplit env canary 20 world
                 = (Ret None, (UpdateTrafficSplit env canary 20 world).2))
    by (vm_compute; reflexivity).
  split; [exact Hw|]. split; [exact Hrun|].
  exact (UpdateTrafficSplit_backend_weights env canary 20 world _ Hw Hrun).
Defined.

Lemma updateRule_frame canary w rule :
  HTTPRouteRule.Filters (updateRule canary w rule) = HTTPRouteRule.Filters rule ∧
  (HTTPRouteRule.Matches rule = [] →
   HTTPRouteRule.Matches (updateRule canary w rule) = [HTTPRouteMatch.zero]) ∧
  (HTTPRouteRule.Matches rule ≠ [] →
   HTTPRouteRule.Matches (updateRule canary w rule) = HTTPRouteRule.Matches rule).
Proof.
  unfold updateRule.
  destruct (HTTPRouteRule.Matches rule) as [|m ms] eqn:Hm; simpl;
    repeat case_bool_decide; simpl; rewrite ?Hm; done.
Qed.

(** C7, as the code has it.  A successful [UpdateTrafficSplit] changes, in
    each rule of the referenced route, the backends and, when the rule has
    no match at all, the match list, which becomes the single empty match.
    A non-empty match list, the filters of every rule, the number of rules
    and the other fields of the route are kept, as are all other routes and
    the stored rollouts. *)
Theorem UpdateTrafficSplit_frame env canary w world world' :
  UpdateTrafficSplit env canary w world = (Ret None, world') →
  ∃ route route',
    routes world !! route_key canary = Some route ∧
    routes world' !! route_key canary = Some route' ∧
    HTTPRoute.Labels route' = HTTPRoute.Labels route ∧
    HTTPRoute.ParentRefs route' = HTTPRoute.ParentRefs route ∧
    HTTPRoute.Hostnames route' = HTTPRoute.Hostnames route ∧
    Forall2 (λ old new,
               HTTPRouteRule.Filters new = HTTPRouteRule.Filters old ∧
               (HTTPRouteRule.Matches old = [] →
                HTTPRouteRule.Matches new = [HTTPRouteMatch.zero]) ∧
               (HTTPRouteRule.Matches old ≠ [] →
                HTTPRouteRule.Matches new = HTTPRouteRule.Matches old))
            (HTTPRoute.Rules route) (HTTPRoute.Rules route') ∧
    (∀ key, key ≠ route_key canary → routes world' !! key = routes world !! key) ∧
    canaries world' = canaries world.
Proof.
  intros Hrun.
  destruct (UpdateTrafficSplit_ok _ _ _ _ _ Hrun) as (route & _ & _ & Hold & ->).
  exists route, (updateHTTPRouteBackends route canary w).1. simpl.
  split; [done|]. split; [apply lookup_insert_eq|].
  do 3 (split; [done|]).
  split.
  - apply Forall2_fmap_r, Forall_Forall2_diag, Forall_forall.
    intros rule _. apply updateRule_frame.
  - split; [|done]. intros key Hkey. by apply lookup_insert_ne.
Qed.

(** The demo route at weight 20: its first rule keeps its path match, its
    labels, parents and host names stay. *)
Lemma UpdateTrafficSplit_frame_witness :
  let env := env_with (λ _, RequestFailed "unreachable") in
  let canary := demo_canary ∅ no_analysis true "Progressing" 0 0 in
  let world := demo_world canary in
  let world' := (UpdateTrafficSplit env canary 20 world).2 in
  UpdateTrafficSplit env canary 20 world = (Ret None, world') ∧
  ∃ route route',
    routes world !! route_key canary = Some route ∧
    routes world' !! route_key canary = Some route' ∧
    HTTPRoute.Labels route' = HTTPRoute.Labels route ∧
    HTTPRoute.ParentRefs route' = HTTPRoute.ParentRefs route ∧
    HTTPRoute.Hostnames route' = HTTPRoute.Hostnames route ∧
    Forall2 (λ old new,
               HTTPRouteRule.Filters new = HTTPRouteRule.Filters old ∧
               (HTTPRouteRule.Matches old = [] →
                HTTPRouteRule.Matches new = [HTTPRouteMatch.zero]) ∧
               (HTTPRouteRule.Matches old ≠ [] →
                HTTPRouteRule.Matches new = HTTPRouteRule.Matches old))
            (HTTPRoute.Rules route) (HTTPRoute.Rules route') ∧
    (∀ key, key ≠ route_key canary → routes world' !! key = routes world !! key) ∧
    canaries world' = canaries world.
Proof.
  intros env canary world world'.
  assert (Hrun : UpdateTrafficSplit env canary 20 world = (Ret None, world'))
    by (vm_compute; reflexivity).
  split; [exact Hrun|].
  exact (UpdateTrafficSplit_frame env canary 20 world world' Hrun).
Defined.

(** C7, as stated, fails on a rule without matches: after a successful call
    at weight 20 the second rule of the demo route, whose match list was
    empty, carries one match. *)
Lemma UpdateTrafficSplit_rewrites_empty_matches :
  let env := env_with (λ _, RequestFailed "unreachable") in
  let canary := demo_canary ∅ no_analysis true "Progressing" 0 0 in
  let world := demo_world canary in
  let out := UpdateTrafficSplit env canary 20 world in
  out.1 = Ret None ∧
  (λ route, HTTPRouteRule.Matches <$> HTTPRoute.Rules route)
    <$> routes world !! route_key canary
  = Some [[HTTPRouteMatch.mk (Some "/api") None [] []]; []] ∧
  (λ route, HTTPRouteRule.Matches <$> HTTPRoute.Rules route)
    <$> routes out.2 !! route_key canary
  = Some [[HTTPRouteMatch.mk (Some "/api") None [] []]; [HTTPRouteMatch.zero]].
Proof. vm_compute. repeat split. Qed.

(** ** The analyzer *)

Lemma after_queries_app url qs1 qs2 w :
  after_queries url qs2 (after_queries url qs1 w) = after_queries url (qs1 ++ qs2) w.
Proof. unfold after_queries. simpl. by rewrite fmap_app, app_assoc. Qed.

Lemma after_queries_nil url w : after_queries url [] w = w.
Proof. destruct w. unfold after_queries. simpl. by rewrite app_nil_r. Qed.

Lemma sent_app env p qs1 qs2 :
  sent env p (qs1 ++ qs2) = sent env p qs1 ++ sent env p qs2.
Proof.
  induction qs1 as [|q qs1 IH]; [done|]. simpl.
  destruct (request_built env p q); simpl; by rewrite IH.
Qed.


(** [GetMetric] on a request that cannot be built: an error, and nothing
    sent. *)
Lemma GetMetric_unbuilt env p q w :
  request_built env p q = false →
  ∃ err, GetMetric env p q w = (Ret (0%float, Some err), w).
Proof.
  unfold request_built, GetMetric.
  destruct (url_Parse env _) as [e|]; [eauto|].
  destruct (http_NewRequestWithContext env _ q) as [e|]; [eauto|done].
Qed.

(** [GetMetric] on a request that can be built goes on to the backend. *)
Lemma GetMetric_built env p q w :
  request_built env p q = true →
  GetMetric env p q w
  = (tr ← get_trace;
     emit (EvQuery (PrometheusProvider.baseURL p) q);;
     match http_Do env tr (PrometheusProvider.baseURL p) q with
     | RequestFailed err => mret (0%float, Some err)
     | Response StatusCode body =>
         if bool_decide (StatusCode ≠ 200) then
           mret (0%float,
                 Some ("prometheus query failed with status " +:+ pretty StatusCode))
         else
           match body with
           | ReadFailed err => mret (0%float, Some err)
           | DecodeFailed err => mret (0%float, Some err)
           | Decoded promResp =>
               if bool_decide (PrometheusResponse.Status promResp ≠ "success") then
                 mret (0%float,
                       Some ("prometheus query failed: "
                             +:+ PrometheusResponse.Status promResp))
               else
                 match PrometheusResponse.Result promResp with
                 | [] => mret (0%float, Some "no data returned from prometheus query")
                 | first :: _ =>
                     match PromSample.Value first !! 1%nat with
                     | None => panic "index out of range [1]"
                     | Some (JString valueStr) =>
                         match strconv_ParseFloat env valueStr with
                         | (_, Some err) =>
                             mret (0%float,
                                   Some (wrap_err "failed to parse prometheus value: "
                                                  err))
                         | (value, None) => mret (value, None)
                         end
                     | Some _ =>
                         mret (0%float, Some "unexpected value type from prometheus")
                     end
                 end
           end
     end) w.
Proof.
  unfold request_built, GetMetric.
  destruct (url_Parse env _) as [e|]; [done|].
  destruct (http_NewRequestWithContext env _ q) as [e|]; [done|]. done.
Qed.

Lemma GetMetric_world env p q w :
  (GetMetric env p q w).2
  = after_queries (PrometheusProvider.baseURL p) (sent env p [q]) w.
Proof.
  simpl. destruct (request_built env p q) eqn:Hbuilt.
  2:{ destruct (GetMetric_unbuilt env p q w Hbuilt) as [err ->].
      by rewrite after_queries_nil. }
  rewrite (GetMetric_built env p q w Hbuilt). unfold_M. simpl.
  destruct (http_Do env (trace w) (PrometheusProvider.baseURL p) q) as [e|code body];
    [done|].
  case_bool_decide; [done|].
  destruct body as [e|e|resp]; [done|done|].
  case_bool_decide; [done|].
  destruct (PrometheusResponse.Result resp) as [|first others]; [done|].
  destruct (PromSample.Value first !! 1%nat) as [[s|f|b| |]|]; try done.
  destruct (strconv_ParseFloat env s) as [v [e|]]; done.
Qed.

(** [evaluateMetric] in terms of the outcome of its one query. *)
Lemma evaluateMetric_unfold env rt p canary metric w :
  evaluateMetric env rt p canary metric w =
  match GetMetric env p (replaceQueryPlaceholders rt (AnalysisMetric.Query metric) canary) w with
  | (Ret (_, Some err), w') => (Ret (None, Some err), w')
  | (Ret (value, None), w') =>
      (Ret (Some (MetricResult.mk (AnalysisMetric.Name metric) value
                    (AnalysisMetric.Threshold metric)
                    (compareValues value (AnalysisMetric.Threshold metric)
                       (AnalysisMetric.Operator metric))), None), w')
  | (Panic msg, w') => (Panic msg, w')
  end.
Proof.
  unfold evaluateMetric. unfold_M.
  destruct (GetMetric env p _ w) as [[[v [e|]]|msg] w']; done.
Qed.

Lemma GetMetric_value_built env p q w value w' :
  GetMetric env p q w = (Ret (value, None), w') → request_built env p q = true.
Proof.
  destruct (request_built env p q) eqn:Hbuilt; [done|].
  destruct (GetMetric_unbuilt env p q w Hbuilt) as [err ->]. intros [=].
Qed.

Lemma evaluateMetric_world env rt p canary metric w :
  (evaluateMetric env rt p canary metric w).2 =
  after_queries (PrometheusProvider.baseURL p)
    (sent env p [replaceQueryPlaceholders rt (AnalysisMetric.Query metric) canary]) w.
Proof.
  rewrite evaluateMetric_unfold.
  pose proof (GetMetric_world env p
                (replaceQueryPlaceholders rt (AnalysisMetric.Query metric) canary) w) as H.
  destruct (GetMetric env p _ w) as [[[v [e|]]|msg] w']; exact H.
Qed.

(** A metric that was evaluated without error had its query sent. *)
Lemma evaluateMetric_built env rt p canary metric w mr err w' :
  evaluateMetric env rt p canary metric w = (Ret (Some mr, err), w') →
  request_built env p (replaceQueryPlaceholders rt (AnalysisMetric.Query metric) canary)
  = true.
Proof.
  rewrite evaluateMetric_unfold.
  destruct (GetMetric env p _ w) as [[[v [e|]]|msg] w0] eqn:Hget; intros [=].
  by eapply GetMetric_value_built.
Qed.

(** A result or an error, never both, never neither. *)
Lemma evaluateMetric_shape env rt p canary metric w out err w' :
  evaluateMetric env rt p canary metric w = (Ret (out, err), w') →
  (out = None ∧ err ≠ None) ∨
  (err = None ∧ ∃ value,
      out = Some (MetricResult.mk (AnalysisMetric.Name metric) value
                    (AnalysisMetric.Threshold metric)
                    (compareValues value (AnalysisMetric.Threshold metric)
                       (AnalysisMetric.Operator metric)))).
Proof.
  rewrite evaluateMetric_unfold.
  destruct (GetMetric env p _ w) as [[[v [e|]]|msg] w0]; intros [=]; subst.
  - by left.
  - right. eauto.
Qed.

(** The loop over a prefix that meets no error, followed by the rest. *)
Lemma evaluateMetrics_app env rt p canary done rest result w result1 w1 :
  evaluateMetrics env rt p canary done result w = (Ret (result1, None), w1) →
  evaluateMetrics env rt p canary (done ++ rest) result w
  = evaluateMetrics env rt p canary rest result1 w1.
Proof.
  revert result w. induction done as [|m done IH]; intros result w; simpl.
  - unfold_M. by intros [= -> ->].
  - unfold_M.
    destruct (evaluateMetric env rt p canary m w) as [[[[mr|] [e|]]|msg] w0];
      try (intros [=]; fail).
    apply IH.
Qed.

(** What a loop without error leaves behind: one result per metric, in
    order, one query per metric, and the other fields as they were, except
    that [Passed] may have dropped. *)
Lemma evaluateMetrics_ok env rt p canary metrics result w result1 w1 :
  evaluateMetrics env rt p canary metrics result w = (Ret (result1, None), w1) →
  w1 = after_queries (PrometheusProvider.baseURL p) (metric_queries rt canary metrics) w ∧
  (∃ results,
     AnalysisResult.MetricResults result1 = AnalysisResult.MetricResults result ++ results ∧
     MetricResult.Name <$> results = AnalysisMetric.Name <$> metrics) ∧
  AnalysisResult.Phase result1 = AnalysisResult.Phase result ∧
  AnalysisResult.SuccessRate result1 = AnalysisResult.SuccessRate result ∧
  AnalysisResult.AverageLatency result1 = AnalysisResult.AverageLatency result ∧
  AnalysisResult.StartedAt result1 = AnalysisResult.StartedAt result ∧
  AnalysisResult.CompletedAt result1 = AnalysisResult.CompletedAt result ∧
  (AnalysisResult.Passed result = false → AnalysisResult.Passed result1 = false).
Proof.
  revert result w. induction metrics as [|m metrics IH]; intros result w; simpl.
  - unfold_M. intros [= -> ->]. rewrite after_queries_nil.
    split; [done|]. split; [|done]. exists []. by rewrite app_nil_r.
  - unfold_M.
    pose proof (evaluateMetric_world env rt p canary m w) as Hw.
    destruct (evaluateMetric env rt p canary m w) as [[[[mr|] [e|]]|msg] w0] eqn:Hm;
      try (intros [=]; fail).
    simpl in Hw. rewrite (evaluateMetric_built _ _ _ _ _ _ _ _ _ Hm) in Hw.
    subst w0. intros Hrest.
    apply evaluateMetric_shape in Hm as [[? _]|[_ [value [= ->]]]]; [done|].
    simpl in Hrest.
    destruct (compareValues value _ _); simpl in Hrest;
      apply IH in Hrest as (-> & (results & Hres & Hnames) & HP & HS & HL & HA & HC & Hpass);
      rewrite after_queries_app; simpl in *;
      (split; [done|]); (split; [|repeat split; auto; congruence]);
      eexists (_ :: results); rewrite Hres, <- app_assoc; simpl; (split; [done|]); f_equal; exact Hnames.
Qed.

Lemma RunAnalysis_unfold env rt p canary w :
  RunAnalysis env rt p canary w =
  match evaluateMetrics env rt p canary
          (AnalysisTemplate.Metrics
             (CanaryDeploymentSpec.Analysis (CanaryDeployment.Spec canary)))
          (initial_result env w) w with
  | (Ret (result, Some err), w1) => (Ret (result, Some err), w1)
  | (Ret (result, None), w1) =>
      match checkSuccessRate env p canary result w1 with
      | (Ret (result, Some err), w2) => (Ret (result, Some err), w2)
      | (Ret (result, None), w2) =>
          match checkLatency env rt p canary result w2 with
          | (Ret (result, Some err), w3) => (Ret (result, Some err), w3)
          | (Ret (result, None), w3) =>
              (Ret (AnalysisResult.with_CompletedAt (Some (time_Now env (trace w3)))
                      (if AnalysisResult.Passed result
                       then AnalysisResult.with_Phase "Successful"
                              (AnalysisResult.with_Phase "Completed" result)
                       else AnalysisResult.with_Phase "Failed"
                              (AnalysisResult.with_Phase "Completed" result)),
                    None), w3)
          | (Panic msg, w3) => (Panic msg, w3)
          end
      | (Panic msg, w2) => (Panic msg, w2)
      end
  | (Panic msg, w1) => (Panic msg, w1)
  end.
Proof.
  unfold RunAnalysis, initial_result. unfold_M. simpl.
  destruct (evaluateMetrics _ _ _ _ _ _ w) as [[[r1 [e1|]]|m1] w1]; try done.
  destruct (checkSuccessRate _ _ _ _ w1) as [[[r2 [e2|]]|m2] w2]; try done.
  destruct (checkLatency _ _ _ _ _ w2) as [[[r3 [e3|]]|m3] w3]; try done.
Qed.

(** C9.  When the metrics before [metric] are evaluated without error and
    the query of [metric] errors, [RunAnalysis] returns at once: the verdict
    is not passed, the phase is Failed, [completedAt] is unset, the results
    are those of the metrics before [metric] and no others, success rate and
    latency are still at their zero values, and the only queries issued are
    those of the metrics before [metric] and, if its request could be built,
    that of [metric]: none for the metrics after it, none for the success
    rate, none for the latency. *)
Theorem RunAnalysis_stops_at_failing_metric
    env rt p canary done metric rest world result1 world1 value err world2 :
  AnalysisTemplate.Metrics (CanaryDeploymentSpec.Analysis (CanaryDeployment.Spec canary))
  = done ++ metric :: rest →
  evaluateMetrics env rt p canary done (initial_result env world) world
  = (Ret (result1, None), world1) →
  GetMetric env p (replaceQueryPlaceholders rt (AnalysisMetric.Query metric) canary) world1
  = (Ret (value, Some err), world2) →
  ∃ result,
    RunAnalysis env rt p canary world
    = (Ret (result,
            Some (wrap_err ("failed to evaluate metric "
                            +:+ AnalysisMetric.Name metric +:+ ": ") err)),
       world2) ∧
    AnalysisResult.Passed result = false ∧
    AnalysisResult.Phase result = "Failed" ∧
    AnalysisResult.CompletedAt result = None ∧
    MetricResult.Name <$> AnalysisResult.MetricResults result
    = AnalysisMetric.Name <$> done ∧
    AnalysisResult.SuccessRate result = 0%float ∧
    AnalysisResult.AverageLatency result = 0 ∧
    world2 = after_queries (PrometheusProvider.baseURL p)
               (metric_queries rt canary done
                ++ sent env p (metric_queries rt canary [metric])) world.
Proof.
  intros Hmetrics Hdone Hquery.
  assert (Hfail : evaluateMetric env rt p canary metric world1
                  = (Ret (None, Some err), world2))
    by (by rewrite evaluateMetric_unfold, Hquery).
  exists (AnalysisResult.with_Passed false (AnalysisResult.with_Phase "Failed" result1)).
  split.
  - rewrite RunAnalysis_unfold, Hmetrics, (evaluateMetrics_app _ _ _ _ _ _ _ _ _ _ Hdone).
    simpl. unfold_M. by rewrite Hfail.
  - apply evaluateMetrics_ok in Hdone
      as (-> & (results & Hres & Hnames) & HP & HS & HL & HA & HC & _).
    simpl in *. rewrite Hres, HS, HL, HC.
    repeat split; try done.
    pose proof (evaluateMetric_world env rt p canary metric
                  (after_queries (PrometheusProvider.baseURL p)
                     (metric_queries rt canary done) world)) as Hw.
    rewrite Hfail in Hw. simpl in Hw.
    rewrite Hw, after_queries_app. done.
Qed.

(** Three metrics, a backend that answers the first query and refuses the
    second: the run ends at the second metric, after two queries. *)
Lemma RunAnalysis_stops_at_failing_metric_witness :
  let env := env_with backend_errors_only in
  let canary := demo_canary ∅ demo_analysis false "Progressing" 0 0 in
  let world := demo_world canary in
  let url := "http://prometheus:9090" in
  let q1 := "rate(errors{service=demo-app-service-canary})" in
  let q2 := "saturation{namespace=demo}" in
  let result1 :=
    AnalysisResult.mk "Running" 0%float 0
      [MetricResult.mk "error-rate" 0.5%float 0.75%float true] (Some 0) None true in
  ∃ result,
    RunAnalysis env go_runtime demo_provider canary world
    = (Ret (result,
            Some "failed to evaluate metric saturation: connection refused"),
       after_queries url [q1; q2] world) ∧
    AnalysisResult.Passed result = false ∧
    AnalysisResult.Phase result = "Failed" ∧
    AnalysisResult.CompletedAt result = None ∧
    MetricResult.Name <$> AnalysisResult.MetricResults result = ["error-rate"] ∧
    AnalysisResult.SuccessRate result = 0%float ∧
    AnalysisResult.AverageLatency result = 0 ∧
    after_queries url [q1; q2] world
    = after_queries url
        (metric_queries go_runtime canary [metric_errors]
         ++ sent env demo_provider (metric_queries go_runtime canary [metric_saturation]))
        world.
Proof.
  intros env canary world url q1 q2 result1.
  exact (RunAnalysis_stops_at_failing_metric env go_runtime demo_provider canary
           [metric_errors] metric_saturation [metric_typo] world result1
           (after_queries url [q1] world) 0%float "connection refused"
           (after_queries url [q1; q2] world)
           eq_refl
           ltac:(vm_compute; reflexivity)
           ltac:(vm_compute; reflexivity)).
Defined.

Lemma compareValues_unrecognized value threshold operator :
  operator ∉ recognized_operators →
  compareValues value threshold operator = false.
Proof.
  intros Hop. unfold compareValues.
  repeat case_bool_decide; try done; subst;
    exfalso; apply Hop; unfold recognized_operators; set_solver.
Qed.

(** How the verdict moves through the loop: it never comes back to passed,
    an error leaves it failed, and so does a metric whose comparison is
    false whatever the value. *)
Lemma evaluateMetrics_verdict env rt p canary metrics result w res err w' :
  evaluateMetrics env rt p canary metrics result w = (Ret (res, err), w') →
  (AnalysisResult.Passed result = false → AnalysisResult.Passed res = false) ∧
  (err ≠ None →
   AnalysisResult.Passed res = false ∧ AnalysisResult.Phase res = "Failed" ∧
   AnalysisResult.CompletedAt res = AnalysisResult.CompletedAt result) ∧
  (∀ m, m ∈ metrics →
        (∀ v, compareValues v (AnalysisMetric.Threshold m) (AnalysisMetric.Operator m)
              = false) →
        AnalysisResult.Passed res = false).
Proof.
  revert result w. induction metrics as [|m metrics IH]; intros result w; simpl.
  - unfold_M. intros [= -> <- <-]. split; [done|]. split; [done|].
    intros m Hm. by apply elem_of_nil in Hm.
  - unfold_M.
    destruct (evaluateMetric env rt p canary m w) as [[[out e]|msg] w0] eqn:Hm;
      [|intros [=]].
    apply evaluateMetric_shape in Hm as [[-> He]|[-> [value ->]]].
    + destruct e as [e|]; [|done]. intros [= <- <- <-]. simpl. done.
    + simpl. intros Hrest. apply IH in Hrest as (Hmono & Herr & Hbad).
      split; [|split].
      * intros Hp. apply Hmono. destruct (compareValues _ _ _); simpl; auto.
      * intros He. destruct (Herr He) as (? & ? & HC). repeat split; auto.
        rewrite HC. by destruct (compareValues _ _ _).
      * intros m' [->|Hin]%elem_of_cons Hfalse; [|by eapply Hbad].
        apply Hmono. by rewrite Hfalse.
Qed.

Lemma checkSuccessRate_verdict env p canary result w res err w' :
  checkSuccessRate env p canary result w = (Ret (res, err), w') →
  (AnalysisResult.Passed result = false → AnalysisResult.Passed res = false) ∧
  AnalysisResult.CompletedAt res = AnalysisResult.CompletedAt result ∧
  (err ≠ None →
   AnalysisResult.Passed res = false ∧ AnalysisResult.Phase res = "Failed").
Proof.
  unfold checkSuccessRate, getSuccessRate. unfold_M.
  destruct (PrimFloat.ltb 0 _); [|by intros [= <- <- <-]].
  destruct (GetMetric env p _ w) as [[[v [e|]]|msg] w0]; simpl; [| |intros [=]].
  - by intros [= <- <- <-].
  - intros [= <- <- <-]. by destruct (PrimFloat.ltb v _).
Qed.

Lemma checkLatency_verdict env rt p canary result w res err w' :
  checkLatency env rt p canary result w = (Ret (res, err), w') →
  (AnalysisResult.Passed result = false → AnalysisResult.Passed res = false) ∧
  AnalysisResult.CompletedAt res = AnalysisResult.CompletedAt result ∧
  (err ≠ None →
   AnalysisResult.Passed res = false ∧ AnalysisResult.Phase res = "Failed").
Proof.
  unfold checkLatency, getAverageLatency. unfold_M.
  case_bool_decide; [|by intros [= <- <- <-]].
  destruct (GetMetric env p _ w) as [[[v [e|]]|msg] w0]; simpl; [| |intros [=]].
  - by intros [= <- <- <-].
  - intros [= <- <- <-]. by case_bool_decide.
Qed.

(** The verdict of a run that returns: with an error it is failed and not
    stamped as completed; without, the phase follows [Passed]; and a metric
    whose comparison is always false makes it failed either way. *)

(** The verdict of a run that returns: with an error it is failed and not
    stamped as completed; without, the phase follows [Passed]; and a metric
    whose comparison is always false makes it failed either way. *)
Lemma RunAnalysis_verdict env rt p canary w res err w' :
  RunAnalysis env rt p canary w = (Ret (res, err), w') →
  (err ≠ None →
   AnalysisResult.Passed res = false ∧ AnalysisResult.Phase res = "Failed" ∧
   AnalysisResult.CompletedAt res = None) ∧
  (err = None →
   AnalysisResult.Phase res
   = (if AnalysisResult.Passed res then "Successful" else "Failed") ∧
   AnalysisResult.CompletedAt res ≠ None) ∧
  (∀ m, m ∈ AnalysisTemplate.Metrics
              (CanaryDeploymentSpec.Analysis (CanaryDeployment.Spec canary)) →
        (∀ v, compareValues v (AnalysisMetric.Threshold m) (AnalysisMetric.Operator m)
              = false) →
        AnalysisResult.Passed res = false ∧ AnalysisResult.Phase res = "Failed").
Proof.
  rewrite RunAnalysis_unfold.
  destruct (evaluateMetrics _ _ _ _ _ _ w) as [[[r1 e1]|m1] w1] eqn:H1; [|intros [=]].
  pose proof (evaluateMetrics_verdict _ _ _ _ _ _ _ _ _ _ H1) as (_ & Herr1 & Hbad1).
  destruct e1 as [e1|].
  { intros [= <- <- <-]. destruct Herr1 as (? & ? & ?); [done|].
    repeat split; auto; done. }
  apply evaluateMetrics_ok in H1 as (_ & _ & _ & _ & _ & _ & HC1 & _).
  simpl in HC1.
  destruct (checkSuccessRate _ _ _ _ w1) as [[[r2 e2]|m2] w2] eqn:H2; [|intros [=]].
  apply checkSuccessRate_verdict in H2 as (Hmono2 & HC2 & Herr2).
  destruct e2 as [e2|].
  { intros [= <- <- <-]. destruct Herr2 as (? & ?); [done|].
    repeat split; auto; try done. congruence. }
  destruct (checkLatency _ _ _ _ _ w2) as [[[r3 e3]|m3] w3] eqn:H3; [|intros [=]].
  apply checkLatency_verdict in H3 as (Hmono3 & HC3 & Herr3).
  destruct e3 as [e3|].
  { intros [= <- <- <-]. destruct Herr3 as (? & ?); [done|].
    repeat split; auto; try done. congruence. }
  intros [= <- <- <-]. split; [done|]. split.
  - intros _. destruct (AnalysisResult.Passed r3) eqn:Hp; simpl; rewrite Hp; done.
  - intros m Hm Hfalse.
    assert (AnalysisResult.Passed r3 = false) as Hp by eauto.
    rewrite Hp. done.
Qed.

Lemma GetMetric_returns env p q w :
  reply_panics (http_Do env (trace w) (PrometheusProvider.baseURL p) q) = false →
  ∃ value err, (GetMetric env p q w).1 = Ret (value, err).
Proof.
  intros Hp. destruct (request_built env p q) eqn:Hbuilt.
  2:{ destruct (GetMetric_unbuilt env p q w Hbuilt) as [err ->]. simpl. eauto. }
  rewrite (GetMetric_built env p q w Hbuilt). unfold_M. simpl.
  destruct (http_Do env (trace w) (PrometheusProvider.baseURL p) q) as [e|code body];
    [eauto|].
  case_bool_decide as Hcode; [eauto|].
  destruct body as [e|e|resp]; [eauto|eauto|].
  case_bool_decide as Hstatus; [eauto|].
  destruct (PrometheusResponse.Result resp) as [|first others] eqn:Hres; [eauto|].
  destruct (PromSample.Value first !! 1%nat) as [[s|f|b| |]|] eqn:Hv; simpl; eauto.
  - destruct (strconv_ParseFloat env s) as [v [e|]]; simpl; eauto.
  - exfalso. simpl in Hp. rewrite Hres in Hp.
    apply lookup_ge_None in Hv.
    rewrite !bool_decide_true in Hp; [done|lia| |].
    + by destruct (decide (PrometheusResponse.Status resp = "success")).
    + by destruct (decide (code = 200)).
Qed.

Lemma evaluateMetrics_returns env rt p canary metrics result w :
  panic_free env p →
  ∃ res err, (evaluateMetrics env rt p canary metrics result w).1 = Ret (res, err).
Proof.
  intros Hfree. revert result w.
  induction metrics as [|m metrics IH]; intros result w; simpl.
  - unfold_M. eauto.
  - unfold_M. rewrite evaluateMetric_unfold.
    destruct (GetMetric_returns env p
                (replaceQueryPlaceholders rt (AnalysisMetric.Query m) canary) w)
      as (value & err & Hret); [apply Hfree|].
    destruct (GetMetric env p _ w) as [out w0]. simpl in Hret. subst out.
    destruct err as [e|]; simpl; [eauto|]. apply IH.
Qed.

Lemma checkSuccessRate_returns env p canary result w :
  panic_free env p →
  ∃ res err, (checkSuccessRate env p canary result w).1 = Ret (res, err).
Proof.
  intros Hfree. unfold checkSuccessRate, getSuccessRate. unfold_M.
  destruct (PrimFloat.ltb 0 _); [|simpl; eauto].
  match goal with |- context [GetMetric env p ?q w] =>
    destruct (GetMetric_returns env p q w) as (v & e & Hret); [apply Hfree|];
    destruct (GetMetric env p q w) as [o w0] end.
  simpl in Hret. subst o. destruct e; simpl; eauto.
Qed.

Lemma checkLatency_returns env rt p canary result w :
  panic_free env p →
  ∃ res err, (checkLatency env rt p canary result w).1 = Ret (res, err).
Proof.
  intros Hfree. unfold checkLatency, getAverageLatency. unfold_M.
  case_bool_decide; [|simpl; eauto].
  match goal with |- context [GetMetric env p ?q w] =>
    destruct (GetMetric_returns env p q w) as (v & e & Hret); [apply Hfree|];
    destruct (GetMetric env p q w) as [o w0] end.
  simpl in Hret. subst o. destruct e; simpl; eauto.
Qed.

(** With a backend that sends well-formed samples the analyzer always
    returns. *)
Lemma RunAnalysis_returns env rt p canary w :
  panic_free env p →
  ∃ res err w', RunAnalysis env rt p canary w = (Ret (res, err), w').
Proof.
  intros Hfree. rewrite RunAnalysis_unfold.
  destruct (evaluateMetrics_returns env rt p canary
              (AnalysisTemplate.Metrics
                 (CanaryDeploymentSpec.Analysis (CanaryDeployment.Spec canary)))
              (initial_result env w) w Hfree) as (r1 & e1 & H1).
  destruct (evaluateMetrics _ _ _ _ _ _ w) as [o1 w1]. simpl in H1. subst o1.
  destruct e1 as [e1|]; [eauto|].
  destruct (checkSuccessRate_returns env p canary r1 w1 Hfree) as (r2 & e2 & H2).
  destruct (checkSuccessRate _ _ _ _ w1) as [o2 w2]. simpl in H2. subst o2.
  destruct e2 as [e2|]; [eauto|].
  destruct (checkLatency_returns env rt p canary r2 w2 Hfree) as (r3 & e3 & H3).
  destruct (checkLatency _ _ _ _ _ w2) as [o3 w3]. simpl in H3. subst o3.
  destruct e3 as [e3|]; eauto.
Qed.

(** C10.  For a configured metric whose operator is none of [>], [>=], [<],
    [<=], [==], [!=]: the comparison is false for every measured value and
    threshold; whenever the query yields a value, the metric is recorded with
    [Passed = false]; and the analysis never passes: given a backend whose
    samples are well formed, [RunAnalysis] returns, and what it returns has
    [Passed = false] and phase Failed. *)
Theorem unrecognized_operator_fails_closed env rt p canary metric :
  metric ∈ AnalysisTemplate.Metrics
             (CanaryDeploymentSpec.Analysis (CanaryDeployment.Spec canary)) →
  AnalysisMetric.Operator metric ∉ recognized_operators →
  (∀ value threshold,
     compareValues value threshold (AnalysisMetric.Operator metric) = false) ∧
  (∀ world value world',
     GetMetric env p (replaceQueryPlaceholders rt (AnalysisMetric.Query metric) canary)
               world = (Ret (value, None), world') →
     evaluateMetric env rt p canary metric world
     = (Ret (Some (MetricResult.mk (AnalysisMetric.Name metric) value
                     (AnalysisMetric.Threshold metric) false), None), world')) ∧
  (∀ world result err world',
     RunAnalysis env rt p canary world = (Ret (result, err), world') →
     AnalysisResult.Passed result = false ∧ AnalysisResult.Phase result = "Failed") ∧
  (panic_free env p →
   ∀ world, ∃ result err world',
     RunAnalysis env rt p canary world = (Ret (result, err), world') ∧
     AnalysisResult.Passed result = false ∧ AnalysisResult.Phase result = "Failed").
Proof.
  intros Hin Hop.
  assert (Hfalse : ∀ value threshold,
            compareValues value threshold (AnalysisMetric.Operator metric) = false)
    by (intros; by apply compareValues_unrecognized).
  assert (Hverdict : ∀ world result err world',
            RunAnalysis env rt p canary world = (Ret (result, err), world') →
            AnalysisResult.Passed result = false ∧ AnalysisResult.Phase result = "Failed").
  { intros world result err world' Hrun.
    apply RunAnalysis_verdict in Hrun as (_ & _ & Hbad). eapply Hbad; eauto. }
  split; [exact Hfalse|]. split; [|split; [exact Hverdict|]].
  - intros world value world' Hq. by rewrite evaluateMetric_unfold, Hq, Hfalse.
  - intros Hfree world.
    destruct (RunAnalysis_returns env rt p canary world Hfree) as (res & err & w' & Hrun).
    exists res, err, w'. split; [done|]. eapply Hverdict, Hrun.
Qed.

(** The third demo metric carries the operator [=<]: whatever the backend
    answers, the analysis does not pass. *)
Lemma unrecognized_operator_fails_closed_witness :
  let env := env_with (λ _, sample_reply "0.5") in
  let canary := demo_canary ∅ demo_analysis false "Progressing" 0 0 in
  (metric_typo ∈ AnalysisTemplate.Metrics
                   (CanaryDeploymentSpec.Analysis (CanaryDeployment.Spec canary))) ∧
  (AnalysisMetric.Operator metric_typo ∉ recognized_operators) ∧
  (∀ value threshold, compareValues value threshold "=<" = false) ∧
  (∀ world result err world',
     RunAnalysis env go_runtime demo_provider canary world
     = (Ret (result, err), world') →
     AnalysisResult.Passed result = false ∧ AnalysisResult.Phase result = "Failed").
Proof.
  intros env canary.
  assert (Hin : metric_typo ∈ AnalysisTemplate.Metrics
                  (CanaryDeploymentSpec.Analysis (CanaryDeployment.Spec canary)))
    by (do 2 apply list_elem_of_further; apply list_elem_of_here).
  assert (Hop : AnalysisMetric.Operator metric_typo ∉ recognized_operators)
    by (apply (bool_decide_unpack _); vm_compute; exact I).
  split; [exact Hin|]. split; [exact Hop|].
  pose proof (unrecognized_operator_fails_closed env go_runtime demo_provider canary
                metric_typo Hin Hop) as (Hcmp & _ & Hrun & _).
  split; [exact Hcmp|exact Hrun].
Defined.

(** ** The reconciler *)

(** Settles the tests of the phase switch once the phase is known. *)
Ltac decide_phase :=
  repeat (rewrite bool_decide_eq_false_2 by
            (unfold CanaryDeploymentPhasePending, CanaryDeploymentPhaseProgressing,
               CanaryDeploymentPhasePaused, CanaryDeploymentPhaseRollingBack,
               CanaryDeploymentPhaseSucceeded, CanaryDeploymentPhaseFailed;
             congruence));
  try rewrite bool_decide_eq_true_2 by done.

(** [Reconcile] on a rollout that is stored, not being deleted, and in a
    phase with a handler: the handler runs on the object read. *)
Lemma Reconcile_dispatch env rt r req w canary :
  get_fault env = None →
  canaries w !! req = Some canary →
  CanaryDeployment.DeletionTimestamp canary = None →
  let phase := CanaryDeploymentStatus.Phase (CanaryDeployment.Status canary) in
  (phase = CanaryDeploymentPhasePending →
   Reconcile env rt r req w = handlePending env canary (fetched req w)) ∧
  (phase = CanaryDeploymentPhaseProgressing →
   Reconcile env rt r req w = handleProgressing env rt r canary (fetched req w)) ∧
  (phase = CanaryDeploymentPhasePaused →
   Reconcile env rt r req w = handlePaused env canary (fetched req w)) ∧
  (phase = CanaryDeploymentPhaseRollingBack →
   Reconcile env rt r req w = handleRollingBack env canary (fetched req w)).
Proof.
  intros Hget Hstored Hlive phase.
  unfold Reconcile, Get_canary. unfold_M. simpl.
  rewrite Hget. simpl. rewrite Hstored. simpl.
  rewrite (bool_decide_eq_false_2 _) by (rewrite Hlive; auto).
  fold phase.
  repeat split; intros Hphase; rewrite Hphase; decide_phase; reflexivity.
Qed.

(** [UpdateTrafficSplit] never panics, and when it reports an error the
    stored objects are as before. *)
Lemma UpdateTrafficSplit_err env canary w world :
  ∃ failed world',
    UpdateTrafficSplit env canary w world = (Ret failed, world') ∧
    canaries world' = canaries world ∧
    (failed ≠ None → routes world' = routes world) ∧
    (route_update_fault env ≠ None → failed ≠ None).
Proof.
  unfold UpdateTrafficSplit, Get_route, Update_route. unfold_M. simpl.
  destruct (route_get_fault env) eqn:Hg; simpl.
  { eexists _, _. split; [reflexivity|]. simpl. done. }
  destruct (routes world !! route_key canary) as [route|] eqn:Hr; simpl.
  2:{ eexists _, _. split; [reflexivity|]. simpl. done. }
  destruct (route_update_fault env) eqn:Hu; simpl.
  { eexists _, _. split; [reflexivity|]. simpl. done. }
  eexists _, _. split; [reflexivity|]. simpl. done.
Qed.

(** What [r.Status().Update] does to the world. *)
Lemma Status_Update_run env c w :
  Status_Update env c w =
  (Ret (status_update_fault env),
   mkWorld (match status_update_fault env with
            | None => alter (CanaryDeployment.with_Status (CanaryDeployment.Status c))
                            (key_of c) (canaries w)
            | Some _ => canaries w
            end)
           (routes w)
           (trace w ++ [EvStatusUpdate c (status_update_fault env)])).
Proof.
  unfold Status_Update. unfold_M. simpl. by destruct (status_update_fault env).
Qed.

Lemma key_of_upd_Status f c : key_of (CanaryDeployment.upd_Status f c) = key_of c.
Proof. reflexivity. Qed.

(** The two ways [Reconcile] ends before the phase switch. *)
Lemma Reconcile_get_fault env rt r req w e :
  get_fault env = Some e →
  Reconcile env rt r req w = (Ret (Result.zero, Some e), fetched req w).
Proof.
  intros Hget. unfold Reconcile, Get_canary. unfold_M. simpl. by rewrite Hget.
Qed.

Lemma Reconcile_deletion env rt r req w canary :
  get_fault env = None →
  canaries w !! req = Some canary →
  CanaryDeployment.DeletionTimestamp canary ≠ None →
  Reconcile env rt r req w = handleDeletion env canary (fetched req w).
Proof.
  intros Hget Hstored Hdel. unfold Reconcile, Get_canary. unfold_M. simpl.
  rewrite Hget. simpl. rewrite Hstored. simpl.
  by rewrite (bool_decide_eq_true_2 _ Hdel).
Qed.

(** Deletion writes no rollout, and no route either when the route write
    is refused. *)
Lemma handleDeletion_stores env canary w :
  canaries (handleDeletion env canary w).2 = canaries w ∧
  (route_update_fault env ≠ None → routes (handleDeletion env canary w).2 = routes w).
Proof.
  unfold handleDeletion, Cleanup. unfold_M.
  destruct (UpdateTrafficSplit_err env canary 0 w) as (failed & w1 & -> & Hc & Hr & Hf).
  destruct failed as [err|]; simpl.
  - split; [done|]. intros _. by apply Hr.
  - split; [done|]. intros Hrefused. by destruct (Hf Hrefused).
Qed.

(** A rollout in RollingBack whose route write is refused is left as it
    is, and so is the route. *)
Lemma Reconcile_RollingBack_refused env rt r req w canary :
  canaries w !! req = Some canary →
  CanaryDeploymentStatus.Phase (CanaryDeployment.Status canary)
  = CanaryDeploymentPhaseRollingBack →
  route_update_fault env ≠ None →
  canaries (Reconcile env rt r req w).2 = canaries w ∧
  routes (Reconcile env rt r req w).2 = routes w.
Proof.
  intros Hstored Hphase Hrefused.
  destruct (get_fault env) as [e|] eqn:Hget.
  { by rewrite (Reconcile_get_fault _ _ _ _ _ _ Hget). }
  destruct (CanaryDeployment.DeletionTimestamp canary) as [t|] eqn:Hlive.
  { rewrite (Reconcile_deletion env rt r req w canary Hget Hstored)
      by (rewrite Hlive; done).
    destruct (handleDeletion_stores env canary (fetched req w)) as [Hc Hr].
    by rewrite Hc, Hr. }
  destruct (Reconcile_dispatch env rt r req w canary Hget Hstored Hlive)
    as (_ & _ & _ & ->); [|done].
  unfold handleRollingBack. unfold_M.
  destruct (UpdateTrafficSplit_err env canary 0 (fetched req w))
    as (failed & w1 & -> & Hc & Hr & Hf).
  destruct failed as [err|]; [|by destruct Hf].
  simpl. rewrite Hc, Hr by done. done.
Qed.

Lemma run_reconciles_RollingBack_refused envs rt r req w canary :
  canaries w !! req = Some canary →
  CanaryDeploymentStatus.Phase (CanaryDeployment.Status canary)
  = CanaryDeploymentPhaseRollingBack →
  Forall (λ env, route_update_fault env ≠ None) envs →
  canaries (run_reconciles envs rt r req w) = canaries w ∧
  routes (run_reconciles envs rt r req w) = routes w.
Proof.
  intros Hstored Hphase Hall. revert w Hstored.
  induction Hall as [|env envs Hrefused _ IH]; intros w Hstored; simpl; [done|].
  destruct (Reconcile_RollingBack_refused env rt r req w canary) as [Hc Hr]; try done.
  destruct (IH (Reconcile env rt r req w).2) as [Hc' Hr']; [by rewrite Hc|].
  by rewrite Hc', Hr'.
Qed.

(** C8.  For a stored rollout in RollingBack, whatever the invocation
    meets: (1) if it leaves the stored phase Failed, then the rollout was
    read, the route was read and written back with canary weight 0, that
    write succeeded and is the last call before the status write, the stored
    weights are (0, 100), and no requeue is asked; (2) if the route write
    errors, the stored rollout and the routes are untouched, and the
    invocation asks to be called again after 10 s without reporting an
    error; (3) however many invocations meet a refused route write, the
    rollout is still as it was, in RollingBack. *)
Theorem rollback_fails_only_after_reset env rt r req world canary :
  canaries world !! req = Some canary →
  key_of canary = req →
  CanaryDeploymentStatus.Phase (CanaryDeployment.Status canary)
  = CanaryDeploymentPhaseRollingBack →
  let out := Reconcile env rt r req world in
  (CanaryDeploymentStatus.Phase <$> stored_status req out.2
   = Some CanaryDeploymentPhaseFailed →
   ∃ route written,
     routes world !! route_key canary = Some route ∧
     UpdateTrafficSplit env canary 0 (fetched req world)
     = (Ret None,
        mkWorld (canaries world)
          (<[route_key canary := (updateHTTPRouteBackends route canary 0).1]>
             (routes world))
          (trace world
           ++ [EvGet req; EvGetRoute (route_key canary);
               EvUpdateRoute (route_key canary)
                 (updateHTTPRouteBackends route canary 0).1 None])) ∧
     trace out.2
     = trace world
       ++ [EvGet req; EvGetRoute (route_key canary);
           EvUpdateRoute (route_key canary)
             (updateHTTPRouteBackends route canary 0).1 None;
           EvStatusUpdate written None] ∧
     routes out.2 !! route_key canary = Some (updateHTTPRouteBackends route canary 0).1 ∧
     CanaryDeploymentStatus.CanaryWeight <$> stored_status req out.2 = Some 0 ∧
     CanaryDeploymentStatus.StableWeight <$> stored_status req out.2 = Some 100 ∧
     out.1 = Ret (Result.zero, None)) ∧
  (get_fault env = None →
   CanaryDeployment.DeletionTimestamp canary = None →
   ∀ err, (UpdateTrafficSplit env canary 0 (fetched req world)).1 = Ret (Some err) →
     out.1 = Ret (Result.after (Second * 10), None) ∧
     canaries out.2 = canaries world ∧ routes out.2 = routes world) ∧
  (∀ envs, Forall (λ env', route_update_fault env' ≠ None) envs →
     canaries (run_reconciles envs rt r req world) = canaries world ∧
     routes (run_reconciles envs rt r req world) = routes world).
Proof.
  intros Hstored Hkey Hphase out.
  assert (Hkept : ∀ w, canaries w = canaries world →
            CanaryDeploymentStatus.Phase <$> stored_status req w
            ≠ Some CanaryDeploymentPhaseFailed).
  { intros w Hw. unfold stored_status. rewrite Hw, Hstored. simpl. rewrite Hphase.
    intros [=]. }
  split; [|split].
  - unfold out. destruct (get_fault env) as [e|] eqn:Hget.
    { rewrite (Reconcile_get_fault _ _ _ _ _ _ Hget). intros Hf.
      by destruct (Hkept (fetched req world)). }
    destruct (CanaryDeployment.DeletionTimestamp canary) as [t|] eqn:Hlive.
    { rewrite (Reconcile_deletion env rt r req world canary Hget Hstored)
        by (rewrite Hlive; done).
      intros Hf. edestruct Hkept; [|exact Hf].
      exact (proj1 (handleDeletion_stores env canary (fetched req world))). }
    destruct (Reconcile_dispatch env rt r req world canary Hget Hstored Hlive)
      as (_ & _ & _ & ->); [|done].
    unfold handleRollingBack. unfold_M.
    destruct (UpdateTrafficSplit env canary 0 (fetched req world))
      as [[[err|]|msg] w1] eqn:Hsplit.
    + destruct (UpdateTrafficSplit_err env canary 0 (fetched req world))
        as (failed & w1' & Heq & Hc & _). rewrite Hsplit in Heq.
      injection Heq as <- <-. simpl. intros Hf. by destruct (Hkept w1).
    + apply UpdateTrafficSplit_ok in Hsplit as (route & _ & _ & Hroute & ->).
      simpl. rewrite Status_Update_run. simpl.
      destruct (status_update_fault env) as [e|] eqn:Hs; simpl.
      { intros Hf. edestruct Hkept; [|exact Hf]. done. }
      intros _. eexists route, _.
      split; [exact Hroute|].
      split; [by rewrite <- app_assoc|].
      split; [by rewrite <- !app_assoc|].
      split; [apply lookup_insert_eq|].
      unfold stored_status. simpl.
      rewrite !key_of_upd_Status, Hkey, lookup_alter_eq, Hstored. simpl. done.
    + destruct (UpdateTrafficSplit_err env canary 0 (fetched req world))
        as (failed & w1' & Heq & _). by rewrite Hsplit in Heq.
  - intros Hget Hlive err Herr. unfold out.
    destruct (Reconcile_dispatch env rt r req world canary Hget Hstored Hlive)
      as (_ & _ & _ & ->); [|done].
    unfold handleRollingBack. unfold_M.
    destruct (UpdateTrafficSplit_err env canary 0 (fetched req world))
      as (failed & w1 & Heq & Hc & Hr & _).
    rewrite Heq in Herr |- *. simpl in Herr. injection Herr as ->.
    simpl. rewrite Hc, Hr by done. done.
  - intros envs Hall. by eapply run_reconciles_RollingBack_refused.
Qed.

(** The demo rollout in RollingBack with a working API server: the route is
    reset and the stored status is Failed with weights (0, 100). *)
Lemma rollback_fails_only_after_reset_witness :
  let env := env_with backend_down in
  let canary := demo_canary ∅ no_analysis true "RollingBack" 0 20 in
  let world := demo_world canary in
  let out := Reconcile env go_runtime demo_reconciler demo_req world in
  CanaryDeploymentStatus.Phase <$> stored_status demo_req out.2 = Some "Failed" ∧
  CanaryDeploymentStatus.CanaryWeight <$> stored_status demo_req out.2 = Some 0 ∧
  CanaryDeploymentStatus.StableWeight <$> stored_status demo_req out.2 = Some 100 ∧
  out.1 = Ret (Result.zero, None).
Proof.
  intros env canary world out.
  assert (Hfailed : CanaryDeploymentStatus.Phase <$> stored_status demo_req out.2
                    = Some "Failed") by (vm_compute; reflexivity).
  destruct (proj1 (rollback_fails_only_after_reset env go_runtime demo_reconciler
                     demo_req world canary
                     ltac:(vm_compute; reflexivity) eq_refl eq_refl)
                  Hfailed)
    as (route & written & _ & _ & _ & _ & Hcanary & Hstable & Hres).
  split; [exact Hfailed|]. split; [exact Hcanary|]. split; [exact Hstable|exact Hres].
Defined.

(** A refused route write leaves the rollout in RollingBack, three times in
    a row. *)
Lemma rollback_loops_while_refused :
  let refusing :=
    mkEnv (λ _, 0) (λ _, (0, None)) (λ _, (0%float, None))
          (λ _, None) (λ _ _, None)
          (λ _ _ _, RequestFailed "") None None (Some "conflict") None None in
  let canary := demo_canary ∅ no_analysis true "RollingBack" 0 20 in
  let world :=
    run_reconciles [refusing; refusing; refusing] go_runtime demo_reconciler demo_req
                   (demo_world canary) in
  stored_status demo_req world = Some (CanaryDeployment.Status canary) ∧
  routes world = routes (demo_world canary).
Proof. vm_compute. repeat split. Qed.

(** C2, as the code has it.  [validateCanaryDeployment] accepts every
    rollout, so a reconcile of a stored rollout in Pending never looks at
    the steps, the operators or the route: when the status write succeeds
    the stored phase becomes Progressing with the message "Starting canary
    deployment" and a requeue after 5 s; when the write is refused its error
    is returned and the stored rollout is as before.  In neither case is the
    stored phase Failed, and no route is read or written. *)
Theorem pending_starts_whatever_the_spec env rt r req world canary :
  get_fault env = None →
  canaries world !! req = Some canary →
  key_of canary = req →
  CanaryDeployment.DeletionTimestamp canary = None →
  CanaryDeploymentStatus.Phase (CanaryDeployment.Status canary)
  = CanaryDeploymentPhasePending →
  let out := Reconcile env rt r req world in
  let started :=
    CanaryDeploymentStatus.with_LastTransitionTime
      (Some (time_Now env (trace world ++ [EvGet req])))
      (CanaryDeploymentStatus.with_Message "Starting canary deployment"
         (CanaryDeploymentStatus.with_Phase CanaryDeploymentPhaseProgressing
            (CanaryDeployment.Status canary))) in
  validateCanaryDeployment canary = None ∧
  (status_update_fault env = None →
   out.1 = Ret (Result.after (Second * 5), None) ∧
   stored_status req out.2 = Some started) ∧
  (∀ err, status_update_fault env = Some err →
          out.1 = Ret (Result.zero, Some err) ∧ canaries out.2 = canaries world) ∧
  CanaryDeploymentStatus.Phase <$> stored_status req out.2
  ≠ Some CanaryDeploymentPhaseFailed ∧
  routes out.2 = routes world ∧
  trace out.2
  = trace world
    ++ [EvGet req;
        EvStatusUpdate (CanaryDeployment.with_Status started canary)
                       (status_update_fault env)].
Proof.
  intros Hget Hstored Hkey Hlive Hphase out started.
  assert (Hout : out = handlePending env canary (fetched req world)).
  { unfold out.
    by destruct (Reconcile_dispatch env rt r req world canary Hget Hstored Hlive)
      as (-> & _). }
  split; [reflexivity|].
  rewrite Hout. unfold handlePending, validateCanaryDeployment. unfold_M. simpl.
  rewrite Status_Update_run. simpl.
  destruct (status_update_fault env) as [e|] eqn:Hfault; simpl.
  - split; [intros [=]|]. split; [by intros err [= <-]|].
    split; [|split; [done|by rewrite <- app_assoc]].
    unfold stored_status. simpl. rewrite Hstored. simpl. rewrite Hphase. intros [=].
  - assert (Hnew : stored_status req
                     (mkWorld
                        (alter (CanaryDeployment.with_Status started)
                               (key_of canary) (canaries world))
                        (routes world)
                        ((trace world ++ [EvGet req])
                         ++ [EvStatusUpdate (CanaryDeployment.with_Status started canary)
                               None]))
                   = Some started).
    { unfold stored_status. simpl. rewrite Hkey, lookup_alter_eq, Hstored. done. }
    split; [intros _; split; [done|exact Hnew]|].
    split; [intros err [=]|].
    split; [|split; [done|by rewrite <- app_assoc]].
    change (CanaryDeploymentStatus.Phase <$> stored_status req
              (mkWorld
                 (alter (CanaryDeployment.with_Status started)
                        (key_of canary) (canaries world))
                 (routes world)
                 ((trace world ++ [EvGet req])
                  ++ [EvStatusUpdate (CanaryDeployment.with_Status started canary) None]))
            ≠ Some CanaryDeploymentPhaseFailed).
    rewrite Hnew. simpl. intros [=].
Qed.

(** C2, as stated, fails.  The malformed rollout, whose route does not even
    exist, leaves Pending for Progressing. *)
Lemma malformed_spec_starts_Progressing :
  let out :=
    Reconcile (env_with backend_down) go_runtime demo_reconciler demo_req
              malformed_world in
  out.1 = Ret (Result.after (Second * 5), None) ∧
  CanaryDeploymentStatus.Phase <$> stored_status demo_req out.2 = Some "Progressing" ∧
  CanaryDeploymentStatus.Message <$> stored_status demo_req out.2
  = Some "Starting canary deployment" ∧
  routes malformed_world !! route_key malformed_canary = None ∧
  TrafficSplitStep.Weight <$>
    CanaryDeploymentSpec.TrafficSplit (CanaryDeployment.Spec malformed_canary)
  = [150; 20].
Proof. vm_compute. repeat split. Qed.

(** The malformed rollout again, through the theorem. *)
Lemma pending_starts_whatever_the_spec_witness :
  let env := env_with backend_down in
  let out := Reconcile env go_runtime demo_reconciler demo_req malformed_world in
  out.1 = Ret (Result.after (Second * 5), None) ∧
  CanaryDeploymentStatus.Phase <$> stored_status demo_req out.2
  ≠ Some CanaryDeploymentPhaseFailed.
Proof.
  intros env out.
  pose proof (pending_starts_whatever_the_spec env go_runtime demo_reconciler demo_req
                malformed_world malformed_canary
                eq_refl ltac:(vm_compute; reflexivity) eq_refl eq_refl eq_refl)
    as (_ & Hok & _ & Hphase & _).
  split; [exact (proj1 (Hok eq_refl))|exact Hphase].
Defined.

(** C3 on the code.  [handlePaused] has no case for the promote
    annotation, which the API server of the repository sets to promote a
    rollout.  A stored rollout in Paused that carries promote=true and
    neither resume=true nor abort=true is left exactly as it is: nothing is
    written, the annotation, [currentStep] and the phase stay, and the
    invocation asks to be called again after 30 s. *)
Theorem promote_annotation_is_ignored env rt r req world canary :
  get_fault env = None →
  canaries world !! req = Some canary →
  CanaryDeployment.DeletionTimestamp canary = None →
  CanaryDeploymentStatus.Phase (CanaryDeployment.Status canary)
  = CanaryDeploymentPhasePaused →
  CanaryDeployment.Annotations canary !! "gateway-cd.io/promote" = Some "true" →
  map_index (CanaryDeployment.Annotations canary) "gateway-cd.io/resume" ≠ "true" →
  map_index (CanaryDeployment.Annotations canary) "gateway-cd.io/abort" ≠ "true" →
  Reconcile env rt r req world
  = (Ret (Result.after (Second * 30), None),
     mkWorld (canaries world) (routes world) (trace world ++ [EvGet req])) ∧
  stored_annotations req (Reconcile env rt r req world).2
  = Some (CanaryDeployment.Annotations canary) ∧
  stored_status req (Reconcile env rt r req world).2
  = Some (CanaryDeployment.Status canary).
Proof.
  intros Hget Hstored Hlive Hphase Hpromote Hresume Habort.
  assert (Hrun : Reconcile env rt r req world
                 = (Ret (Result.after (Second * 30), None),
                    mkWorld (canaries world) (routes world) (trace world ++ [EvGet req]))).
  { destruct (Reconcile_dispatch env rt r req world canary Hget Hstored Hlive)
      as (_ & _ & -> & _); [|done].
    unfold handlePaused.
    rewrite (bool_decide_eq_false_2 _ Hresume), (bool_decide_eq_false_2 _ Habort).
    reflexivity. }
  rewrite Hrun. unfold stored_annotations, stored_status. simpl.
  by rewrite Hstored.
Qed.

(** C3, as stated, fails.  Paused at the second step of three, with
    promote=true: the annotation is still there afterwards, [currentStep]
    is still 1 and not 3, the phase is still Paused, and the requeue is
    after 30 s, not at once. *)
Lemma promote_leaves_rollout_Paused :
  let annotations : gmap string string := {[ "gateway-cd.io/promote" := "true" ]} in
  let canary := demo_canary annotations no_analysis true "Paused" 1 50 in
  let out :=
    Reconcile (env_with backend_down) go_runtime demo_reconciler demo_req
              (demo_world canary) in
  out.1 = Ret (Result.after (Second * 30), None) ∧
  stored_annotations demo_req out.2 = Some annotations ∧
  CanaryDeploymentStatus.CurrentStep <$> stored_status demo_req out.2 = Some 1 ∧
  CanaryDeploymentStatus.Phase <$> stored_status demo_req out.2 = Some "Paused" ∧
  length (CanaryDeploymentSpec.TrafficSplit (CanaryDeployment.Spec canary)) = 3%nat.
Proof. vm_compute. repeat split. Qed.

(** The same rollout, through the theorem. *)
Lemma promote_annotation_is_ignored_witness :
  let annotations : gmap string string := {[ "gateway-cd.io/promote" := "true" ]} in
  let canary := demo_canary annotations no_analysis true "Paused" 1 50 in
  let env := env_with backend_down in
  let world := demo_world canary in
  Reconcile env go_runtime demo_reconciler demo_req world
  = (Ret (Result.after (Second * 30), None),
     mkWorld (canaries world) (routes world) (trace world ++ [EvGet demo_req])).
Proof.
  intros annotations canary env world.
  exact (proj1 (promote_annotation_is_ignored env go_runtime demo_reconciler demo_req
                  world canary
                  eq_refl ltac:(vm_compute; reflexivity) eq_refl eq_refl
                  ltac:(vm_compute; reflexivity)
                  ltac:(vm_compute; discriminate)
                  ltac:(vm_compute; discriminate))).
Defined.

(** C4 on the code.  Paused, with abort=true: the invocation acts on the
    annotation (the stored phase becomes RollingBack, requeue after 5 s) and
    the annotation is still stored afterwards; the only write is the status
    write. *)
Lemma abort_annotation_is_not_removed :
  let annotations : gmap string string := {[ "gateway-cd.io/abort" := "true" ]} in
  let canary := demo_canary annotations no_analysis true "Paused" 1 50 in
  let out :=
    Reconcile (env_with backend_down) go_runtime demo_reconciler demo_req
              (demo_world canary) in
  out.1 = Ret (Result.after (Second * 5), None) ∧
  CanaryDeploymentStatus.Phase <$> stored_status demo_req out.2 = Some "RollingBack" ∧
  stored_annotations demo_req out.2 = Some annotations ∧
  (∃ written, trace out.2 = [EvGet demo_req; EvStatusUpdate written None]).
Proof. vm_compute. repeat split. eexists. reflexivity. Qed.

(** The sibling path: Paused, with resume=true.  Here the annotation is
    deleted and the deletion is written back. *)
Lemma resume_annotation_is_removed :
  let annotations : gmap string string := {[ "gateway-cd.io/resume" := "true" ]} in
  let canary := demo_canary annotations no_analysis true "Paused" 1 50 in
  let out :=
    Reconcile (env_with backend_down) go_runtime demo_reconciler demo_req
              (demo_world canary) in
  out.1 = Ret (Result.after (Second * 5), None) ∧
  stored_annotations demo_req out.2 = Some ∅ ∧
  (∃ sent_first sent_second,
     trace out.2
     = [EvGet demo_req; EvUpdate sent_first None; EvStatusUpdate sent_second None] ∧
     CanaryDeployment.Annotations sent_first = ∅).
Proof. vm_compute. repeat split. eexists _, _. split; reflexivity. Qed.

(** The analyzer reads the spec and the name of the rollout, not its
    status. *)
Lemma evaluateMetrics_with_Status env rt p s canary metrics result w :
  evaluateMetrics env rt p (CanaryDeployment.with_Status s canary) metrics result w
  = evaluateMetrics env rt p canary metrics result w.
Proof.
  revert result w. induction metrics as [|m metrics IH]; intros result w; simpl;
    [done|].
  unfold_M.
  change (evaluateMetric env rt p (CanaryDeployment.with_Status s canary) m w)
    with (evaluateMetric env rt p canary m w).
  destruct (evaluateMetric env rt p canary m w) as [[[[mr|] [e|]]|msg] w0]; done.
Qed.

Lemma RunAnalysis_with_Status env rt p s canary w :
  RunAnalysis env rt p (CanaryDeployment.with_Status s canary) w
  = RunAnalysis env rt p canary w.
Proof.
  rewrite !RunAnalysis_unfold. simpl.
  rewrite evaluateMetrics_with_Status.
  destruct (evaluateMetrics _ _ _ _ _ _ w) as [[[r1 [e1|]]|m1] w1]; try done.
Qed.

Lemma Status_Update_pair env c w :
  Status_Update env c w
  = (Ret (status_update_fault env), (Status_Update env c w).2).
Proof. unfold Status_Update. unfold_M. simpl. by destruct (status_update_fault env). Qed.

Lemma index_step_Some steps i step :
  index_step steps i = Some step → ¬ (Z.of_nat (length steps) ≤ i).
Proof.
  unfold index_step. case_bool_decide; [done|].
  intros Hl%lookup_lt_Some. lia.
Qed.

(** [handleProgressing] on an unpaused step whose weight change succeeded,
    with analysis switched on and a provider configured: the analyzer runs
    on the world the route write left, and the handler goes on from what it
    returns. *)
Lemma handleProgressing_analysis env rt r p canary step w w1 :
  index_step (CanaryDeploymentSpec.TrafficSplit (CanaryDeployment.Spec canary))
             (CanaryDeploymentStatus.CurrentStep (CanaryDeployment.Status canary))
  = Some step →
  TrafficSplitStep.Pause step = false →
  CanaryDeploymentSpec.SkipAnalysis (CanaryDeployment.Spec canary) = false →
  PrimFloat.ltb 0 (AnalysisTemplate.SuccessRate
                     (CanaryDeploymentSpec.Analysis (CanaryDeployment.Spec canary)))
  = true →
  CanaryDeploymentReconciler.MetricsProvider r = Some p →
  UpdateTrafficSplit env canary (TrafficSplitStep.Weight step) w = (Ret None, w1) →
  match RunAnalysis env rt p canary w1 with
  | (Panic msg, w2) => handleProgressing env rt r canary w = (Panic msg, w2)
  | (Ret (_, Some err), w2) =>
      handleProgressing env rt r canary w
      = (Ret (Result.after (Second * 30), None),
         (Status_Update env
            (CanaryDeployment.upd_Status
               (CanaryDeploymentStatus.with_Message (wrap_err "Analysis failed: " err))
               (split_applied step canary)) w2).2)
  | (Ret (_, None), w2) =>
      ∃ result written,
        handleProgressing env rt r canary w
        = (Ret (result, None), (Status_Update env written w2).2)
  end.
Proof.
  intros Hstep Hpause Hskip Hrate Hprov Hsplit.
  unfold handleProgressing.
  rewrite (bool_decide_eq_false_2 _ (index_step_Some _ _ _ Hstep)), Hstep.
  unfold_M. rewrite Hsplit. simpl. rewrite Hpause, Hskip, Hrate. simpl.
  unfold runAnalysis. rewrite Hprov. unfold_M.
  unfold split_applied, CanaryDeployment.upd_Status in *.
  rewrite !RunAnalysis_with_Status.
  destruct (RunAnalysis env rt p canary w1) as [[[res [err|]]|msg] w2]; simpl.
  - rewrite !Status_Update_run. reflexivity.
  - destruct (AnalysisResult.Passed res); simpl;
      rewrite Status_Update_pair; simpl; eexists _, _; reflexivity.
  - reflexivity.
Qed.

Lemma queries_in_app tr1 tr2 :
  queries_in (tr1 ++ tr2) = queries_in tr1 ++ queries_in tr2.
Proof. apply omap_app. Qed.


(** How far the loop gets: it evaluates the first [k] metrics, all of them
    unless it returns an error or panics, and at least one if there is
    one. *)
Lemma evaluateMetrics_queries env rt p canary metrics result w :
  ∃ k, (k ≤ length metrics)%nat ∧
    (evaluateMetrics env rt p canary metrics result w).2
    = after_queries (PrometheusProvider.baseURL p)
        (sent env p (metric_queries rt canary (take k metrics))) w ∧
    (∀ res, (evaluateMetrics env rt p canary metrics result w).1 = Ret (res, None) →
            k = length metrics) ∧
    (metrics ≠ [] → (1 ≤ k)%nat).
Proof.
  revert result w. induction metrics as [|m metrics IH]; intros result w.
  - exists 0%nat. simpl. unfold_M. simpl. rewrite after_queries_nil. done.
  - simpl. unfold_M.
    pose proof (evaluateMetric_world env rt p canary m w) as Hw.
    destruct (evaluateMetric env rt p canary m w) as [[[out e]|msg] w0] eqn:Hm;
      cbn [snd] in Hw; subst w0.
    + apply evaluateMetric_shape in Hm as [[-> He]|[-> [value ->]]].
      * destruct e as [e|]; [|done]. exists 1%nat. simpl.
        split; [lia|]. split; [reflexivity|]. split; [done|lia].
      * cbn beta iota.
        match goal with |- context [evaluateMetrics env rt p canary metrics ?r ?w'] =>
          destruct (IH r w') as (k & Hk & Hworld & Hall & _) end.
        exists (S k). rewrite Hworld, after_queries_app, <- sent_app.
        split; [simpl; lia|]. split; [reflexivity|]. split; [|lia].
        intros res Hres. f_equal. eapply Hall, Hres.
    + exists 1%nat. simpl.
      split; [lia|]. split; [reflexivity|]. split; [done|lia].
Qed.

Lemma checkSuccessRate_world env p canary result w :
  (checkSuccessRate env p canary result w).2
  = after_queries (PrometheusProvider.baseURL p)
      (sent env p
         (if PrimFloat.ltb 0 (AnalysisTemplate.SuccessRate
                                (CanaryDeploymentSpec.Analysis (CanaryDeployment.Spec canary)))
          then [successRateQuery
                  (ServiceRef.Name
                     (CanaryDeploymentSpec.Service (CanaryDeployment.Spec canary)))]
          else [])) w.
Proof.
  unfold checkSuccessRate, getSuccessRate. unfold_M.
  destruct (PrimFloat.ltb 0 _); [|by rewrite after_queries_nil].
  match goal with |- context [GetMetric env p ?q w] =>
    pose proof (GetMetric_world env p q w) as Hw;
    destruct (GetMetric env p q w) as [[[v [e|]]|msg] w0] end; done.
Qed.

Lemma checkLatency_world env rt p canary result w :
  (checkLatency env rt p canary result w).2
  = after_queries (PrometheusProvider.baseURL p)
      (sent env p
         (if bool_decide (0 < AnalysisTemplate.MaxLatency
                                (CanaryDeploymentSpec.Analysis (CanaryDeployment.Spec canary)))
          then [latencyQuery
                  (ServiceRef.Name
                     (CanaryDeploymentSpec.Service (CanaryDeployment.Spec canary)))]
          else [])) w.
Proof.
  unfold checkLatency, getAverageLatency. unfold_M.
  case_bool_decide as Hlimit; [|by rewrite after_queries_nil].
  match goal with |- context [GetMetric env p ?q w] =>
    pose proof (GetMetric_world env p q w) as Hw;
    destruct (GetMetric env p q w) as [[[v [e|]]|msg] w0] end; done.
Qed.

(** The queries of one analysis.  [GetMetric] is asked for those of the
    first [k] metrics, in order, then for [qs], the standard queries, and
    those whose request can be built are sent.  All metrics are reached
    unless the run ends in an error or a panic; when it stops inside the
    loop nothing else is asked; and with a success-rate threshold
    [GetMetric] is asked at least once. *)
Lemma RunAnalysis_queries env rt p canary w :
  let metrics := AnalysisTemplate.Metrics
                   (CanaryDeploymentSpec.Analysis (CanaryDeployment.Spec canary)) in
  ∃ k qs, (k ≤ length metrics)%nat ∧
    (RunAnalysis env rt p canary w).2
    = after_queries (PrometheusProvider.baseURL p)
        (sent env p (metric_queries rt canary (take k metrics) ++ qs)) w ∧
    (∀ res, (RunAnalysis env rt p canary w).1 = Ret (res, None) → k = length metrics) ∧
    ((k < length metrics)%nat → qs = []) ∧
    (metrics ≠ [] → (1 ≤ k)%nat) ∧
    (PrimFloat.ltb 0 (AnalysisTemplate.SuccessRate
                        (CanaryDeploymentSpec.Analysis (CanaryDeployment.Spec canary)))
     = true →
     metric_queries rt canary (take k metrics) ++ qs ≠ []).
Proof.
  intros metrics. rewrite RunAnalysis_unfold. fold metrics.
  destruct (evaluateMetrics_queries env rt p canary metrics (initial_result env w) w)
    as (k & Hk & Hworld & Hall & Hone).
  assert (Hnonempty : metrics ≠ [] → ∀ qs, metric_queries rt canary (take k metrics) ++ qs ≠ []).
  { intros Hm qs. specialize (Hone Hm). destruct metrics as [|m ms]; [done|].
    destruct k; [lia|]. done. }
  assert (Hnil : metrics = [] →
                 evaluateMetrics env rt p canary metrics (initial_result env w) w
                 = (Ret (initial_result env w, None), w)).
  { intros ->. reflexivity. }
  destruct (evaluateMetrics _ _ _ _ _ _ w) as [[[r1 e1]|m1] w1]; cbn [snd] in Hworld;
    subst w1.
  2:{ exists k, []. rewrite app_nil_r. simpl. repeat split; try done.
      intros _. destruct metrics as [|m ms]; [by specialize (Hnil eq_refl)|].
      specialize (Hnonempty ltac:(done) []). by rewrite app_nil_r in Hnonempty. }
  destruct e1 as [e1|].
  { exists k, []. rewrite app_nil_r. simpl. repeat split; try done.
    intros _. destruct metrics as [|m ms]; [by specialize (Hnil eq_refl)|].
    specialize (Hnonempty ltac:(done) []). by rewrite app_nil_r in Hnonempty. }
  specialize (Hall r1 eq_refl). subst k. rewrite firstn_all in *.
  set (rate_queries :=
         if PrimFloat.ltb 0 (AnalysisTemplate.SuccessRate
                               (CanaryDeploymentSpec.Analysis (CanaryDeployment.Spec canary)))
         then [successRateQuery
                 (ServiceRef.Name
                    (CanaryDeploymentSpec.Service (CanaryDeployment.Spec canary)))]
         else []).
  set (latency_queries :=
         if bool_decide (0 < AnalysisTemplate.MaxLatency
                                (CanaryDeploymentSpec.Analysis (CanaryDeployment.Spec canary)))
         then [latencyQuery
                 (ServiceRef.Name
                    (CanaryDeploymentSpec.Service (CanaryDeployment.Spec canary)))]
         else []).
  assert (Hasked : PrimFloat.ltb 0 (AnalysisTemplate.SuccessRate
                     (CanaryDeploymentSpec.Analysis (CanaryDeployment.Spec canary))) = true →
                   ∀ qs, metric_queries rt canary metrics ++ rate_queries ++ qs ≠ []).
  { intros Hrate qs. unfold rate_queries. rewrite Hrate.
    by destruct (metric_queries rt canary metrics). }
  pose proof (checkSuccessRate_world env p canary r1
                (after_queries (PrometheusProvider.baseURL p)
                   (sent env p (metric_queries rt canary metrics)) w)) as H2.
  fold rate_queries in H2.
  destruct (checkSuccessRate _ _ _ _ _) as [[[r2 e2]|m2] w2]; cbn [snd] in H2; subst w2.
  2:{ exists (length metrics), rate_queries.
      rewrite firstn_all, after_queries_app, <- sent_app.
      split; [lia|]. split; [done|]. split; [done|]. split; [intros; lia|].
      split; [destruct metrics; [done|simpl; lia]|].
      intros Hrate. specialize (Hasked Hrate []). by rewrite app_nil_r in Hasked. }
  destruct e2 as [e2|].
  { exists (length metrics), rate_queries.
    rewrite firstn_all, after_queries_app, <- sent_app.
    split; [lia|]. split; [done|]. split; [done|]. split; [intros; lia|].
    split; [destruct metrics; [done|simpl; lia]|].
    intros Hrate. specialize (Hasked Hrate []). by rewrite app_nil_r in Hasked. }
  pose proof (checkLatency_world env rt p canary r2
                (after_queries (PrometheusProvider.baseURL p) (sent env p rate_queries)
                   (after_queries (PrometheusProvider.baseURL p)
                      (sent env p (metric_queries rt canary metrics)) w))) as H3.
  fold latency_queries in H3.
  destruct (checkLatency _ _ _ _ _ _) as [o3 w3]; cbn [snd] in H3; subst w3.
  exists (length metrics), (rate_queries ++ latency_queries).
  rewrite firstn_all, !after_queries_app, <- !sent_app, <- ?app_assoc.
  split; [lia|]. split.
  { destruct o3 as [[r3 [e3|]]|m3]; simpl; reflexivity. }
  split; [done|]. split; [intros; lia|].
  split; [destruct metrics; [done|simpl; lia]|].
  intros Hrate. by apply Hasked.
Qed.

(** A query that meets a useless backend returns an error. *)
Lemma GetMetric_backend_failure env p q w :
  backend_failure (http_Do env (trace w) (PrometheusProvider.baseURL p) q) →
  ∃ err, GetMetric env p q w
         = (Ret (0%float, Some err),
            after_queries (PrometheusProvider.baseURL p) (sent env p [q]) w).
Proof.
  intros Hfail. simpl. destruct (request_built env p q) eqn:Hbuilt.
  2:{ destruct (GetMetric_unbuilt env p q w Hbuilt) as [err ->].
      rewrite after_queries_nil. eauto. }
  rewrite (GetMetric_built env p q w Hbuilt). unfold_M. simpl.
  destruct Hfail as [err|code body Hcode|promResp Hempty].
  - eauto.
  - rewrite (bool_decide_eq_true_2 _ Hcode). eauto.
  - rewrite bool_decide_eq_false_2 by (intros H; by apply H).
    case_bool_decide; [eauto|]. rewrite Hempty. eauto.
Qed.

(** With a success-rate threshold and a backend that fails every query,
    the analyzer returns an error: from its first metric, or, without named
    metrics, from the success rate. *)
Lemma RunAnalysis_dead_backend env rt p canary w :
  (∀ tr q, backend_failure (http_Do env tr (PrometheusProvider.baseURL p) q)) →
  PrimFloat.ltb 0 (AnalysisTemplate.SuccessRate
                     (CanaryDeploymentSpec.Analysis (CanaryDeployment.Spec canary)))
  = true →
  ∃ result err world', RunAnalysis env rt p canary w = (Ret (result, Some err), world').
Proof.
  intros Hdead Hrate. rewrite RunAnalysis_unfold.
  destruct (AnalysisTemplate.Metrics _) as [|m metrics].
  - simpl. unfold_M. unfold checkSuccessRate, getSuccessRate. unfold_M. rewrite Hrate.
    match goal with |- context [GetMetric env p ?q w] =>
      destruct (GetMetric_backend_failure env p q w) as (err & ->); [apply Hdead|] end.
    simpl. eauto.
  - simpl. unfold_M. rewrite evaluateMetric_unfold.
    match goal with |- context [GetMetric env p ?q w] =>
      destruct (GetMetric_backend_failure env p q w) as (err & ->); [apply Hdead|] end.
    simpl. eauto.
Qed.

(** C1, as the code has it.  In Progressing, on an unpaused step whose
    weight change succeeded, with analysis switched on: when the analyzer
    returns an error, as it does when a query to the metrics backend errors,
    the invocation does not start a rollback.  It writes the message
    "Analysis failed: ..." and asks to be called again after 30 s; the
    stored phase is still Progressing and the stored step is the same, so
    the next invocation repeats the step.  In particular this is what
    happens when the backend cannot be reached, answers with a status other
    than 200, or answers with no sample. *)
Theorem analysis_error_is_transient env rt r p req world canary step world1 :
  get_fault env = None →
  canaries world !! req = Some canary →
  key_of canary = req →
  CanaryDeployment.DeletionTimestamp canary = None →
  CanaryDeploymentStatus.Phase (CanaryDeployment.Status canary)
  = CanaryDeploymentPhaseProgressing →
  index_step (CanaryDeploymentSpec.TrafficSplit (CanaryDeployment.Spec canary))
             (CanaryDeploymentStatus.CurrentStep (CanaryDeployment.Status canary))
  = Some step →
  TrafficSplitStep.Pause step = false →
  CanaryDeploymentSpec.SkipAnalysis (CanaryDeployment.Spec canary) = false →
  PrimFloat.ltb 0 (AnalysisTemplate.SuccessRate
                     (CanaryDeploymentSpec.Analysis (CanaryDeployment.Spec canary)))
  = true →
  CanaryDeploymentReconciler.MetricsProvider r = Some p →
  UpdateTrafficSplit env canary (TrafficSplitStep.Weight step) (fetched req world)
  = (Ret None, world1) →
  let out := Reconcile env rt r req world in
  let transient (err : error) :=
    out.1 = Ret (Result.after (Second * 30), None) ∧
    CanaryDeploymentStatus.Phase <$> stored_status req out.2
    = Some CanaryDeploymentPhaseProgressing ∧
    CanaryDeploymentStatus.CurrentStep <$> stored_status req out.2
    = Some (CanaryDeploymentStatus.CurrentStep (CanaryDeployment.Status canary)) ∧
    (status_update_fault env = None →
     stored_status req out.2
     = Some (CanaryDeploymentStatus.with_Message (wrap_err "Analysis failed: " err)
               (CanaryDeployment.Status (split_applied step canary)))) in
  (∀ result err world2,
     RunAnalysis env rt p canary world1 = (Ret (result, Some err), world2) →
     transient err) ∧
  ((∀ tr q, backend_failure (http_Do env tr (PrometheusProvider.baseURL p) q)) →
   ∃ err, transient err).
Proof.
  intros Hget Hstored Hkey Hlive Hphase Hstep Hpause Hskip Hrate Hprov Hsplit
         out transient.
  assert (Hout : out = handleProgressing env rt r canary (fetched req world)).
  { unfold out.
    by destruct (Reconcile_dispatch env rt r req world canary Hget Hstored Hlive)
      as (_ & -> & _). }
  assert (Herr : ∀ result err world2,
            RunAnalysis env rt p canary world1 = (Ret (result, Some err), world2) →
            transient err).
  { intros result err world2 Hrun. unfold transient.
    pose proof (handleProgressing_analysis env rt r p canary step _ _
                  Hstep Hpause Hskip Hrate Hprov Hsplit) as Hrest.
    rewrite Hrun in Hrest. rewrite Hout, Hrest, Status_Update_run. simpl.
    assert (Hsame : canaries world2 = canaries world).
    { destruct (RunAnalysis_queries env rt p canary world1) as (k & qs & _ & Hw & _).
      rewrite Hrun in Hw. simpl in Hw. rewrite Hw. simpl.
      by apply UpdateTrafficSplit_ok in Hsplit as (route & _ & _ & _ & ->). }
    split; [done|]. unfold stored_status. simpl. rewrite Hsame.
    destruct (status_update_fault env) as [e|]; simpl.
    - rewrite Hstored. simpl. rewrite Hphase. done.
    - rewrite !key_of_upd_Status.
      unfold split_applied. rewrite !key_of_upd_Status, Hkey, lookup_alter_eq, Hstored.
      simpl. rewrite Hphase. done. }
  split; [exact Herr|].
  intros Hdead.
  destruct (RunAnalysis_dead_backend env rt p canary world1 Hdead Hrate)
    as (result & err & world2 & Hrun).
  exists err. eapply Herr, Hrun.
Qed.

(** C1, as stated, fails.  A rollout in Progressing at its first, unpaused
    step, with a success-rate threshold and analysis switched on; the route
    write succeeds and the metrics backend is unreachable, or answers 503,
    or answers with no sample.  Each time the stored phase is still
    Progressing, not RollingBack, and the invocation only records the error
    and asks to be called again after 30 s. *)
Lemma analysis_error_keeps_Progressing :
  let canary := demo_canary ∅ rate_only false "Progressing" 0 0 in
  let run backend :=
    Reconcile (env_with backend) go_runtime demo_reconciler demo_req
              (demo_world canary) in
  let outcome backend :=
    ((run backend).1,
     CanaryDeploymentStatus.Phase <$> stored_status demo_req (run backend).2,
     CanaryDeploymentStatus.Message <$> stored_status demo_req (run backend).2) in
  outcome backend_down
  = (Ret (Result.after (Second * 30), None), Some "Progressing",
     Some "Analysis failed: failed to get success rate: connection refused") ∧
  outcome backend_503
  = (Ret (Result.after (Second * 30), None), Some "Progressing",
     Some "Analysis failed: failed to get success rate: prometheus query failed with status 503") ∧
  outcome backend_empty
  = (Ret (Result.after (Second * 30), None), Some "Progressing",
     Some "Analysis failed: failed to get success rate: no data returned from prometheus query").
Proof. vm_compute. repeat split. Qed.

(** The unreachable backend, through the theorem. *)
Lemma analysis_error_is_transient_witness :
  let env := env_with backend_down in
  let canary := demo_canary ∅ rate_only false "Progressing" 0 0 in
  let world := demo_world canary in
  let out := Reconcile env go_runtime demo_reconciler demo_req world in
  out.1 = Ret (Result.after (Second * 30), None) ∧
  CanaryDeploymentStatus.Phase <$> stored_status demo_req out.2 = Some "Progressing" ∧
  CanaryDeploymentStatus.CurrentStep <$> stored_status demo_req out.2 = Some 0.
Proof.
  intros env canary world out.
  destruct (proj2 (analysis_error_is_transient env go_runtime demo_reconciler
                     demo_provider demo_req world canary
                     (TrafficSplitStep.mk 20 "30s" false)
                     (UpdateTrafficSplit env canary 20 (fetched demo_req world)).2
                     eq_refl
                     ltac:(vm_compute; reflexivity)
                     eq_refl eq_refl eq_refl eq_refl eq_refl eq_refl
                     ltac:(vm_compute; reflexivity)
                     eq_refl
                     ltac:(vm_compute; reflexivity))
                  (λ tr q, backend_unreachable "connection refused"))
    as (err & Hres & Hphase & Hstep & _).
  split; [exact Hres|]. split; [exact Hphase|exact Hstep].
Defined.

(** The route mutator sends no query. *)
Lemma UpdateTrafficSplit_queries env canary w world :
  queries_in (trace (UpdateTrafficSplit env canary w world).2)
  = queries_in (trace world).
Proof.
  unfold UpdateTrafficSplit, Get_route, Update_route. unfold_M. simpl.
  destruct (route_get_fault env); simpl;
    [by rewrite queries_in_app, app_nil_r|].
  destruct (routes world !! route_key canary); simpl;
    [|by rewrite queries_in_app, app_nil_r].
  destruct (route_update_fault env); simpl;
    by rewrite !queries_in_app, !app_nil_r.
Qed.

Lemma Status_Update_queries env c w :
  queries_in (trace (Status_Update env c w).2) = queries_in (trace w).
Proof. rewrite Status_Update_run. simpl. by rewrite queries_in_app, app_nil_r. Qed.




(** The gate of [handleProgressing] looks at the success-rate threshold
    alone: with named metrics and no threshold the step advances and no
    query is sent. *)
Lemma metrics_alone_do_not_start_analysis :
  let canary := demo_canary ∅ metrics_only false "Progressing" 0 0 in
  let out :=
    Reconcile (env_with backend_down) go_runtime demo_reconciler demo_req
              (demo_world canary) in
  queries_in (trace out.2) = [] ∧
  CanaryDeploymentStatus.CurrentStep <$> stored_status demo_req out.2 = Some 1 ∧
  CanaryDeploymentStatus.Phase <$> stored_status demo_req out.2 = Some "Progressing".
Proof. vm_compute. repeat split. Qed.

(** Nor is anything asked when the reconciler has no metrics provider: the
    step advances on the spot. *)
Lemma no_provider_no_analysis :
  let canary := demo_canary ∅ demo_analysis false "Progressing" 0 0 in
  let out :=
    Reconcile (env_with backend_down) go_runtime reconciler_without_provider demo_req
              (demo_world canary) in
  queries_in (trace out.2) = [] ∧
  CanaryDeploymentStatus.CurrentStep <$> stored_status demo_req out.2 = Some 1 ∧
  CanaryDeploymentStatus.Phase <$> stored_status demo_req out.2 = Some "Progressing".
Proof. vm_compute. repeat split. Qed.

(** And with a provider whose base URL does not parse the analyzer is
    invoked, its error is taken as transient, and no query is sent. *)
Lemma unparsable_URL_sends_no_query :
  let env := with_unparsable_URL "parse error" (env_with backend_half) in
  let canary := demo_canary ∅ rate_only false "Progressing" 0 0 in
  let out := Reconcile env go_runtime demo_reconciler demo_req (demo_world canary) in
  out.1 = Ret (Result.after (Second * 30), None) ∧
  queries_in (trace out.2) = [] ∧
  CanaryDeploymentStatus.Message <$> stored_status demo_req out.2
  = Some "Analysis failed: failed to get success rate: parse error" ∧
  CanaryDeploymentStatus.CurrentStep <$> stored_status demo_req out.2 = Some 0.
Proof. vm_compute. repeat split. Qed.


(** ** Whole rollouts

    The demo rollout from its creation to the pause of its second step, and
    what the author's resume does to it. *)

Example demo_rollout_reaches_its_pause :
  let env := env_with backend_down in
  let fresh := demo_canary ∅ no_analysis true "" 0 0 in
  let world :=
    run_reconciles [env; env; env; env] go_runtime demo_reconciler demo_req
                   (demo_world fresh) in
  (λ s, (CanaryDeploymentStatus.Phase s, CanaryDeploymentStatus.CurrentStep s,
         CanaryDeploymentStatus.CanaryWeight s, CanaryDeploymentStatus.StableWeight s,
         CanaryDeploymentStatus.Message s))
    <$> stored_status demo_req world
  = Some ("Paused", 1, 50, 50, "Paused at step 2 for manual approval") ∧
  (λ route, HTTPRouteRule.BackendRefs <$> HTTPRoute.Rules route)
    <$> routes world !! ("demo", "demo-app-route")
  = Some [ [HTTPBackendRef.mk "demo-app-service" (Some 80) (Some 50);
            HTTPBackendRef.mk "demo-app-service-canary" (Some 80) (Some 50)];
           [HTTPBackendRef.mk "demo-app-service" (Some 80) (Some 50);
            HTTPBackendRef.mk "demo-app-service-canary" (Some 80) (Some 50)] ].
Proof. vm_compute. repeat split. Qed.

(** The resume annotation is consumed, but the status that is written
    after it is the one the server sent back: three invocations later the
    rollout is still Paused at the same step, with the route untouched. *)
Example resumed_rollout_stays_Paused :
  let env := env_with backend_down in
  let annotations : gmap string string := {[ "gateway-cd.io/resume" := "true" ]} in
  let paused := demo_canary annotations no_analysis true "Paused" 1 50 in
  let world :=
    run_reconciles [env; env; env] go_runtime demo_reconciler demo_req
                   (demo_world paused) in
  (λ s, (CanaryDeploymentStatus.Phase s, CanaryDeploymentStatus.CurrentStep s,
         CanaryDeploymentStatus.CanaryWeight s, CanaryDeploymentStatus.StableWeight s))
    <$> stored_status demo_req world
  = Some ("Paused", 1, 50, 50) ∧
  stored_annotations demo_req world = Some ∅ ∧
  routes world = routes (demo_world paused).
Proof. vm_compute. repeat split. Qed.

(** * More properties of the engine *)

(** ** What a reconcile does to the stored rollout *)

Lemma alter_stored (f : CanaryDeployment.t → CanaryDeployment.t)
    (req : NamespacedName) (cs : gmap NamespacedName CanaryDeployment.t) old :
  cs !! req = Some old → alter f req cs = <[req := f old]> cs.
Proof.
  intros Hold. apply map_eq. intros k.
  destruct (decide (req = k)) as [->|Hne].
  - by rewrite lookup_alter_eq, lookup_insert_eq, Hold.
  - by rewrite lookup_alter_ne, lookup_insert_ne.
Qed.

(** The invariant looks at the status and at the number of steps only. *)
Lemma rollout_invariant_ext c c' :
  CanaryDeployment.Spec c' = CanaryDeployment.Spec c →
  CanaryDeployment.Status c' = CanaryDeployment.Status c →
  rollout_invariant c → rollout_invariant c'.
Proof. unfold rollout_invariant. by intros -> ->. Qed.

(** What [r.Update] does to the world. *)
Lemma Update_run env c w1 :
  Update env c w1 =
  (Ret (match update_fault env with
        | None =>
            match canaries w1 !! key_of c with
            | Some old =>
                CanaryDeployment.with_Status
                  (decoded_Status (CanaryDeployment.Status old)
                                  (CanaryDeployment.Status c)) c
            | None => c
            end
        | Some _ => c
        end, update_fault env),
   mkWorld (match update_fault env with
            | None => alter (λ old, CanaryDeployment.with_Status
                                      (CanaryDeployment.Status old) c)
                            (key_of c) (canaries w1)
            | Some _ => canaries w1
            end)
           (routes w1)
           (trace w1 ++ [EvUpdate c (update_fault env)])).
Proof. unfold Update. unfold_M. simpl. by destruct (update_fault env). Qed.

Section Stored.
Variables (env : Env) (rt : GoRuntime) (r : CanaryDeploymentReconciler.t).
Variables (req : NamespacedName) (w : World) (canary : CanaryDeployment.t).
Hypothesis Hstored : canaries w !! req = Some canary.
Hypothesis Hkey : key_of canary = req.

Lemma kept_unwritten w' : canaries w' = canaries w → kept req w canary w'.
Proof.
  intros Hw. exists canary. rewrite Hw, insert_id by done.
  split; [done|]. split; [|done]. unfold same_declaration. auto 10.
Qed.

(** One status write of an object built in memory from the one read. *)
Lemma kept_Status_Update c w1 :
  canaries w1 = canaries w →
  key_of c = req →
  CanaryDeployment.Spec c = CanaryDeployment.Spec canary →
  (weights_fit (CanaryDeploymentSpec.TrafficSplit (CanaryDeployment.Spec canary)) →
   rollout_invariant canary → rollout_invariant c) →
  kept req w canary (Status_Update env c w1).2.
Proof.
  intros Hw1 Hk Hspec Hinv. rewrite Status_Update_run. simpl.
  destruct (status_update_fault env); [by apply kept_unwritten|].
  exists (CanaryDeployment.with_Status (CanaryDeployment.Status c) canary).
  rewrite Hw1, Hk, (alter_stored _ _ _ canary) by done.
  split; [done|]. split; [unfold same_declaration; simpl; auto 10|].
  intros Hfit H. eapply (rollout_invariant_ext c); [by rewrite Hspec| |auto]. done.
Qed.

(** The analyzer, as the reconciler calls it, writes nothing, and gives
    back the rollout it was given, with at most the analysis run filled
    in. *)
Lemma runAnalysis_frame c w1 :
  canaries (runAnalysis env rt r c w1).2 = canaries w1 ∧
  routes (runAnalysis env rt r c w1).2 = routes w1 ∧
  ∀ c' verdict, (runAnalysis env rt r c w1).1 = Ret (c', verdict) →
    c' = c ∨ ∃ run, c' = CanaryDeployment.upd_Status
                           (CanaryDeploymentStatus.with_AnalysisRun run) c.
Proof.
  unfold runAnalysis.
  destruct (CanaryDeploymentReconciler.MetricsProvider r) as [p|].
  2:{ unfold_M. simpl. repeat split. intros c' verdict [= <- <-]. auto. }
  unfold_M.
  destruct (RunAnalysis_queries env rt p c w1) as (k & qs & _ & Hw & _).
  destruct (RunAnalysis env rt p c w1) as [[[res [err|]]|msg] w3];
    simpl in Hw; subst w3; simpl; repeat split.
  - intros c' verdict [= <- <-]. auto.
  - intros c' verdict [= <- <-]. eauto.
  - intros c' verdict [=].
Qed.

Ltac inv_tac :=
  unfold rollout_invariant, CanaryDeploymentPhasePaused, CanaryDeploymentPhaseSucceeded,
    CanaryDeploymentPhaseProgressing, CanaryDeploymentPhasePending,
    CanaryDeploymentPhaseFailed, CanaryDeploymentPhaseRollingBack in *;
  simpl in *;
  repeat match goal with
         | |- _ → _ => intros ?
         | H : _ ∧ _ |- _ => destruct H
         | |- _ ∧ _ => split
         | H : ?P → _, H' : ?P |- _ => specialize (H H')
         end;
  try discriminate; try congruence; try tauto; try lia.

(** The same with the facts about the current step at hand. *)
Ltac fit_tac :=
  let Hfit := fresh in
  intros Hfit;
  match goal with
  | Hfits : _ → _ ∧ _ ∧ _ |- _ =>
      destruct (Hfits Hfit) as (Hw100 & Hcs & Hnext); rewrite ?Hw100, ?Hnext
  end;
  inv_tac.

Lemma kept_handlePending w1 :
  canaries w1 = canaries w → kept req w canary (handlePending env canary w1).2.
Proof.
  intros Hw1. unfold handlePending, validateCanaryDeployment. unfold_M. simpl.
  rewrite Status_Update_pair. simpl.
  destruct (status_update_fault env); simpl;
    (apply kept_Status_Update; [done|done|done|intros _; inv_tac]).
Qed.

Lemma step_fits step :
  weights_fit (CanaryDeploymentSpec.TrafficSplit (CanaryDeployment.Spec canary)) →
  index_step (CanaryDeploymentSpec.TrafficSplit (CanaryDeployment.Spec canary))
             (CanaryDeploymentStatus.CurrentStep (CanaryDeployment.Status canary))
  = Some step →
  int32 (100 - TrafficSplitStep.Weight step) = 100 - TrafficSplitStep.Weight step ∧
  0 ≤ CanaryDeploymentStatus.CurrentStep (CanaryDeployment.Status canary)
  < Z.of_nat (length (CanaryDeploymentSpec.TrafficSplit (CanaryDeployment.Spec canary))) ∧
  int32 (CanaryDeploymentStatus.CurrentStep (CanaryDeployment.Status canary) + 1)
  = CanaryDeploymentStatus.CurrentStep (CanaryDeployment.Status canary) + 1.
Proof.
  intros [Hall Hlen] Hstep.
  unfold index_step in Hstep. case_bool_decide as Hneg; [done|].
  pose proof (lookup_lt_Some _ _ _ Hstep) as Hlt.
  apply (Forall_lookup_1 _ _ _ _ Hall) in Hstep.
  split; [apply int32_small; lia|]. split; [lia|]. apply int32_small. lia.
Qed.

Lemma kept_handleProgressing w1 :
  canaries w1 = canaries w →
  CanaryDeploymentStatus.Phase (CanaryDeployment.Status canary)
  = CanaryDeploymentPhaseProgressing →
  kept req w canary (handleProgressing env rt r canary w1).2.
Proof.
  intros Hw1 Hphase. unfold handleProgressing.
  case_bool_decide as Hdone.
  { unfold_M. simpl. rewrite Status_Update_pair. simpl.
    apply kept_Status_Update; [done|done|done|intros _; inv_tac]. }
  destruct (index_step _ _) as [step|] eqn:Hstep; [|by apply kept_unwritten].
  pose proof (λ Hfit, step_fits step Hfit Hstep) as Hfits.
  unfold_M.
  destruct (UpdateTrafficSplit_err env canary (TrafficSplitStep.Weight step) w1)
    as (failed & w2 & -> & Hc & _).
  assert (Hw2 : canaries w2 = canaries w) by congruence.
  destruct failed as [err|]; simpl.
  { rewrite Status_Update_pair. simpl.
    apply kept_Status_Update; [done|done|done|intros _; inv_tac]. }
  destruct (TrafficSplitStep.Pause step); simpl.
  { rewrite Status_Update_pair. simpl.
    apply kept_Status_Update; [done|done|done|fit_tac]. }
  destruct (negb _ && _); simpl.
  2:{ rewrite Status_Update_pair. simpl.
      apply kept_Status_Update; [done|done|done|fit_tac]. }
  match goal with |- context [runAnalysis env rt r ?c w2] =>
    destruct (runAnalysis_frame c w2) as (Hc3 & _ & Hc');
    destruct (runAnalysis env rt r c w2) as [[[c' [passed err]]|msg] w3] end;
    simpl in Hc3.
  2:{ apply kept_unwritten. simpl. congruence. }
  specialize (Hc' _ _ eq_refl).
  assert (Hw3 : canaries w3 = canaries w) by congruence.
  destruct passed, err as [err|]; simpl; rewrite Status_Update_pair; simpl;
    destruct Hc' as [->|[run ->]];
    (apply kept_Status_Update; [done|done|done|fit_tac]).
Qed.

Lemma kept_handlePaused w1 :
  canaries w1 = canaries w →
  CanaryDeploymentStatus.Phase (CanaryDeployment.Status canary)
  = CanaryDeploymentPhasePaused →
  kept req w canary (handlePaused env canary w1).2.
Proof.
  intros Hw1 Hphase. unfold handlePaused.
  case_bool_decide as Hresume.
  - unfold_M. unfold_M. cbn beta iota zeta. rewrite Update_run. cbn beta iota zeta.
    change (key_of _) with (key_of canary).
    destruct (update_fault env) as [e|]; cbn beta iota zeta;
      [by apply kept_unwritten|].
    rewrite Hkey, Hw1, Hstored. rewrite Status_Update_run. cbn beta iota zeta.
    change (key_of _) with (key_of canary).
    rewrite Hkey, (alter_stored _ _ _ canary) by done.
    destruct (status_update_fault env) as [e|]; cbn [snd canaries].
    + eexists. split; [reflexivity|].
      split; [unfold same_declaration; simpl; auto 10|]. intros _. inv_tac.
    + rewrite (alter_stored _ _ _ _ (lookup_insert_eq _ _ _)), insert_insert_eq.
      eexists. split; [reflexivity|].
      split; [unfold same_declaration; simpl; auto 10|].
      intros [_ Hlen] (Hsum & Hstep & Hpaused & _). specialize (Hpaused Hphase).
      unfold rollout_invariant. simpl.
      unfold decoded_string, decoded_int32. rewrite Hphase.
      rewrite (bool_decide_eq_false_2 (CanaryDeploymentPhasePaused = "")) by done.
      split; [repeat case_bool_decide; lia|].
      split; [case_bool_decide as Hzero; [rewrite int32_small by lia|]; lia|].
      split; [done|]. intros [=].
  - case_bool_decide as Habort.
    + unfold_M. simpl. rewrite Status_Update_pair. simpl.
      apply kept_Status_Update; [done|done|done|intros _; inv_tac].
    + by apply kept_unwritten.
Qed.

Lemma kept_handleRollingBack w1 :
  canaries w1 = canaries w →
  kept req w canary (handleRollingBack env canary w1).2.
Proof.
  intros Hw1. unfold handleRollingBack. unfold_M.
  destruct (UpdateTrafficSplit_err env canary 0 w1) as (failed & w2 & -> & Hc & _).
  destruct failed as [err|]; simpl; [apply kept_unwritten; congruence|].
  rewrite Status_Update_pair. simpl.
  apply kept_Status_Update; [congruence|done|done|intros _; inv_tac].
Qed.

(** Whatever [Reconcile] meets, this is all it does to the store of
    rollouts. *)
Lemma kept_Reconcile : kept req w canary (Reconcile env rt r req w).2.
Proof.
  destruct (get_fault env) as [e|] eqn:Hget.
  { rewrite (Reconcile_get_fault _ _ _ _ _ _ Hget). by apply kept_unwritten. }
  destruct (CanaryDeployment.DeletionTimestamp canary) as [t|] eqn:Hlive.
  { rewrite (Reconcile_deletion env rt r req w canary Hget Hstored)
      by (rewrite Hlive; done).
    apply kept_unwritten.
    exact (proj1 (handleDeletion_stores env canary (fetched req w))). }
  destruct (Reconcile_dispatch env rt r req w canary Hget Hstored Hlive)
    as (Hpending & Hprogressing & Hpaused & Hrollback).
  destruct (decide (CanaryDeploymentStatus.Phase (CanaryDeployment.Status canary)
                    = CanaryDeploymentPhasePending)) as [Hp|Hnp].
  { rewrite Hpending by done. by apply kept_handlePending. }
  destruct (decide (CanaryDeploymentStatus.Phase (CanaryDeployment.Status canary)
                    = CanaryDeploymentPhaseProgressing)) as [Hp|Hnpr].
  { rewrite Hprogressing by done. by apply kept_handleProgressing. }
  destruct (decide (CanaryDeploymentStatus.Phase (CanaryDeployment.Status canary)
                    = CanaryDeploymentPhasePaused)) as [Hp|Hnpa].
  { rewrite Hpaused by done. by apply kept_handlePaused. }
  destruct (decide (CanaryDeploymentStatus.Phase (CanaryDeployment.Status canary)
                    = CanaryDeploymentPhaseRollingBack)) as [Hp|Hnr].
  { rewrite Hrollback by done. by apply kept_handleRollingBack. }
  unfold Reconcile, Get_canary. unfold_M. simpl.
  rewrite Hget. simpl. rewrite Hstored. simpl.
  rewrite (bool_decide_eq_false_2 _) by (rewrite Hlive; auto).
  case_bool_decide as Hempty.
  - unfold_M. simpl. rewrite Status_Update_pair. simpl.
    destruct (status_update_fault env); simpl;
      (apply kept_Status_Update; [done|done|done|intros _; inv_tac]).
  - rewrite !bool_decide_eq_false_2 by done.
    case_bool_decide; by apply kept_unwritten.
Qed.

End Stored.

(** X1.  Whatever a reconcile meets (refused reads and writes, a failing
    backend, a deletion in progress), it writes no rollout but the one it was
    asked about, and of that one it leaves the namespace, the name, the
    deletion mark and the spec as they were; the only change it ever makes to
    the annotations is to delete the resume annotation. *)
Theorem Reconcile_keeps_declaration env rt r req world canary :
  canaries world !! req = Some canary →
  key_of canary = req →
  ∃ canary',
    canaries (Reconcile env rt r req world).2 = <[req := canary']> (canaries world) ∧
    same_declaration canary canary'.
Proof.
  intros Hstored Hkey.
  destruct (kept_Reconcile env rt r req world canary Hstored Hkey)
    as (c' & Hc & Hdecl & _).
  eauto.
Qed.

(** The paused demo rollout, resumed: the stored rollout is replaced by one
    of the same declaration. *)
Lemma Reconcile_keeps_declaration_witness :
  let annotations : gmap string string := {[ "gateway-cd.io/resume" := "true" ]} in
  let canary := demo_canary annotations no_analysis true "Paused" 1 50 in
  let world := demo_world canary in
  ∃ canary',
    canaries (Reconcile (env_with backend_down) go_runtime demo_reconciler demo_req world).2
    = <[demo_req := canary']> (canaries world) ∧
    same_declaration canary canary'.
Proof.
  intros annotations canary world.
  exact (Reconcile_keeps_declaration (env_with backend_down) go_runtime demo_reconciler
           demo_req world canary ltac:(vm_compute; reflexivity) eq_refl).
Defined.

(** X2.  For a rollout whose step weights fit: if the weights of the stored
    status add up to 100, the step is within bounds, a paused rollout has at
    least one step and a succeeded one is at the end with the canary at 100,
    then the same holds after any number of reconciles, whatever each of
    them meets. *)
Theorem reconciles_keep_invariant envs rt r req world canary :
  canaries world !! req = Some canary →
  key_of canary = req →
  weights_fit (CanaryDeploymentSpec.TrafficSplit (CanaryDeployment.Spec canary)) →
  rollout_invariant canary →
  ∃ canary',
    canaries (run_reconciles envs rt r req world) !! req = Some canary' ∧
    CanaryDeployment.Spec canary' = CanaryDeployment.Spec canary ∧
    rollout_invariant canary'.
Proof.
  revert world canary.
  induction envs as [|env envs IH]; intros world canary Hstored Hkey Hfit Hinv; simpl.
  { eauto. }
  destruct (kept_Reconcile env rt r req world canary Hstored Hkey)
    as (c' & Hc & (Hns & Hname & _ & Hspec & _) & Hkeeps).
  destruct (IH (Reconcile env rt r req world).2 c') as (c'' & Hlast & Hspec' & Hinv').
  - rewrite Hc. apply lookup_insert_eq.
  - unfold key_of in *. by rewrite Hns, Hname.
  - by rewrite Hspec.
  - by apply Hkeeps.
  - exists c''. split; [done|]. split; [congruence|done].
Qed.

(** The demo rollout from its creation, over six invocations. *)
Lemma reconciles_keep_invariant_witness :
  let env := env_with backend_down in
  let canary := demo_canary ∅ no_analysis true "" 0 0 in
  let world := demo_world canary in
  ∃ canary',
    canaries (run_reconciles [env; env; env; env; env; env] go_runtime demo_reconciler
                demo_req world) !! demo_req = Some canary' ∧
    CanaryDeployment.Spec canary' = CanaryDeployment.Spec canary ∧
    rollout_invariant canary'.
Proof.
  intros env canary world.
  apply (reconciles_keep_invariant [env; env; env; env; env; env] go_runtime
           demo_reconciler demo_req world canary).
  - vm_compute; reflexivity.
  - reflexivity.
  - split; [|simpl; lia]. repeat constructor; simpl; lia.
  - unfold rollout_invariant. simpl.
    split; [lia|]. split; [lia|]. split; intros [=].
Defined.

(** What is not kept: that a paused rollout has a step left.  A rollout of
    one step, paused at step 0 and resumed, is stored Paused at step 1: the
    reply to the first write leaves out the step 0 the server holds, so the
    step raised in memory stays, while the phase comes back. *)
Example resumed_single_step_is_Paused_past_its_step :
  let world := demo_world single_step_canary in
  let out := Reconcile (env_with backend_down) go_runtime demo_reconciler demo_req world in
  rollout_invariant single_step_canary ∧
  CanaryDeploymentStatus.CurrentStep (CanaryDeployment.Status single_step_canary) = 0 ∧
  length (CanaryDeploymentSpec.TrafficSplit (CanaryDeployment.Spec single_step_canary))
  = 1%nat ∧
  (λ s, (CanaryDeploymentStatus.Phase s, CanaryDeploymentStatus.CurrentStep s))
    <$> stored_status demo_req out.2
  = Some ("Paused", 1).
Proof.
  split; [|vm_compute; repeat split].
  unfold rollout_invariant. simpl. split; [lia|]. split; [lia|]. split; [lia|intros [=]].
Qed.

(** ** Panics *)

Lemma handleProgressing_returns env rt r canary w :
  0 ≤ CanaryDeploymentStatus.CurrentStep (CanaryDeployment.Status canary) →
  (∀ p, CanaryDeploymentReconciler.MetricsProvider r = Some p → panic_free env p) →
  ∃ result, (handleProgressing env rt r canary w).1 = Ret (result, None).
Proof.
  intros Hcs Hfree. unfold handleProgressing.
  case_bool_decide as Hdone.
  { unfold_M. simpl. rewrite Status_Update_pair. simpl. eauto. }
  unfold index_step. rewrite bool_decide_eq_false_2 by lia.
  destruct (_ !! Z.to_nat _) as [step|] eqn:Hstep.
  2:{ apply lookup_ge_None in Hstep. lia. }
  unfold_M.
  destruct (UpdateTrafficSplit_err env canary (TrafficSplitStep.Weight step) w)
    as (failed & w2 & -> & _).
  destruct failed as [err|]; simpl.
  { rewrite Status_Update_pair. simpl. eauto. }
  destruct (TrafficSplitStep.Pause step); simpl.
  { rewrite Status_Update_pair. simpl. eauto. }
  destruct (negb _ && _); simpl.
  2:{ rewrite Status_Update_pair. simpl. eauto. }
  unfold runAnalysis.
  destruct (CanaryDeploymentReconciler.MetricsProvider r) as [p|] eqn:Hprov.
  2:{ unfold_M. simpl. rewrite Status_Update_pair. simpl. eauto. }
  unfold_M.
  match goal with |- context [RunAnalysis env rt p ?c w2] =>
    destruct (RunAnalysis_returns env rt p c w2 (Hfree p eq_refl))
      as (res & err & w3 & ->) end.
  destruct err as [err|]; simpl.
  { rewrite Status_Update_pair. simpl. eauto. }
  destruct (AnalysisResult.Passed res); simpl; rewrite Status_Update_pair; simpl; eauto.
Qed.

(** X3.  A reconcile does not panic when the stored step is not negative and
    the metrics backend, if one is configured, sends samples that carry a
    value: whatever else it meets, it returns a result and possibly an
    error. *)
Theorem Reconcile_returns env rt r req world :
  (∀ canary, canaries world !! req = Some canary →
             0 ≤ CanaryDeploymentStatus.CurrentStep (CanaryDeployment.Status canary)) →
  (∀ p, CanaryDeploymentReconciler.MetricsProvider r = Some p → panic_free env p) →
  ∃ result err, (Reconcile env rt r req world).1 = Ret (result, err).
Proof.
  intros Hcs Hfree.
  destruct (get_fault env) as [e|] eqn:Hget.
  { rewrite (Reconcile_get_fault _ _ _ _ _ _ Hget). simpl. eauto. }
  destruct (canaries world !! req) as [canary|] eqn:Hstored.
  2:{ unfold Reconcile, Get_canary. unfold_M. simpl. rewrite Hget. simpl.
      rewrite Hstored. simpl. eauto. }
  specialize (Hcs canary eq_refl).
  destruct (CanaryDeployment.DeletionTimestamp canary) as [t|] eqn:Hlive.
  { rewrite (Reconcile_deletion env rt r req world canary Hget Hstored)
      by (rewrite Hlive; done).
    unfold handleDeletion, Cleanup. unfold_M.
    destruct (UpdateTrafficSplit_err env canary 0 (fetched req world))
      as (failed & w2 & -> & _).
    destruct failed; simpl; eauto. }
  unfold Reconcile, Get_canary. unfold_M. simpl.
  rewrite Hget. simpl. rewrite Hstored. simpl.
  rewrite (bool_decide_eq_false_2 _) by (rewrite Hlive; auto).
  repeat case_bool_decide.
  - unfold_M. simpl. rewrite Status_Update_pair. simpl.
    destruct (status_update_fault env); simpl; eauto.
  - unfold handlePending, validateCanaryDeployment. unfold_M. simpl.
    rewrite Status_Update_pair. simpl.
    destruct (status_update_fault env); simpl; eauto.
  - destruct (handleProgressing_returns env rt r canary (fetched req world) Hcs Hfree)
      as (result & Hret).
    unfold fetched in Hret. eauto.
  - unfold handlePaused. repeat case_bool_decide; unfold_M; simpl.
    + rewrite Update_run. simpl. destruct (update_fault env); simpl; [eauto|].
      rewrite Status_Update_pair. simpl.
      destruct (status_update_fault env); simpl; eauto.
    + rewrite Status_Update_pair. simpl. eauto.
    + eauto.
  - unfold handleRollingBack. unfold_M.
    match goal with |- context [UpdateTrafficSplit env canary 0 ?w] =>
      destruct (UpdateTrafficSplit_err env canary 0 w) as (failed & w2 & -> & _) end.
    destruct failed; simpl; [eauto|].
    rewrite Status_Update_pair. simpl. eauto.
  - simpl. eauto.
  - simpl. eauto.
Qed.

(** The demo rollout at its first step, with analysis and a backend that
    answers every query with a sample. *)
Lemma Reconcile_returns_witness :
  let canary := demo_canary ∅ demo_analysis false "Progressing" 0 0 in
  ∃ result err,
    (Reconcile (env_with backend_half) go_runtime demo_reconciler demo_req
               (demo_world canary)).1 = Ret (result, err).
Proof.
  intros canary.
  apply (Reconcile_returns (env_with backend_half) go_runtime demo_reconciler demo_req
           (demo_world canary)).
  - intros c Hc. vm_compute in Hc. injection Hc as <-. simpl. lia.
  - intros p _ tr q. reflexivity.
Defined.

(** X4.  A rollout in Progressing whose stored step is negative makes the
    reconcile panic on the index into the steps, before the route is read
    and before anything is written. *)
Theorem negative_step_panics env rt r req world canary :
  get_fault env = None →
  canaries world !! req = Some canary →
  CanaryDeployment.DeletionTimestamp canary = None →
  CanaryDeploymentStatus.Phase (CanaryDeployment.Status canary)
  = CanaryDeploymentPhaseProgressing →
  CanaryDeploymentStatus.CurrentStep (CanaryDeployment.Status canary) < 0 →
  Reconcile env rt r req world = (Panic "index out of range", fetched req world).
Proof.
  intros Hget Hstored Hlive Hphase Hneg.
  destruct (Reconcile_dispatch env rt r req world canary Hget Hstored Hlive)
    as (_ & -> & _); [|done].
  unfold handleProgressing, index_step.
  rewrite bool_decide_eq_false_2 by lia.
  by rewrite bool_decide_eq_true_2 by lia.
Qed.

(** The demo rollout with a stored step of -1. *)
Lemma negative_step_panics_witness :
  let canary := demo_canary ∅ no_analysis true "Progressing" (-1) 0 in
  Reconcile (env_with backend_down) go_runtime demo_reconciler demo_req (demo_world canary)
  = (Panic "index out of range", fetched demo_req (demo_world canary)).
Proof.
  intros canary.
  apply (negative_step_panics (env_with backend_down) go_runtime demo_reconciler demo_req
           (demo_world canary) canary).
  - reflexivity.
  - vm_compute; reflexivity.
  - reflexivity.
  - reflexivity.
  - simpl. lia.
Defined.

(** ** The branches of the state machine *)

Lemma stored_after_Status_Update env c w1 (req : NamespacedName) old :
  canaries w1 !! req = Some old →
  key_of c = req →
  stored_status req (Status_Update env c w1).2
  = Some (match status_update_fault env with
          | None => CanaryDeployment.Status c
          | Some _ => CanaryDeployment.Status old
          end).
Proof.
  intros Hold Hkey. rewrite Status_Update_run. unfold stored_status. simpl.
  destruct (status_update_fault env); simpl.
  - by rewrite Hold.
  - by rewrite Hkey, lookup_alter_eq, Hold.
Qed.

(** X5.  A request for a rollout that is not stored is answered with no
    error and no requeue; a read that fails for another reason is answered
    with that error.  Either way nothing is written and nothing else is
    read. *)
Theorem Reconcile_absent_or_unreadable env rt r req world :
  (get_fault env = None → canaries world !! req = None →
   Reconcile env rt r req world = (Ret (Result.zero, None), fetched req world)) ∧
  (∀ err, get_fault env = Some err →
   Reconcile env rt r req world = (Ret (Result.zero, Some err), fetched req world)).
Proof.
  split.
  - intros Hget Hnone. unfold Reconcile, Get_canary. unfold_M. simpl.
    rewrite Hget. simpl. by rewrite Hnone.
  - intros err Hget. by apply Reconcile_get_fault.
Qed.

(** X6.  A stored rollout whose phase is empty is initialised: when the
    status write succeeds the stored status has phase Pending, step 0 and
    weights (0, 100), stamped with the time, and the invocation asks to be
    called again after 5 s; when the write is refused its error is returned
    and the stored rollout is as before.  The message, the conditions and
    the analysis run are not touched, and no route is read. *)
Theorem Reconcile_initializes env rt r req world canary :
  get_fault env = None →
  canaries world !! req = Some canary →
  key_of canary = req →
  CanaryDeployment.DeletionTimestamp canary = None →
  CanaryDeploymentStatus.Phase (CanaryDeployment.Status canary) = "" →
  let out := Reconcile env rt r req world in
  let old := CanaryDeployment.Status canary in
  let initial :=
    CanaryDeploymentStatus.mk CanaryDeploymentPhasePending
      (CanaryDeploymentStatus.Message old) 0 0 100
      (CanaryDeploymentStatus.Conditions old)
      (Some (time_Now env (trace world ++ [EvGet req])))
      (CanaryDeploymentStatus.AnalysisRun old) in
  (status_update_fault env = None →
   out.1 = Ret (Result.after (Second * 5), None) ∧
   stored_status req out.2 = Some initial) ∧
  (∀ err, status_update_fault env = Some err →
   out.1 = Ret (Result.zero, Some err) ∧ canaries out.2 = canaries world) ∧
  routes out.2 = routes world ∧
  trace out.2
  = trace world
    ++ [EvGet req;
        EvStatusUpdate (CanaryDeployment.with_Status initial canary)
                       (status_update_fault env)].
Proof.
  intros Hget Hstored Hkey Hlive Hphase out old initial.
  unfold out, Reconcile, Get_canary. unfold_M. simpl.
  rewrite Hget. simpl. rewrite Hstored. simpl.
  rewrite (bool_decide_eq_false_2 _) by (rewrite Hlive; auto).
  rewrite (bool_decide_eq_true_2 _ Hphase).
  unfold_M. simpl. rewrite Status_Update_run. simpl.
  destruct (status_update_fault env) as [e|]; simpl.
  - split; [intros [=]|]. split; [by intros err [= <-]|].
    split; [done|]. by rewrite <- app_assoc.
  - split.
    { intros _. split; [done|]. unfold stored_status. simpl.
      change (key_of _) with (key_of canary).
      by rewrite Hkey, lookup_alter_eq, Hstored. }
    split; [intros err [=]|]. split; [done|]. by rewrite <- app_assoc.
Qed.

(** The demo rollout as created: after one invocation it is stored as
    Pending at step 0 with weights (0, 100). *)
Lemma Reconcile_initializes_witness :
  let canary := demo_canary ∅ no_analysis true "" 7 31 in
  let out := Reconcile (env_with backend_down) go_runtime demo_reconciler demo_req
                       (demo_world canary) in
  out.1 = Ret (Result.after (Second * 5), None) ∧
  stored_status demo_req out.2
  = Some (CanaryDeploymentStatus.mk "Pending" "" 0 0 100 [] (Some 1) None).
Proof.
  intros canary out.
  destruct (Reconcile_initializes (env_with backend_down) go_runtime demo_reconciler
              demo_req (demo_world canary) canary
              eq_refl ltac:(vm_compute; reflexivity) eq_refl eq_refl eq_refl)
    as (Hok & _).
  exact (Hok eq_refl).
Defined.

(** X7.  A stored rollout in Succeeded or Failed, or in any phase the
    switch has no case for, is left alone: nothing is written, no route is
    read, no query is sent, and no requeue is asked. *)
Theorem Reconcile_leaves_other_phases env rt r req world canary :
  get_fault env = None →
  canaries world !! req = Some canary →
  CanaryDeployment.DeletionTimestamp canary = None →
  CanaryDeploymentStatus.Phase (CanaryDeployment.Status canary) ∉ handled_phases →
  Reconcile env rt r req world = (Ret (Result.zero, None), fetched req world).
Proof.
  intros Hget Hstored Hlive Hphase.
  unfold Reconcile, Get_canary. unfold_M. simpl.
  rewrite Hget. simpl. rewrite Hstored. simpl.
  rewrite (bool_decide_eq_false_2 _) by (rewrite Hlive; auto).
  unfold handled_phases in Hphase.
  rewrite !bool_decide_eq_false_2 by (intros Heq; apply Hphase; rewrite Heq; set_solver).
  by case_bool_decide.
Qed.

(** A demo rollout whose phase is a word the switch does not know. *)
Lemma Reconcile_leaves_other_phases_witness :
  let canary := demo_canary ∅ no_analysis true "Promoting" 1 50 in
  Reconcile (env_with backend_down) go_runtime demo_reconciler demo_req (demo_world canary)
  = (Ret (Result.zero, None), fetched demo_req (demo_world canary)).
Proof.
  intros canary.
  apply (Reconcile_leaves_other_phases (env_with backend_down) go_runtime demo_reconciler
           demo_req (demo_world canary) canary).
  - reflexivity.
  - vm_compute; reflexivity.
  - reflexivity.
  - unfold handled_phases. simpl. intros Hin.
    repeat (apply elem_of_cons in Hin as [Hin|Hin]; [discriminate Hin|]).
    by apply elem_of_nil in Hin.
Defined.

(** ** More on the route mutator *)

Lemma UpdateTrafficSplit_run env canary w world route :
  route_get_fault env = None →
  route_update_fault env = None →
  routes world !! route_key canary = Some route →
  UpdateTrafficSplit env canary w world = (Ret None, route_written canary w route world).
Proof.
  intros Hget Hupdate Hroute.
  unfold UpdateTrafficSplit, Get_route, Update_route, route_written. unfold_M. simpl.
  rewrite Hget. simpl. rewrite Hroute. simpl. rewrite Hupdate. simpl.
  by rewrite <- app_assoc.
Qed.

(** X8.  [UpdateTrafficSplit] succeeds exactly when the route can be read,
    exists and can be written.  Otherwise it returns an error and leaves
    every stored route and rollout as it was: with the read refused or the
    route missing no write is attempted, and the error names the route by
    the namespace of the gateway reference or, when that is empty, by the
    namespace of the rollout. *)
Theorem UpdateTrafficSplit_failure env canary w world :
  let key := route_key canary in
  let out := UpdateTrafficSplit env canary w world in
  (out.1 = Ret None ↔ route_available env canary world) ∧
  (∃ failed, out.1 = Ret failed ∧
     (failed ≠ None → canaries out.2 = canaries world ∧ routes out.2 = routes world)) ∧
  (∀ err, route_get_fault env = Some err →
     out = (Ret (Some (wrap_err ("failed to get HTTPRoute " +:+ key.1 +:+ "/" +:+ key.2
                                 +:+ ": ") err)),
            mkWorld (canaries world) (routes world) (trace world ++ [EvGetRoute key]))) ∧
  (route_get_fault env = None → routes world !! key = None →
     out = (Ret (Some (wrap_err ("failed to get HTTPRoute " +:+ key.1 +:+ "/" +:+ key.2
                                 +:+ ": ") (not_found httproutes key.2))),
            mkWorld (canaries world) (routes world) (trace world ++ [EvGetRoute key]))) ∧
  (key.1 = (if bool_decide (GatewayRef.Namespace
                              (CanaryDeploymentSpec.Gateway (CanaryDeployment.Spec canary)) = "")
            then CanaryDeployment.Namespace canary
            else GatewayRef.Namespace
                   (CanaryDeploymentSpec.Gateway (CanaryDeployment.Spec canary)))).
Proof.
  intros key out. unfold out, route_available.
  unfold UpdateTrafficSplit, Get_route, Update_route. unfold_M. simpl. fold key.
  destruct (route_get_fault env) as [eg|] eqn:Hg; simpl.
  { split; [split; [intros [=]|intros ([=] & _)]|].
    split; [eexists; split; [reflexivity|done]|].
    split; [by intros err [= <-]|]. split; [intros [=]|done]. }
  destruct (routes world !! key) as [route|] eqn:Hr; simpl.
  2:{ split; [split; [intros [=]|intros (_ & _ & [? [=]])]|].
      split; [eexists; split; [reflexivity|done]|].
      split; [intros err [=]|]. split; [done|done]. }
  destruct (route_update_fault env) as [eu|] eqn:Hu; simpl.
  { split; [split; [intros [=]|intros (_ & [=] & _)]|].
    split; [eexists; split; [reflexivity|done]|].
    split; [intros err [=]|]. split; [intros _ [=]|done]. }
  split; [split; [eauto|done]|].
  split; [eexists; split; [reflexivity|done]|].
  split; [intros err [=]|]. split; [intros _ [=]|done].
Qed.

Lemma updateRule_last canary w1 w2 rule :
  updateRule canary w2 (updateRule canary w1 rule) = updateRule canary w2 rule.
Proof.
  unfold updateRule. destruct rule as [ms fs bs].
  destruct ms as [|m ms]; simpl; repeat case_bool_decide; simpl; done.
Qed.

(** X9.  The last write wins: after two successful calls for the same
    rollout, the stored routes are what the second call alone would have
    left, whatever the weight of the first; so repeating a call changes
    nothing. *)
Theorem UpdateTrafficSplit_last_write_wins env1 env2 canary w1 w2 world world1 world2 :
  UpdateTrafficSplit env1 canary w1 world = (Ret None, world1) →
  UpdateTrafficSplit env2 canary w2 world1 = (Ret None, world2) →
  (UpdateTrafficSplit env2 canary w2 world).1 = Ret None ∧
  routes world2 = routes (UpdateTrafficSplit env2 canary w2 world).2 ∧
  canaries world2 = canaries world ∧
  (w1 = w2 → routes world2 = routes world1).
Proof.
  intros H1 H2.
  destruct (UpdateTrafficSplit_ok _ _ _ _ _ H1) as (route & _ & _ & Hroute & ->).
  destruct (UpdateTrafficSplit_ok _ _ _ _ _ H2) as (route1 & Hg & Hu & Hroute1 & ->).
  simpl in Hroute1. rewrite lookup_insert_eq in Hroute1. injection Hroute1 as <-.
  rewrite (UpdateTrafficSplit_run env2 canary w2 world route Hg Hu Hroute).
  unfold route_written. cbn [fst snd routes canaries].
  assert (∀ w, (updateHTTPRouteBackends
                  (updateHTTPRouteBackends route canary w1).1 canary w).1
               = (updateHTTPRouteBackends route canary w).1) as Hlast.
  { intros w. unfold updateHTTPRouteBackends, with_Rules. simpl. f_equal.
    rewrite <- list_fmap_compose. apply list_fmap_ext.
    intros i rule _. apply updateRule_last. }
  split; [done|]. rewrite Hlast, insert_insert_eq.
  split; [done|]. split; [done|].
  intros ->. done.
Qed.

(** The demo route written at weight 20 and then at weight 50 is the route
    written at weight 50. *)
Lemma UpdateTrafficSplit_last_write_wins_witness :
  let env := env_with backend_down in
  let canary := demo_canary ∅ no_analysis true "Progressing" 0 0 in
  let world := demo_world canary in
  let world1 := (UpdateTrafficSplit env canary 20 world).2 in
  let world2 := (UpdateTrafficSplit env canary 50 world1).2 in
  routes world2 = routes (UpdateTrafficSplit env canary 50 world).2.
Proof.
  intros env canary world world1 world2.
  destruct (UpdateTrafficSplit_last_write_wins env env canary 20 50 world world1 world2
              ltac:(vm_compute; reflexivity) ltac:(vm_compute; reflexivity))
    as (_ & Hroutes & _).
  exact Hroutes.
Defined.

(** X10.  The weight is not checked against the range 0..100.  A successful
    call with a weight other than 0 and 100 writes the pair stable at
    [100 - w], canary at [w] into every rule, also when [w] is negative
    or above 100: one of the two weights written is then negative. *)
Theorem UpdateTrafficSplit_does_not_clamp env canary w world world' :
  -2147483547 ≤ w ≤ 2147483647 →
  w ≠ 0 → w ≠ 100 →
  UpdateTrafficSplit env canary w world = (Ret None, world') →
  let name := ServiceRef.Name (CanaryDeploymentSpec.Service (CanaryDeployment.Spec canary)) in
  let port := ServiceRef.Port (CanaryDeploymentSpec.Service (CanaryDeployment.Spec canary)) in
  ∃ route',
    routes world' !! route_key canary = Some route' ∧
    ∀ rule, rule ∈ HTTPRoute.Rules route' →
      HTTPRouteRule.BackendRefs rule
      = [HTTPBackendRef.mk name (Some port) (Some (100 - w));
         HTTPBackendRef.mk (name +:+ "-canary") (Some port) (Some w)] ∧
      (w < 0 ∨ 100 < w → has_negative_weight rule).
Proof.
  intros Hw H0 H100 Hrun name port.
  destruct (UpdateTrafficSplit_ok _ _ _ _ _ Hrun) as (route & _ & _ & Hold & ->).
  exists (updateHTTPRouteBackends route canary w).1. simpl.
  split; [apply lookup_insert_eq|].
  intros rule [old [-> _]]%list_elem_of_fmap.
  assert (HTTPRouteRule.BackendRefs (updateRule canary w old)
          = [HTTPBackendRef.mk name (Some port) (Some (100 - w));
             HTTPBackendRef.mk (name +:+ "-canary") (Some port) (Some w)]) as Hrefs.
  { unfold updateRule. rewrite !bool_decide_eq_false_2 by done.
    unfold stableBackend, canaryBackend. simpl.
    rewrite int64_small by lia. rewrite !int32_small by lia. done. }
  split; [exact Hrefs|].
  intros Hout. unfold has_negative_weight. rewrite Hrefs.
  destruct Hout as [Hneg|Hbig].
  - exists (HTTPBackendRef.mk (name +:+ "-canary") (Some port) (Some w)), w.
    split; [apply elem_of_cons; right; apply elem_of_cons; by left|]. done.
  - exists (HTTPBackendRef.mk name (Some port) (Some (100 - w))), (100 - w).
    split; [apply elem_of_cons; by left|]. split; [done|lia].
Qed.

(** The demo route at weight 150: the stable backend gets weight -50. *)
Lemma UpdateTrafficSplit_does_not_clamp_witness :
  let env := env_with backend_down in
  let canary := demo_canary ∅ no_analysis true "Progressing" 0 0 in
  let world' := (UpdateTrafficSplit env canary 150 (demo_world canary)).2 in
  ∃ route',
    routes world' !! route_key canary = Some route' ∧
    ∀ rule, rule ∈ HTTPRoute.Rules route' →
      HTTPRouteRule.BackendRefs rule
      = [HTTPBackendRef.mk "demo-app-service" (Some 80) (Some (-50));
         HTTPBackendRef.mk "demo-app-service-canary" (Some 80) (Some 150)] ∧
      (150 < 0 ∨ 100 < 150 → has_negative_weight rule).
Proof.
  intros env canary world'.
  apply (UpdateTrafficSplit_does_not_clamp env canary 150 (demo_world canary) world').
  - lia.
  - lia.
  - lia.
  - vm_compute; reflexivity.
Defined.

(** ** The branches of [handleProgressing] *)

Lemma Reconcile_Progressing env rt r req world canary :
  get_fault env = None →
  canaries world !! req = Some canary →
  CanaryDeployment.DeletionTimestamp canary = None →
  CanaryDeploymentStatus.Phase (CanaryDeployment.Status canary)
  = CanaryDeploymentPhaseProgressing →
  Reconcile env rt r req world = handleProgressing env rt r canary (fetched req world).
Proof.
  intros Hget Hstored Hlive Hphase.
  by destruct (Reconcile_dispatch env rt r req world canary Hget Hstored Hlive)
    as (_ & Hprog & _ & _); apply Hprog.
Qed.

(** A status write on top of a world that still stores [old] under [req]:
    what is stored afterwards, and what is not touched. *)
Lemma Status_Update_stores env c w1 (req : NamespacedName) old :
  canaries w1 !! req = Some old →
  key_of c = req →
  let w2 := (Status_Update env c w1).2 in
  (status_update_fault env = None →
   stored_status req w2 = Some (CanaryDeployment.Status c)) ∧
  (status_update_fault env ≠ None → canaries w2 = canaries w1) ∧
  routes w2 = routes w1 ∧
  queries_in (trace w2) = queries_in (trace w1).
Proof.
  intros Hold Hkey w2. unfold w2.
  rewrite (stored_after_Status_Update env c w1 req old Hold Hkey).
  rewrite Status_Update_queries. rewrite Status_Update_run. simpl.
  destruct (status_update_fault env); simpl; repeat split; done.
Qed.

(** X11.  A rollout in Progressing whose step index has reached the number
    of steps is completed without any call on the route: the route is
    neither read nor written, so it keeps the weights of the last step that
    was applied.  The status written has phase Succeeded and weights
    (100, 0); the outcome of that write is not looked at, and the
    invocation reports success with no requeue either way. *)
Theorem completion_leaves_route env rt r req world canary :
  get_fault env = None →
  canaries world !! req = Some canary →
  key_of canary = req →
  CanaryDeployment.DeletionTimestamp canary = None →
  CanaryDeploymentStatus.Phase (CanaryDeployment.Status canary)
  = CanaryDeploymentPhaseProgressing →
  Z.of_nat (length (CanaryDeploymentSpec.TrafficSplit (CanaryDeployment.Spec canary)))
  ≤ CanaryDeploymentStatus.CurrentStep (CanaryDeployment.Status canary) →
  let out := Reconcile env rt r req world in
  out.1 = Ret (Result.zero, None) ∧
  routes out.2 = routes world ∧
  (∃ written,
     trace out.2
     = trace world ++ [EvGet req; EvStatusUpdate written (status_update_fault env)]) ∧
  (status_update_fault env = None →
   ∃ s, stored_status req out.2 = Some s ∧
        CanaryDeploymentStatus.Phase s = CanaryDeploymentPhaseSucceeded ∧
        CanaryDeploymentStatus.CanaryWeight s = 100 ∧
        CanaryDeploymentStatus.StableWeight s = 0 ∧
        CanaryDeploymentStatus.CurrentStep s
        = CanaryDeploymentStatus.CurrentStep (CanaryDeployment.Status canary) ∧
        CanaryDeploymentStatus.Message s = "Canary deployment completed successfully") ∧
  (status_update_fault env ≠ None → canaries out.2 = canaries world).
Proof.
  intros Hget Hstored Hkey Hlive Hphase Hdone out. unfold out.
  rewrite (Reconcile_Progressing _ _ _ _ _ _ Hget Hstored Hlive Hphase).
  unfold handleProgressing. rewrite (bool_decide_eq_true_2 _ Hdone).
  unfold_M. simpl. rewrite Status_Update_pair. simpl.
  match goal with
  | |- context [Status_Update env ?c ?w1] =>
      destruct (Status_Update_stores env c w1 req canary Hstored Hkey)
        as (Hok & Hrefused & Hroutes & _)
  end.
  split; [done|]. split; [exact Hroutes|].
  split.
  { rewrite Status_Update_run. simpl. rewrite <- app_assoc. simpl. eauto. }
  split; [|exact Hrefused].
  intros Hwrite. eexists. split; [exact (Hok Hwrite)|]. simpl. done.
Qed.

(** The demo rollout past its third step, with the route still at the
    weights of the second: it is stored as Succeeded at (100, 0) and the
    route is as it was. *)
Lemma completion_leaves_route_witness :
  let canary := demo_canary ∅ no_analysis true "Progressing" 3 50 in
  let world := demo_world canary in
  let out := Reconcile (env_with backend_down) go_runtime demo_reconciler demo_req world in
  out.1 = Ret (Result.zero, None) ∧
  routes out.2 = routes world ∧
  ∃ s, stored_status demo_req out.2 = Some s ∧
       CanaryDeploymentStatus.Phase s = CanaryDeploymentPhaseSucceeded ∧
       CanaryDeploymentStatus.CanaryWeight s = 100 ∧
       CanaryDeploymentStatus.StableWeight s = 0.
Proof.
  intros canary world out.
  destruct (completion_leaves_route (env_with backend_down) go_runtime demo_reconciler
              demo_req world canary
              eq_refl ltac:(vm_compute; reflexivity) eq_refl eq_refl eq_refl
              ltac:(simpl; lia))
    as (Hres & Hroutes & _ & Hok & _).
  destruct (Hok eq_refl) as (s & Hs & Hphase & Hcanary & Hstable & _).
  split; [exact Hres|]. split; [exact Hroutes|].
  exists s. split; [exact Hs|]. split; [exact Hphase|]. split; [exact Hcanary|exact Hstable].
Defined.

Lemma UpdateTrafficSplit_unavailable env canary w world :
  ¬ route_available env canary world →
  ∃ err world',
    UpdateTrafficSplit env canary w world = (Ret (Some err), world') ∧
    canaries world' = canaries world ∧ routes world' = routes world ∧
    queries_in (trace world') = queries_in (trace world).
Proof.
  intros Hno.
  pose proof (UpdateTrafficSplit_queries env canary w world) as Hq.
  destruct (UpdateTrafficSplit_err env canary w world) as (failed & w' & Hrun & Hc & Hr & _).
  rewrite Hrun in Hq. simpl in Hq.
  destruct failed as [err|].
  - exists err, w'. repeat split; auto.
  - exfalso. apply Hno.
    destruct (UpdateTrafficSplit_ok _ _ _ _ _ Hrun) as (route & Hg & Hu & Hroute & _).
    unfold route_available. eauto.
Qed.

(** X12.  When the route of the current step cannot be read or written, a
    rollout in Progressing stays where it is: phase, step and recorded
    weights are kept, only the message tells of the failure, no metric is
    queried, and the invocation asks to be called again after 30 s without
    reporting an error. *)
Theorem route_failure_keeps_step env rt r req world canary step :
  get_fault env = None →
  canaries world !! req = Some canary →
  key_of canary = req →
  CanaryDeployment.DeletionTimestamp canary = None →
  CanaryDeploymentStatus.Phase (CanaryDeployment.Status canary)
  = CanaryDeploymentPhaseProgressing →
  index_step (CanaryDeploymentSpec.TrafficSplit (CanaryDeployment.Spec canary))
             (CanaryDeploymentStatus.CurrentStep (CanaryDeployment.Status canary))
  = Some step →
  ¬ route_available env canary world →
  let out := Reconcile env rt r req world in
  out.1 = Ret (Result.after (Second * 30), None) ∧
  routes out.2 = routes world ∧
  queries_in (trace out.2) = queries_in (trace world) ∧
  (status_update_fault env = None →
   ∃ err, stored_status req out.2
          = Some (CanaryDeploymentStatus.with_Message
                    (wrap_err "Failed to update traffic split: " err)
                    (CanaryDeployment.Status canary))) ∧
  (status_update_fault env ≠ None → canaries out.2 = canaries world).
Proof.
  intros Hget Hstored Hkey Hlive Hphase Hstep Hno out. unfold out.
  rewrite (Reconcile_Progressing _ _ _ _ _ _ Hget Hstored Hlive Hphase).
  unfold handleProgressing.
  rewrite (bool_decide_eq_false_2 _ (index_step_Some _ _ _ Hstep)), Hstep.
  destruct (UpdateTrafficSplit_unavailable env canary (TrafficSplitStep.Weight step)
              (fetched req world) Hno) as (err & w1 & Hrun & Hc & Hr & Hq).
  unfold_M. rewrite Hrun. simpl. rewrite Status_Update_pair. simpl.
  assert (canaries w1 !! req = Some canary) as Hstored1 by (by rewrite Hc).
  match goal with
  | |- context [Status_Update env ?c ?w] =>
      destruct (Status_Update_stores env c w req canary Hstored1 Hkey)
        as (Hok & Hrefused & Hroutes & Hqueries)
  end.
  split; [done|]. split; [by rewrite Hroutes, Hr|].
  split; [rewrite Hqueries, Hq; simpl; by rewrite queries_in_app, app_nil_r|].
  split; [|intros Hf; by rewrite (Hrefused Hf), Hc].
  intros Hwrite. exists err. exact (Hok Hwrite).
Qed.

(** The demo rollout at its first step when the API server refuses the
    write of the route. *)
Lemma route_failure_keeps_step_witness :
  let env := refusing_route_update "conflict" (env_with backend_down) in
  let canary := demo_canary ∅ no_analysis true "Progressing" 0 0 in
  let world := demo_world canary in
  let out := Reconcile env go_runtime demo_reconciler demo_req world in
  out.1 = Ret (Result.after (Second * 30), None) ∧
  routes out.2 = routes world ∧
  ∃ err, stored_status demo_req out.2
         = Some (CanaryDeploymentStatus.with_Message
                   (wrap_err "Failed to update traffic split: " err)
                   (CanaryDeployment.Status canary)).
Proof.
  intros env canary world out.
  destruct (route_failure_keeps_step env go_runtime demo_reconciler demo_req world canary
              (TrafficSplitStep.mk 20 "30s" false)
              eq_refl ltac:(vm_compute; reflexivity) eq_refl eq_refl eq_refl eq_refl
              ltac:(intros (_ & Hrefused & _); discriminate Hrefused))
    as (Hres & Hroutes & _ & Hok & _).
  split; [exact Hres|]. split; [exact Hroutes|]. exact (Hok eq_refl).
Defined.

(** X13.  A step marked as a pause, once its weights are on the route,
    puts the rollout in Paused at the same step index, with the weights of
    the step recorded; no metric is queried even when analysis is
    configured, and the invocation asks for no requeue: the rollout waits
    for an annotation. *)
Theorem pause_step_pauses env rt r req world canary step route :
  get_fault env = None →
  canaries world !! req = Some canary →
  key_of canary = req →
  CanaryDeployment.DeletionTimestamp canary = None →
  CanaryDeploymentStatus.Phase (CanaryDeployment.Status canary)
  = CanaryDeploymentPhaseProgressing →
  index_step (CanaryDeploymentSpec.TrafficSplit (CanaryDeployment.Spec canary))
             (CanaryDeploymentStatus.CurrentStep (CanaryDeployment.Status canary))
  = Some step →
  TrafficSplitStep.Pause step = true →
  route_get_fault env = None →
  route_update_fault env = None →
  routes world !! route_key canary = Some route →
  let out := Reconcile env rt r req world in
  let weight := TrafficSplitStep.Weight step in
  let old := CanaryDeployment.Status canary in
  out.1 = Ret (Result.zero, None) ∧
  routes out.2
  = <[route_key canary := (updateHTTPRouteBackends route canary weight).1]> (routes world) ∧
  queries_in (trace out.2) = queries_in (trace world) ∧
  (status_update_fault env = None →
   ∃ s, stored_status req out.2 = Some s ∧
        CanaryDeploymentStatus.Phase s = CanaryDeploymentPhasePaused ∧
        CanaryDeploymentStatus.CurrentStep s = CanaryDeploymentStatus.CurrentStep old ∧
        CanaryDeploymentStatus.CanaryWeight s = weight ∧
        CanaryDeploymentStatus.StableWeight s = int32 (100 - weight) ∧
        CanaryDeploymentStatus.Message s
        = "Paused at step "
          +:+ pretty (int32 (CanaryDeploymentStatus.CurrentStep old + 1))
          +:+ " for manual approval" ∧
        CanaryDeploymentStatus.AnalysisRun s = CanaryDeploymentStatus.AnalysisRun old) ∧
  (status_update_fault env ≠ None → canaries out.2 = canaries world).
Proof.
  intros Hget Hstored Hkey Hlive Hphase Hstep Hpause Hrg Hru Hroute out weight old.
  unfold out.
  rewrite (Reconcile_Progressing _ _ _ _ _ _ Hget Hstored Hlive Hphase).
  unfold handleProgressing.
  rewrite (bool_decide_eq_false_2 _ (index_step_Some _ _ _ Hstep)), Hstep.
  unfold_M. unfold_M.
  rewrite (UpdateTrafficSplit_run env canary _ (fetched req world) route Hrg Hru Hroute).
  cbn beta iota. rewrite Hpause. cbn beta iota zeta.
  rewrite Status_Update_pair. cbn [fst snd].
  match goal with
  | |- context [Status_Update env ?c ?w] =>
      destruct (Status_Update_stores env c w req canary Hstored Hkey)
        as (Hok & Hrefused & Hroutes & Hqueries)
  end.
  split; [done|]. split; [by rewrite Hroutes|].
  split; [rewrite Hqueries; simpl; by rewrite !queries_in_app, !app_nil_r|].
  split; [|intros Hf; by rewrite (Hrefused Hf)].
  intros Hwrite. eexists. split; [exact (Hok Hwrite)|]. simpl. done.
Qed.

(** The demo rollout at its second step, which pauses. *)
Lemma pause_step_pauses_witness :
  let canary := demo_canary ∅ demo_analysis false "Progressing" 1 20 in
  let world := demo_world canary in
  let out := Reconcile (env_with backend_down) go_runtime demo_reconciler demo_req world in
  out.1 = Ret (Result.zero, None) ∧
  queries_in (trace out.2) = [] ∧
  ∃ s, stored_status demo_req out.2 = Some s ∧
       CanaryDeploymentStatus.Phase s = CanaryDeploymentPhasePaused ∧
       CanaryDeploymentStatus.CurrentStep s = 1 ∧
       CanaryDeploymentStatus.CanaryWeight s = 50 ∧
       CanaryDeploymentStatus.Message s = "Paused at step 2 for manual approval".
Proof.
  intros canary world out.
  destruct (pause_step_pauses (env_with backend_down) go_runtime demo_reconciler demo_req
              world canary (TrafficSplitStep.mk 50 "30s" true) demo_route
              eq_refl ltac:(vm_compute; reflexivity) eq_refl eq_refl eq_refl eq_refl
              eq_refl eq_refl eq_refl ltac:(vm_compute; reflexivity))
    as (Hres & _ & Hqueries & Hok & _).
  destruct (Hok eq_refl) as (s & Hs & Hphase & Hstep & Hcanary & _ & Hmessage & _).
  split; [exact Hres|]. split; [exact Hqueries|].
  exists s. split; [exact Hs|]. split; [exact Hphase|]. split; [exact Hstep|].
  split; [exact Hcanary|exact Hmessage].
Defined.

Lemma handleProgressing_advance env rt r canary step route w :
  index_step (CanaryDeploymentSpec.TrafficSplit (CanaryDeployment.Spec canary))
             (CanaryDeploymentStatus.CurrentStep (CanaryDeployment.Status canary))
  = Some step →
  TrafficSplitStep.Pause step = false →
  analysis_off r canary →
  route_get_fault env = None →
  route_update_fault env = None →
  routes w !! route_key canary = Some route →
  handleProgressing env rt r canary w
  = (Ret (Result.after (step_requeue env step), None),
     (Status_Update env (next_step (split_applied step canary))
        (route_written canary (TrafficSplitStep.Weight step) route w)).2).
Proof.
  intros Hstep Hpause Hoff Hrg Hru Hroute.
  unfold handleProgressing.
  rewrite (bool_decide_eq_false_2 _ (index_step_Some _ _ _ Hstep)), Hstep.
  unfold_M. unfold_M.
  rewrite (UpdateTrafficSplit_run env canary _ w route Hrg Hru Hroute).
  cbn beta iota. rewrite Hpause. cbn beta iota zeta.
  change (CanaryDeploymentSpec.SkipAnalysis _)
    with (CanaryDeploymentSpec.SkipAnalysis (CanaryDeployment.Spec canary)).
  change (AnalysisTemplate.SuccessRate _)
    with (AnalysisTemplate.SuccessRate
            (CanaryDeploymentSpec.Analysis (CanaryDeployment.Spec canary))).
  destruct Hoff as [Hskip|[Hrate|Hprov]].
  - rewrite Hskip. cbn [negb andb]. rewrite Status_Update_pair. reflexivity.
  - rewrite Hrate, andb_false_r. rewrite Status_Update_pair. reflexivity.
  - destruct (negb _ && _); [|rewrite Status_Update_pair; reflexivity].
    unfold runAnalysis. rewrite Hprov. unfold_M.
    rewrite Status_Update_pair. reflexivity.
Qed.

(** X14.  An unpaused step whose weights are on the route, with analysis
    skipped, without a success-rate threshold or without a metrics
    provider, moves the rollout to the next step: the weights of the step
    are recorded, the phase and the recorded analysis run stay, no metric
    is queried, and the invocation asks to be called again after the
    duration of the step, or after 30 s when the step has none or it does
    not parse. *)
Theorem step_advances_without_analysis env rt r req world canary step route :
  get_fault env = None →
  canaries world !! req = Some canary →
  key_of canary = req →
  CanaryDeployment.DeletionTimestamp canary = None →
  CanaryDeploymentStatus.Phase (CanaryDeployment.Status canary)
  = CanaryDeploymentPhaseProgressing →
  index_step (CanaryDeploymentSpec.TrafficSplit (CanaryDeployment.Spec canary))
             (CanaryDeploymentStatus.CurrentStep (CanaryDeployment.Status canary))
  = Some step →
  TrafficSplitStep.Pause step = false →
  analysis_off r canary →
  route_get_fault env = None →
  route_update_fault env = None →
  routes world !! route_key canary = Some route →
  let out := Reconcile env rt r req world in
  let weight := TrafficSplitStep.Weight step in
  let old := CanaryDeployment.Status canary in
  (∃ after,
     out.1 = Ret (Result.after after, None) ∧
     (TrafficSplitStep.Duration step = "" → after = Second * 30) ∧
     (∀ d, TrafficSplitStep.Duration step ≠ "" →
           time_ParseDuration env (TrafficSplitStep.Duration step) = (d, None) →
           after = d) ∧
     (∀ d err, time_ParseDuration env (TrafficSplitStep.Duration step) = (d, Some err) →
               after = Second * 30)) ∧
  routes out.2
  = <[route_key canary := (updateHTTPRouteBackends route canary weight).1]> (routes world) ∧
  queries_in (trace out.2) = queries_in (trace world) ∧
  (status_update_fault env = None →
   ∃ s, stored_status req out.2 = Some s ∧
        CanaryDeploymentStatus.Phase s = CanaryDeploymentPhaseProgressing ∧
        CanaryDeploymentStatus.CurrentStep s
        = int32 (CanaryDeploymentStatus.CurrentStep old + 1) ∧
        CanaryDeploymentStatus.CanaryWeight s = weight ∧
        CanaryDeploymentStatus.StableWeight s = int32 (100 - weight) ∧
        CanaryDeploymentStatus.AnalysisRun s = CanaryDeploymentStatus.AnalysisRun old) ∧
  (status_update_fault env ≠ None → canaries out.2 = canaries world).
Proof.
  intros Hget Hstored Hkey Hlive Hphase Hstep Hpause Hoff Hrg Hru Hroute out weight old.
  unfold out.
  rewrite (Reconcile_Progressing _ _ _ _ _ _ Hget Hstored Hlive Hphase).
  rewrite (handleProgressing_advance env rt r canary step route (fetched req world)
             Hstep Hpause Hoff Hrg Hru Hroute).
  cbn [fst snd].
  destruct (Status_Update_stores env (next_step (split_applied step canary))
              (route_written canary (TrafficSplitStep.Weight step) route (fetched req world))
              req canary Hstored Hkey)
    as (Hok & Hrefused & Hroutes & Hqueries).
  split.
  { exists (step_requeue env step). unfold step_requeue. split; [reflexivity|].
    split; [intros Hd; by rewrite bool_decide_eq_false_2 by (by intros [])|].
    split.
    - intros d Hd Hparse. by rewrite (bool_decide_eq_true_2 _ Hd), Hparse.
    - intros d err Hparse. rewrite Hparse. by case_bool_decide. }
  split; [by rewrite Hroutes|].
  split; [rewrite Hqueries; simpl; by rewrite !queries_in_app, !app_nil_r|].
  split; [|intros Hf; by rewrite (Hrefused Hf)].
  intros Hwrite. eexists. split; [exact (Hok Hwrite)|]. simpl.
  rewrite Hphase. done.
Qed.

(** The demo rollout at its first step, with analysis skipped: it moves to
    step 1 and asks to be called again after the 30 s of the step. *)
Lemma step_advances_without_analysis_witness :
  let canary := demo_canary ∅ demo_analysis true "Progressing" 0 0 in
  let world := demo_world canary in
  let out := Reconcile (env_with backend_down) go_runtime demo_reconciler demo_req world in
  out.1 = Ret (Result.after (Second * 30), None) ∧
  queries_in (trace out.2) = [] ∧
  ∃ s, stored_status demo_req out.2 = Some s ∧
       CanaryDeploymentStatus.Phase s = CanaryDeploymentPhaseProgressing ∧
       CanaryDeploymentStatus.CurrentStep s = 1 ∧
       CanaryDeploymentStatus.CanaryWeight s = 20 ∧
       CanaryDeploymentStatus.StableWeight s = 80.
Proof.
  intros canary world out.
  destruct (step_advances_without_analysis (env_with backend_down) go_runtime
              demo_reconciler demo_req world canary
              (TrafficSplitStep.mk 20 "30s" false) demo_route
              eq_refl ltac:(vm_compute; reflexivity) eq_refl eq_refl eq_refl eq_refl
              eq_refl (or_introl eq_refl) eq_refl eq_refl ltac:(vm_compute; reflexivity))
    as ((after & Hres & _ & Hparsed & _) & _ & Hqueries & Hok & _).
  destruct (Hok eq_refl) as (s & Hs & Hphase & Hstep & Hcanary & Hstable & _).
  split.
  { unfold out. rewrite Hres. rewrite (Hparsed (Second * 30) ltac:(discriminate) eq_refl).
    reflexivity. }
  split; [exact Hqueries|].
  exists s. split; [exact Hs|]. split; [exact Hphase|]. split; [exact Hstep|].
  split; [exact Hcanary|exact Hstable].
Defined.

Lemma RunAnalysis_stores env rt p c w :
  canaries (RunAnalysis env rt p c w).2 = canaries w ∧
  routes (RunAnalysis env rt p c w).2 = routes w.
Proof.
  destruct (RunAnalysis_queries env rt p c w) as (k & qs & _ & Hw & _).
  by rewrite Hw.
Qed.

(** X15.  When the analyzer returns a result and no error, its verdict
    decides the step: a passing result moves the rollout to the next step,
    a failing one puts it in RollingBack at the same step, to be called
    again after 5 s, with the weights of the step still on the route and in
    the status.  Either way the result is recorded as the analysis run of
    the status. *)
Theorem analysis_verdict_decides env rt r p req world canary step route result world2 :
  get_fault env = None →
  canaries world !! req = Some canary →
  key_of canary = req →
  CanaryDeployment.DeletionTimestamp canary = None →
  CanaryDeploymentStatus.Phase (CanaryDeployment.Status canary)
  = CanaryDeploymentPhaseProgressing →
  index_step (CanaryDeploymentSpec.TrafficSplit (CanaryDeployment.Spec canary))
             (CanaryDeploymentStatus.CurrentStep (CanaryDeployment.Status canary))
  = Some step →
  TrafficSplitStep.Pause step = false →
  CanaryDeploymentSpec.SkipAnalysis (CanaryDeployment.Spec canary) = false →
  PrimFloat.ltb 0 (AnalysisTemplate.SuccessRate
                     (CanaryDeploymentSpec.Analysis (CanaryDeployment.Spec canary)))
  = true →
  CanaryDeploymentReconciler.MetricsProvider r = Some p →
  route_get_fault env = None →
  route_update_fault env = None →
  routes world !! route_key canary = Some route →
  RunAnalysis env rt p canary
    (route_written canary (TrafficSplitStep.Weight step) route (fetched req world))
  = (Ret (result, None), world2) →
  let out := Reconcile env rt r req world in
  let weight := TrafficSplitStep.Weight step in
  let old := CanaryDeployment.Status canary in
  (AnalysisResult.Passed result = true → ∃ after, out.1 = Ret (Result.after after, None)) ∧
  (AnalysisResult.Passed result = false →
   out.1 = Ret (Result.after (Second * 5), None)) ∧
  routes out.2
  = <[route_key canary := (updateHTTPRouteBackends route canary weight).1]> (routes world) ∧
  (status_update_fault env = None →
   ∃ s, stored_status req out.2 = Some s ∧
        CanaryDeploymentStatus.AnalysisRun s = Some (run_of result) ∧
        CanaryDeploymentStatus.CanaryWeight s = weight ∧
        CanaryDeploymentStatus.StableWeight s = int32 (100 - weight) ∧
        (AnalysisResult.Passed result = true →
         CanaryDeploymentStatus.Phase s = CanaryDeploymentPhaseProgressing ∧
         CanaryDeploymentStatus.CurrentStep s
         = int32 (CanaryDeploymentStatus.CurrentStep old + 1)) ∧
        (AnalysisResult.Passed result = false →
         CanaryDeploymentStatus.Phase s = CanaryDeploymentPhaseRollingBack ∧
         CanaryDeploymentStatus.CurrentStep s = CanaryDeploymentStatus.CurrentStep old ∧
         CanaryDeploymentStatus.Message s = "Analysis failed, rolling back")) ∧
  (status_update_fault env ≠ None → canaries out.2 = canaries world).
Proof.
  intros Hget Hstored Hkey Hlive Hphase Hstep Hpause Hskip Hrate Hprov Hrg Hru Hroute
         Hrun out weight old.
  unfold out.
  rewrite (Reconcile_Progressing _ _ _ _ _ _ Hget Hstored Hlive Hphase).
  unfold handleProgressing.
  rewrite (bool_decide_eq_false_2 _ (index_step_Some _ _ _ Hstep)), Hstep.
  unfold_M. unfold_M.
  rewrite (UpdateTrafficSplit_run env canary _ (fetched req world) route Hrg Hru Hroute).
  cbn beta iota. rewrite Hpause. cbn beta iota zeta.
  change (CanaryDeploymentSpec.SkipAnalysis _)
    with (CanaryDeploymentSpec.SkipAnalysis (CanaryDeployment.Spec canary)).
  change (AnalysisTemplate.SuccessRate _)
    with (AnalysisTemplate.SuccessRate
            (CanaryDeploymentSpec.Analysis (CanaryDeployment.Spec canary))).
  rewrite Hskip, Hrate. cbn [negb andb].
  unfold runAnalysis. rewrite Hprov. unfold_M.
  unfold CanaryDeployment.upd_Status.
  rewrite !RunAnalysis_with_Status, Hrun. cbn beta iota zeta.
  pose proof (RunAnalysis_stores env rt p canary
                (route_written canary (TrafficSplitStep.Weight step) route
                   (fetched req world))) as [Hc2 Hr2].
  rewrite Hrun in Hc2, Hr2. cbn [fst snd] in Hc2, Hr2.
  assert (canaries world2 !! req = Some canary) as Hstored2 by (by rewrite Hc2).
  destruct (AnalysisResult.Passed result); cbn beta iota zeta;
    rewrite Status_Update_pair; cbn [fst snd];
    match goal with
    | |- context [Status_Update env ?c ?w] =>
        destruct (Status_Update_stores env c w req canary Hstored2 Hkey)
          as (Hok & Hrefused & Hroutes & _)
    end.
  - split; [eauto|]. split; [done|]. split; [by rewrite Hroutes, Hr2|].
    split; [|intros Hf; by rewrite (Hrefused Hf), Hc2].
    intros Hwrite. eexists. split; [exact (Hok Hwrite)|]. simpl.
    rewrite Hphase. repeat split; done.
  - split; [done|]. split; [done|]. split; [by rewrite Hroutes, Hr2|].
    split; [|intros Hf; by rewrite (Hrefused Hf), Hc2].
    intros Hwrite. eexists. split; [exact (Hok Hwrite)|]. simpl.
    repeat split; done.
Qed.

(** The demo rollout at its first step with a success-rate threshold of
    0.75 and a backend that reports 0.5: the rollout goes to RollingBack at
    step 0 with the weights (20, 80) recorded. *)
Lemma analysis_verdict_decides_witness :
  let env := env_with backend_half in
  let canary := demo_canary ∅ rate_only false "Progressing" 0 0 in
  let world := demo_world canary in
  let out := Reconcile env go_runtime demo_reconciler demo_req world in
  out.1 = Ret (Result.after (Second * 5), None) ∧
  ∃ s, stored_status demo_req out.2 = Some s ∧
       CanaryDeploymentStatus.Phase s = CanaryDeploymentPhaseRollingBack ∧
       CanaryDeploymentStatus.CurrentStep s = 0 ∧
       CanaryDeploymentStatus.CanaryWeight s = 20.
Proof.
  intros env canary world out.
  pose (world1 := route_written canary 20 demo_route (fetched demo_req world)).
  pose (ran := RunAnalysis env go_runtime demo_provider canary world1).
  assert (Hrun : ∃ result, ran = (Ret (result, None), ran.2) ∧
                           AnalysisResult.Passed result = false).
  { vm_compute. eexists. split; reflexivity. }
  destruct Hrun as (result & Hrun & Hfailed).
  destruct (analysis_verdict_decides env go_runtime demo_reconciler demo_provider demo_req
              world canary (TrafficSplitStep.mk 20 "30s" false) demo_route result ran.2
              eq_refl ltac:(vm_compute; reflexivity) eq_refl eq_refl eq_refl eq_refl
              eq_refl eq_refl ltac:(vm_compute; reflexivity) eq_refl eq_refl eq_refl
              ltac:(vm_compute; reflexivity) Hrun)
    as (_ & Hres & _ & Hok & _).
  destruct (Hok eq_refl) as (s & Hs & _ & Hcanary & _ & _ & Hback).
  destruct (Hback Hfailed) as (Hphase & Hstep & _).
  split; [exact (Hres Hfailed)|].
  exists s. split; [exact Hs|]. split; [exact Hphase|]. split; [exact Hstep|exact Hcanary].
Defined.

(** ** Paused rollouts, deletion, and the errors an invocation reports *)

Lemma Reconcile_Paused env rt r req world canary :
  get_fault env = None →
  canaries world !! req = Some canary →
  CanaryDeployment.DeletionTimestamp canary = None →
  CanaryDeploymentStatus.Phase (CanaryDeployment.Status canary)
  = CanaryDeploymentPhasePaused →
  Reconcile env rt r req world = handlePaused env canary (fetched req world).
Proof.
  intros Hget Hstored Hlive Hphase.
  by destruct (Reconcile_dispatch env rt r req world canary Hget Hstored Hlive)
    as (_ & _ & Hpaused & _); apply Hpaused.
Qed.

(** X16.  A Paused rollout annotated with resume=true does not leave
    Paused.  The annotation is deleted in the stored rollout by a first
    write, whether or not abort=true is set as well; when that write is
    refused its error is returned and nothing has changed.  The reply to
    that write brings the stored status back into the rollout in memory, so
    that the status written next has the phase the server held, Paused, and
    the step the server held, unless that step was 0, which the reply
    leaves out: then the step written is 1.  The weights are as they were.
    The invocation asks to be called again after 5 s; when the status write
    is refused its error is returned and the stored status is as it was.
    The route is not touched. *)
Theorem resume_leaves_rollout_Paused env rt r req world canary :
  get_fault env = None →
  canaries world !! req = Some canary →
  key_of canary = req →
  CanaryDeployment.DeletionTimestamp canary = None →
  CanaryDeploymentStatus.Phase (CanaryDeployment.Status canary)
  = CanaryDeploymentPhasePaused →
  map_index (CanaryDeployment.Annotations canary) "gateway-cd.io/resume" = "true" →
  let out := Reconcile env rt r req world in
  let old := CanaryDeployment.Status canary in
  routes out.2 = routes world ∧
  queries_in (trace out.2) = queries_in (trace world) ∧
  (∀ err, update_fault env = Some err →
     out.1 = Ret (Result.zero, Some err) ∧ canaries out.2 = canaries world) ∧
  (update_fault env = None →
     stored_annotations req out.2
     = Some (delete "gateway-cd.io/resume" (CanaryDeployment.Annotations canary)) ∧
     (∀ err, status_update_fault env = Some err →
        out.1 = Ret (Result.zero, Some err) ∧ stored_status req out.2 = Some old) ∧
     (status_update_fault env = None →
        out.1 = Ret (Result.after (Second * 5), None) ∧
        ∃ s, stored_status req out.2 = Some s ∧
             CanaryDeploymentStatus.Phase s = CanaryDeploymentPhasePaused ∧
             CanaryDeploymentStatus.CurrentStep s
             = (if bool_decide (CanaryDeploymentStatus.CurrentStep old = 0) then 1
                else CanaryDeploymentStatus.CurrentStep old) ∧
             CanaryDeploymentStatus.Message s
             = (if bool_decide (CanaryDeploymentStatus.Message old = "")
                then "Resumed from pause"
                else CanaryDeploymentStatus.Message old) ∧
             CanaryDeploymentStatus.CanaryWeight s = CanaryDeploymentStatus.CanaryWeight old ∧
             CanaryDeploymentStatus.StableWeight s
             = CanaryDeploymentStatus.StableWeight old)).
Proof.
  intros Hget Hstored Hkey Hlive Hphase Hresume out old. unfold out.
  rewrite (Reconcile_Paused _ _ _ _ _ _ Hget Hstored Hlive Hphase).
  unfold handlePaused. rewrite (bool_decide_eq_true_2 _ Hresume).
  unfold_M. unfold_M. cbn beta iota zeta.
  rewrite Update_run. cbn beta iota zeta.
  change (key_of _) with (key_of canary). rewrite Hkey.
  change (canaries (fetched req world)) with (canaries world). rewrite Hstored.
  destruct (update_fault env) as [eu|] eqn:Hu; cbn beta iota zeta.
  { cbn [fst snd routes canaries trace]. rewrite queries_in_app. simpl.
    rewrite queries_in_app. simpl. rewrite !app_nil_r.
    split; [done|]. split; [done|]. split; [by intros err [= <-]|]. intros [=]. }
  rewrite Status_Update_run. cbn beta iota zeta.
  change (key_of _) with (key_of canary). rewrite Hkey.
  cbn [routes canaries trace fst snd].
  split; [by destruct (status_update_fault env)|].
  split.
  { destruct (status_update_fault env); cbn [snd trace];
      repeat (rewrite queries_in_app; simpl); by rewrite !app_nil_r. }
  split; [intros err [=]|]. intros _.
  unfold stored_annotations, stored_status.
  destruct (status_update_fault env) as [es|] eqn:Hs; cbn [fst snd canaries].
  - rewrite lookup_alter_eq, Hstored. simpl.
    split; [done|]. split; [by intros err [= <-]|]. intros [=].
  - rewrite !lookup_alter_eq, Hstored. simpl.
    split; [done|]. split; [intros err [=]|]. intros _.
    split; [done|]. eexists. split; [reflexivity|]. simpl.
    unfold old, decoded_string, decoded_int32. rewrite Hphase.
    split; [done|].
    split; [case_bool_decide as Hzero; [by rewrite Hzero|done]|].
    split; [done|]. split; by case_bool_decide.
Qed.

(** The paused demo rollout, annotated with resume, with both writes
    accepted: the annotation is gone and the rollout is stored Paused at
    step 1 as before. *)
Lemma resume_leaves_rollout_Paused_witness :
  let env := env_with backend_down in
  let annotations : gmap string string := {[ "gateway-cd.io/resume" := "true" ]} in
  let canary := demo_canary annotations no_analysis true "Paused" 1 50 in
  let world := demo_world canary in
  let out := Reconcile env go_runtime demo_reconciler demo_req world in
  out.1 = Ret (Result.after (Second * 5), None) ∧
  stored_annotations demo_req out.2 = Some ∅ ∧
  ∃ s, stored_status demo_req out.2 = Some s ∧
       CanaryDeploymentStatus.Phase s = CanaryDeploymentPhasePaused ∧
       CanaryDeploymentStatus.CurrentStep s = 1 ∧
       CanaryDeploymentStatus.CanaryWeight s = 50.
Proof.
  intros env annotations canary world out.
  destruct (resume_leaves_rollout_Paused env go_runtime demo_reconciler demo_req world
              canary
              eq_refl ltac:(vm_compute; reflexivity) eq_refl eq_refl eq_refl
              ltac:(vm_compute; reflexivity))
    as (_ & _ & _ & Hwritten).
  destruct (Hwritten eq_refl) as (Hannotations & _ & Haccepted).
  destruct (Haccepted eq_refl) as (Hres & s & Hs & Hphase & Hstep & _ & Hcanary & _).
  split; [exact Hres|]. split; [exact Hannotations|].
  exists s. split; [exact Hs|]. split; [exact Hphase|]. split; [exact Hstep|exact Hcanary].
Defined.

(** X17.  A Paused rollout annotated with abort=true and not with
    resume=true goes to RollingBack at the same step, to be called again
    after 5 s.  That invocation makes no call on the route, so the weights
    of the paused step stay on the route until the next one, and it leaves
    the annotations of the stored rollout as they are. *)
Theorem abort_starts_rollback env rt r req world canary :
  get_fault env = None →
  canaries world !! req = Some canary →
  key_of canary = req →
  CanaryDeployment.DeletionTimestamp canary = None →
  CanaryDeploymentStatus.Phase (CanaryDeployment.Status canary)
  = CanaryDeploymentPhasePaused →
  map_index (CanaryDeployment.Annotations canary) "gateway-cd.io/resume" ≠ "true" →
  map_index (CanaryDeployment.Annotations canary) "gateway-cd.io/abort" = "true" →
  let out := Reconcile env rt r req world in
  let old := CanaryDeployment.Status canary in
  out.1 = Ret (Result.after (Second * 5), None) ∧
  routes out.2 = routes world ∧
  (∃ written,
     trace out.2
     = trace world ++ [EvGet req; EvStatusUpdate written (status_update_fault env)]) ∧
  stored_annotations req out.2 = Some (CanaryDeployment.Annotations canary) ∧
  (status_update_fault env = None →
   ∃ s, stored_status req out.2 = Some s ∧
        CanaryDeploymentStatus.Phase s = CanaryDeploymentPhaseRollingBack ∧
        CanaryDeploymentStatus.Message s = "Aborted by user" ∧
        CanaryDeploymentStatus.CurrentStep s = CanaryDeploymentStatus.CurrentStep old ∧
        CanaryDeploymentStatus.CanaryWeight s = CanaryDeploymentStatus.CanaryWeight old ∧
        CanaryDeploymentStatus.StableWeight s = CanaryDeploymentStatus.StableWeight old) ∧
  (status_update_fault env ≠ None → canaries out.2 = canaries world).
Proof.
  intros Hget Hstored Hkey Hlive Hphase Hresume Habort out old. unfold out.
  rewrite (Reconcile_Paused _ _ _ _ _ _ Hget Hstored Hlive Hphase).
  unfold handlePaused.
  rewrite (bool_decide_eq_false_2 _ Hresume), (bool_decide_eq_true_2 _ Habort).
  unfold_M. unfold_M. cbn beta iota zeta.
  rewrite Status_Update_run. cbn beta iota zeta.
  change (key_of _) with (key_of canary). rewrite Hkey.
  cbn [routes canaries trace fst snd].
  split; [done|]. split; [done|].
  split; [unfold fetched; cbn [trace]; rewrite <- app_assoc; simpl; eauto|].
  unfold stored_annotations, stored_status.
  change (canaries (fetched req world)) with (canaries world).
  destruct (status_update_fault env) as [es|] eqn:Hs; cbn [canaries].
  - rewrite Hstored. simpl. split; [done|]. split; [intros [=]|done].
  - rewrite !lookup_alter_eq, Hstored. simpl.
    split; [done|]. split; [|done]. intros _. eexists. split; [reflexivity|]. done.
Qed.

(** The paused demo rollout, annotated with abort. *)
Lemma abort_starts_rollback_witness :
  let annotations : gmap string string := {[ "gateway-cd.io/abort" := "true" ]} in
  let canary := demo_canary annotations no_analysis true "Paused" 1 50 in
  let world := demo_world canary in
  let out := Reconcile (env_with backend_down) go_runtime demo_reconciler demo_req world in
  out.1 = Ret (Result.after (Second * 5), None) ∧
  routes out.2 = routes world ∧
  stored_annotations demo_req out.2 = Some annotations ∧
  ∃ s, stored_status demo_req out.2 = Some s ∧
       CanaryDeploymentStatus.Phase s = CanaryDeploymentPhaseRollingBack ∧
       CanaryDeploymentStatus.CanaryWeight s = 50.
Proof.
  intros annotations canary world out.
  destruct (abort_starts_rollback (env_with backend_down) go_runtime demo_reconciler
              demo_req world canary
              eq_refl ltac:(vm_compute; reflexivity) eq_refl eq_refl eq_refl
              ltac:(vm_compute; discriminate) ltac:(vm_compute; reflexivity))
    as (Hres & Hroutes & _ & Hannotations & Hok & _).
  destruct (Hok eq_refl) as (s & Hs & Hphase & _ & _ & Hcanary & _).
  split; [exact Hres|]. split; [exact Hroutes|]. split; [exact Hannotations|].
  exists s. split; [exact Hs|]. split; [exact Hphase|exact Hcanary].
Defined.

(** X18.  A stored rollout that is being deleted has its route reset to the
    stable service alone, whatever its phase: when the route can be read
    and written every rule of it ends with the stable backend at weight
    100 and the invocation reports success; when not, the route stays and
    the error of the mutator is returned.  The stored rollout itself is
    never written. *)
Theorem deletion_resets_route env rt r req world canary :
  get_fault env = None →
  canaries world !! req = Some canary →
  CanaryDeployment.DeletionTimestamp canary ≠ None →
  let out := Reconcile env rt r req world in
  let name := ServiceRef.Name (CanaryDeploymentSpec.Service (CanaryDeployment.Spec canary)) in
  let port := ServiceRef.Port (CanaryDeploymentSpec.Service (CanaryDeployment.Spec canary)) in
  canaries out.2 = canaries world ∧
  queries_in (trace out.2) = queries_in (trace world) ∧
  (route_available env canary world →
   out.1 = Ret (Result.zero, None) ∧
   ∃ route', routes out.2 !! route_key canary = Some route' ∧
     ∀ rule, rule ∈ HTTPRoute.Rules route' →
       HTTPRouteRule.BackendRefs rule = [HTTPBackendRef.mk name (Some port) (Some 100)]) ∧
  (¬ route_available env canary world →
   routes out.2 = routes world ∧
   ∃ err, out.1 = Ret (Result.zero,
                       Some (wrap_err "failed to cleanup traffic split: " err))).
Proof.
  intros Hget Hstored Hdel out name port. unfold out.
  rewrite (Reconcile_deletion env rt r req world canary Hget Hstored Hdel).
  unfold handleDeletion, Cleanup. unfold_M.
  pose proof (UpdateTrafficSplit_queries env canary 0 (fetched req world)) as Hq.
  simpl in Hq. rewrite queries_in_app in Hq. simpl in Hq. rewrite app_nil_r in Hq.
  destruct (UpdateTrafficSplit env canary 0 (fetched req world))
    as [[[err|]|msg] w1] eqn:Hrun.
  - destruct (UpdateTrafficSplit_err env canary 0 (fetched req world))
      as (failed & w1' & Hrun' & Hc & Hr & _).
    rewrite Hrun in Hrun'. injection Hrun' as <- <-.
    simpl. split; [done|]. split; [done|]. split.
    + intros (Hg & Hu & [route Hroute]).
      rewrite (UpdateTrafficSplit_run env canary 0 (fetched req world) route Hg Hu Hroute)
        in Hrun. done.
    + intros _. split; [by apply Hr|]. eauto.
  - destruct (UpdateTrafficSplit_ok _ _ _ _ _ Hrun) as (route & Hg & Hu & Hroute & ->).
    simpl. split; [done|]. split; [done|]. split.
    + intros _. split; [done|].
      exists (updateHTTPRouteBackends route canary 0).1.
      split; [apply lookup_insert_eq|].
      intros rule [old [-> _]]%list_elem_of_fmap.
      destruct (updateRule_BackendRefs canary 0 old) as (H0 & _); [lia|].
      by apply H0.
    + intros Hno. exfalso. apply Hno. unfold route_available. eauto.
  - destruct (UpdateTrafficSplit_err env canary 0 (fetched req world))
      as (failed & w1' & Hrun' & _).
    rewrite Hrun in Hrun'. done.
Qed.

(** The demo rollout, deleted while paused at (50, 50). *)
Lemma deletion_resets_route_witness :
  let env := env_with backend_down in
  let canary := being_deleted 9 (demo_canary ∅ no_analysis true "Paused" 1 50) in
  let world := demo_world canary in
  let out := Reconcile env go_runtime demo_reconciler demo_req world in
  canaries out.2 = canaries world ∧
  out.1 = Ret (Result.zero, None) ∧
  ∃ route', routes out.2 !! route_key canary = Some route' ∧
    ∀ rule, rule ∈ HTTPRoute.Rules route' →
      HTTPRouteRule.BackendRefs rule
      = [HTTPBackendRef.mk "demo-app-service" (Some 80) (Some 100)].
Proof.
  intros env canary world out.
  destruct (deletion_resets_route env go_runtime demo_reconciler demo_req world canary
              eq_refl ltac:(vm_compute; reflexivity) ltac:(discriminate))
    as (Hcanaries & _ & Havailable & _).
  split; [exact Hcanaries|].
  apply Havailable. split; [reflexivity|]. split; [reflexivity|].
  exists demo_route. vm_compute; reflexivity.
Defined.

Lemma handleProgressing_no_error env rt r canary w res err w' :
  handleProgressing env rt r canary w = (Ret (res, err), w') → err = None.
Proof.
  unfold handleProgressing.
  case_bool_decide as Hdone.
  { unfold_M. simpl. rewrite Status_Update_pair. simpl. by intros [= <- <- <-]. }
  destruct (index_step _ _) as [step|]; [|intros [=]].
  unfold_M.
  destruct (UpdateTrafficSplit_err env canary (TrafficSplitStep.Weight step) w)
    as (failed & w2 & -> & _).
  destruct failed as [e|]; simpl.
  { rewrite Status_Update_pair. simpl. by intros [= <- <- <-]. }
  destruct (TrafficSplitStep.Pause step); simpl.
  { rewrite Status_Update_pair. simpl. by intros [= <- <- <-]. }
  destruct (negb _ && _); simpl.
  2:{ rewrite Status_Update_pair. simpl. by intros [= <- <- <-]. }
  unfold runAnalysis.
  destruct (CanaryDeploymentReconciler.MetricsProvider r) as [p|] eqn:Hprov.
  2:{ unfold_M. simpl. rewrite Status_Update_pair. simpl. by intros [= <- <- <-]. }
  unfold_M.
  match goal with |- context [RunAnalysis env rt p ?c w2] =>
    destruct (RunAnalysis env rt p c w2) as [[[result [e|]]|msg] w3] end; simpl.
  - rewrite Status_Update_pair. simpl. by intros [= <- <- <-].
  - destruct (AnalysisResult.Passed result); simpl; rewrite Status_Update_pair; simpl;
      by intros [= <- <- <-].
  - intros [=].
Qed.

(** X19.  The errors an invocation can report.  An error comes with no
    requeue request, and it is one of: the error of reading the rollout;
    for a rollout being deleted, the wrapped error of the route reset; for
    a rollout with an empty phase or in Pending, the refusal of the status
    write; for a Paused rollout annotated with resume=true, the refusal of
    one of its two writes.  So a rollout in Progressing or RollingBack
    never makes an invocation report an error, whatever fails. *)
Theorem Reconcile_error_sources env rt r req world result err world' :
  Reconcile env rt r req world = (Ret (result, Some err), world') →
  result = Result.zero ∧
  (get_fault env = Some err
   ∨ ∃ canary, canaries world !! req = Some canary ∧
       ((CanaryDeployment.DeletionTimestamp canary ≠ None ∧
         ¬ route_available env canary world)
        ∨ (CanaryDeployment.DeletionTimestamp canary = None ∧
           let phase := CanaryDeploymentStatus.Phase (CanaryDeployment.Status canary) in
           ((phase = "" ∨ phase = CanaryDeploymentPhasePending) ∧
            status_update_fault env = Some err)
           ∨ (phase = CanaryDeploymentPhasePaused ∧
              map_index (CanaryDeployment.Annotations canary) "gateway-cd.io/resume"
              = "true" ∧
              (update_fault env = Some err ∨ status_update_fault env = Some err))))).
Proof.
  destruct (get_fault env) as [e|] eqn:Hget.
  { rewrite (Reconcile_get_fault _ _ _ _ _ _ Hget). intros [= <- <- <-]. auto. }
  destruct (canaries world !! req) as [canary|] eqn:Hstored.
  2:{ unfold Reconcile, Get_canary. unfold_M. simpl. rewrite Hget. simpl.
      rewrite Hstored. simpl. intros [=]. }
  destruct (CanaryDeployment.DeletionTimestamp canary) as [t|] eqn:Hlive.
  { rewrite (Reconcile_deletion env rt r req world canary Hget Hstored)
      by (rewrite Hlive; done).
    unfold handleDeletion, Cleanup. unfold_M.
    destruct (UpdateTrafficSplit env canary 0 (fetched req world))
      as [[[e|]|msg] w1] eqn:Hrun; simpl; intros [=]; subst.
    split; [done|]. right. exists canary. split; [done|]. left.
    split; [by rewrite Hlive|].
    intros (Hg & Hu & [route Hroute]).
    by rewrite (UpdateTrafficSplit_run env canary 0 (fetched req world) route Hg Hu Hroute)
      in Hrun. }
  intros Hrun.
  revert Hrun. unfold Reconcile, Get_canary. unfold_M. simpl.
  rewrite Hget. simpl. rewrite Hstored. simpl.
  rewrite (bool_decide_eq_false_2 _) by (rewrite Hlive; auto).
  case_bool_decide as Hempty.
  { unfold_M. simpl. rewrite Status_Update_run. simpl.
    destruct (status_update_fault env) as [e|] eqn:Hs; simpl; intros [=]; subst.
    split; [done|]. right. exists canary. split; [done|]. right.
    split; [done|]. left. auto. }
  case_bool_decide as Hpending.
  { unfold handlePending, validateCanaryDeployment. unfold_M. simpl.
    rewrite Status_Update_run. simpl.
    destruct (status_update_fault env) as [e|] eqn:Hs; simpl; intros [=]; subst.
    split; [done|]. right. exists canary. split; [done|]. right.
    split; [done|]. left. auto. }
  case_bool_decide as Hprogressing.
  { intros Hrun. by apply handleProgressing_no_error in Hrun. }
  case_bool_decide as Hpaused.
  { unfold handlePaused.
    case_bool_decide as Hresume.
    - unfold_M. simpl. rewrite Update_run. simpl.
      destruct (update_fault env) as [e|] eqn:Hu; simpl.
      { intros [=]; subst. split; [done|]. right. exists canary. split; [done|].
        right. split; [done|]. right. auto. }
      rewrite Status_Update_run. simpl.
      destruct (status_update_fault env) as [e|] eqn:Hs; simpl; intros [=]; subst.
      split; [done|]. right. exists canary. split; [done|].
      right. split; [done|]. right. auto.
    - case_bool_decide as Habort.
      + unfold_M. simpl. rewrite Status_Update_pair. simpl. intros [=].
      + unfold_M. intros [=]. }
  case_bool_decide as Hrolling.
  { unfold handleRollingBack. unfold_M.
    destruct (UpdateTrafficSplit_err env canary 0 (fetched req world))
      as (failed & w2 & Hsplit & _).
    unfold fetched in Hsplit. rewrite Hsplit.
    destruct failed; simpl; [intros [=]|].
    rewrite Status_Update_pair. simpl. intros [=]. }
  case_bool_decide; unfold_M; intros [=].
Qed.

(** The demo rollout in Pending when the status write is refused: the
    error reported is that refusal. *)
Lemma Reconcile_error_sources_witness :
  let env := refusing_status_update "conflict" (env_with backend_down) in
  let canary := demo_canary ∅ no_analysis true "Pending" 0 0 in
  let world := demo_world canary in
  let out := Reconcile env go_runtime demo_reconciler demo_req world in
  out = (Ret (Result.zero, Some "conflict"), out.2) ∧
  (get_fault env = Some "conflict"
   ∨ ∃ canary, canaries world !! demo_req = Some canary ∧
       ((CanaryDeployment.DeletionTimestamp canary ≠ None ∧
         ¬ route_available env canary world)
        ∨ (CanaryDeployment.DeletionTimestamp canary = None ∧
           let phase := CanaryDeploymentStatus.Phase (CanaryDeployment.Status canary) in
           ((phase = "" ∨ phase = CanaryDeploymentPhasePending) ∧
            status_update_fault env = Some "conflict")
           ∨ (phase = CanaryDeploymentPhasePaused ∧
              map_index (CanaryDeployment.Annotations canary) "gateway-cd.io/resume"
              = "true" ∧
              (update_fault env = Some "conflict"
               ∨ status_update_fault env = Some "conflict"))))).
Proof.
  intros env canary world out.
  assert (Hrun : out = (Ret (Result.zero, Some "conflict"), out.2))
    by (vm_compute; reflexivity).
  split; [exact Hrun|].
  exact (proj2 (Reconcile_error_sources env go_runtime demo_reconciler demo_req
                  world Result.zero "conflict" out.2 Hrun)).
Defined.

(** ** Whole rollouts, in general *)




(** ** More on the analyzer *)

(** X21.  [GetMetric] returns a value without error exactly when the
    request can be built (the URL parses and the request is created) and the
    reply has status 200, decodes, says success, and its first sample
    carries as second entry a text that parses: the value is then that
    number, and later samples are not looked at.  With an error the value is
    0.  When the request can be built one query is sent, whatever follows,
    a panic included; when it cannot, an error is returned and nothing is
    sent.  Nothing stored is touched. *)
Theorem GetMetric_value_iff env p query world :
  let reply := http_Do env (trace world) (PrometheusProvider.baseURL p) query in
  let out := GetMetric env p query world in
  (∀ value, out.1 = Ret (value, None)
            ↔ request_built env p query = true ∧ reply_carries env reply value) ∧
  (∀ value err, out.1 = Ret (value, Some err) → value = 0%float) ∧
  (request_built env p query = true →
   out.2 = after_queries (PrometheusProvider.baseURL p) [query] world) ∧
  (request_built env p query = false →
   out.2 = world ∧ ∃ err, out.1 = Ret (0%float, Some err)).
Proof.
  intros reply out.
  destruct (request_built env p query) eqn:Hbuilt.
  2:{ unfold out. destruct (GetMetric_unbuilt env p query world Hbuilt) as [err ->].
      simpl. split; [intros value; split; [intros [=]|intros [[=] _]]|].
      split; [by intros value e [= <- _]|]. split; [intros [=]|]. eauto. }
  pose proof (GetMetric_world env p query world) as Hworld.
  simpl in Hworld. rewrite Hbuilt in Hworld.
  assert (∀ value, out.1 = Ret (value, None) ↔ reply_carries env reply value) as Hiff;
    [|split; [intros value; rewrite Hiff; tauto|];
      split; [|split; [intros _; exact Hworld|intros [=]]]].
  - intros value. unfold out, reply_carries.
    rewrite (GetMetric_built env p query world Hbuilt). unfold_M. simpl. fold reply.
    destruct reply as [e|code body].
    { split; [intros [=]|]. by intros (? & ? & ? & ? & [=] & _). }
    case_bool_decide as Hcode.
    { split; [intros [=]|]. intros (? & ? & ? & ? & [= -> _] & _). done. }
    destruct body as [e|e|resp].
    { split; [intros [=]|]. by intros (? & ? & ? & ? & [=] & _). }
    { split; [intros [=]|]. by intros (? & ? & ? & ? & [=] & _). }
    case_bool_decide as Hstatus.
    { split; [intros [=]|]. intros (? & ? & ? & ? & [= _ <-] & ? & _). done. }
    destruct (PrometheusResponse.Result resp) as [|first others] eqn:Hres.
    { split; [intros [=]|]. intros (? & ? & ? & ? & [= _ <-] & _ & Hr & _). congruence. }
    assert (code = 200) as -> by (by destruct (decide (code = 200))).
    assert (PrometheusResponse.Status resp = "success") as Hsuccess
      by (by destruct (decide (PrometheusResponse.Status resp = "success"))).
    destruct (PromSample.Value first !! 1%nat) as [[s|f|b| |]|] eqn:Hv; simpl.
    + destruct (strconv_ParseFloat env s) as [v [e|]] eqn:Hparse; simpl.
      * split; [intros [=]|].
        intros (? & ? & ? & ? & [= <-] & _ & Hr & Hv' & Hp).
        rewrite Hres in Hr. injection Hr as <- <-. rewrite Hv in Hv'.
        injection Hv' as <-. rewrite Hparse in Hp. done.
      * split.
        { intros [= <-]. exists resp, first, others, s. done. }
        intros (? & ? & ? & ? & [= <-] & _ & Hr & Hv' & Hp).
        rewrite Hres in Hr. injection Hr as <- <-. rewrite Hv in Hv'.
        injection Hv' as <-. rewrite Hparse in Hp. by injection Hp as <-.
    + split; [intros [=]|]. intros (? & ? & ? & ? & [= <-] & _ & Hr & Hv' & _).
      rewrite Hres in Hr. injection Hr as <- <-. rewrite Hv in Hv'. done.
    + split; [intros [=]|]. intros (? & ? & ? & ? & [= <-] & _ & Hr & Hv' & _).
      rewrite Hres in Hr. injection Hr as <- <-. rewrite Hv in Hv'. done.
    + split; [intros [=]|]. intros (? & ? & ? & ? & [= <-] & _ & Hr & Hv' & _).
      rewrite Hres in Hr. injection Hr as <- <-. rewrite Hv in Hv'. done.
    + split; [intros [=]|]. intros (? & ? & ? & ? & [= <-] & _ & Hr & Hv' & _).
      rewrite Hres in Hr. injection Hr as <- <-. rewrite Hv in Hv'. done.
    + split; [intros [=]|]. intros (? & ? & ? & ? & [= <-] & _ & Hr & Hv' & _).
      rewrite Hres in Hr. injection Hr as <- <-. rewrite Hv in Hv'. done.
  - intros value err. unfold out.
    rewrite (GetMetric_built env p query world Hbuilt). unfold_M. simpl. fold reply.
    destruct reply as [e|code body]; [by intros [= <- _]|].
    case_bool_decide; [by intros [= <- _]|].
    destruct body as [e|e|resp]; [by intros [= <- _]|by intros [= <- _]|].
    case_bool_decide; [by intros [= <- _]|].
    destruct (PrometheusResponse.Result resp) as [|first others]; [by intros [= <- _]|].
    destruct (PromSample.Value first !! 1%nat) as [[s|f|b| |]|]; simpl;
      try (by intros [= <- _]); try (intros [=]; fail).
    destruct (strconv_ParseFloat env s) as [v [e|]]; simpl; [by intros [= <- _]|intros [=]].
Qed.

(** X22.  The analyzer only reads.  Whatever the backend answers, and also
    when the run ends in an error or a panic, the stored rollouts and
    routes are as before and everything added to the trace is a query to
    the base URL of the provider. *)
Theorem RunAnalysis_only_queries env rt p canary world :
  let out := RunAnalysis env rt p canary world in
  canaries out.2 = canaries world ∧
  routes out.2 = routes world ∧
  ∃ queries, trace out.2 = trace world ++ (EvQuery (PrometheusProvider.baseURL p) <$> queries).
Proof.
  intros out. unfold out.
  destruct (RunAnalysis_queries env rt p canary world) as (k & qs & _ & Hw & _).
  rewrite Hw. simpl. eauto.
Qed.

(** X23.  With no named metric, no success-rate threshold and no latency
    limit the analyzer passes the rollout without asking anything: the
    result is Successful with no metric result, and no query is sent. *)
Theorem RunAnalysis_without_criteria env rt p canary world :
  let analysis := CanaryDeploymentSpec.Analysis (CanaryDeployment.Spec canary) in
  AnalysisTemplate.Metrics analysis = [] →
  PrimFloat.ltb 0 (AnalysisTemplate.SuccessRate analysis) = false →
  AnalysisTemplate.MaxLatency analysis ≤ 0 →
  ∃ result,
    RunAnalysis env rt p canary world = (Ret (result, None), world) ∧
    AnalysisResult.Passed result = true ∧
    AnalysisResult.Phase result = "Successful" ∧
    AnalysisResult.MetricResults result = [].
Proof.
  intros analysis Hmetrics Hrate Hlimit.
  rewrite RunAnalysis_unfold. fold analysis. rewrite Hmetrics. simpl. unfold_M.
  unfold checkSuccessRate, checkLatency. fold analysis. rewrite Hrate.
  rewrite bool_decide_eq_false_2 by lia. unfold_M. simpl.
  eexists. split; [reflexivity|]. done.
Qed.

(** The demo rollout without analysis criteria, whatever the backend. *)
Lemma RunAnalysis_without_criteria_witness :
  let canary := demo_canary ∅ no_analysis false "Progressing" 0 0 in
  let world := demo_world canary in
  ∃ result,
    RunAnalysis (env_with backend_down) go_runtime demo_provider canary world
    = (Ret (result, None), world) ∧
    AnalysisResult.Passed result = true ∧
    AnalysisResult.Phase result = "Successful" ∧
    AnalysisResult.MetricResults result = [].
Proof.
  intros canary world.
  apply (RunAnalysis_without_criteria (env_with backend_down) go_runtime demo_provider
           canary world).
  - reflexivity.
  - reflexivity.
  - simpl. lia.
Defined.

Lemma evaluateMetrics_results env rt p canary metrics result w res w' :
  evaluateMetrics env rt p canary metrics result w = (Ret (res, None), w') →
  ∃ results,
    AnalysisResult.MetricResults res = AnalysisResult.MetricResults result ++ results ∧
    Forall2 result_of metrics results ∧
    AnalysisResult.Passed res
    = AnalysisResult.Passed result && forallb MetricResult.Passed results ∧
    AnalysisResult.SuccessRate res = AnalysisResult.SuccessRate result ∧
    AnalysisResult.AverageLatency res = AnalysisResult.AverageLatency result.
Proof.
  revert result w. induction metrics as [|m metrics IH]; intros result w; simpl.
  - unfold_M. intros [= <- <-]. exists []. rewrite app_nil_r, andb_true_r.
    repeat split; done.
  - unfold_M.
    destruct (evaluateMetric env rt p canary m w) as [[[[mr|] [e|]]|msg] w0] eqn:Hm;
      try (intros [=]; fail).
    apply evaluateMetric_shape in Hm as [[? _]|[_ [value [= ->]]]]; [done|].
    simpl.
    destruct (compareValues value _ _) eqn:Hcmp; simpl; intros Hrest;
      apply IH in Hrest as (results & Hres & Hall & Hpass & Hrate & Hlat);
      simpl in *;
      eexists (_ :: results);
      (split; [rewrite Hres; by rewrite <- app_assoc|]);
      (split; [constructor; [by rewrite <- Hcmp|exact Hall]|]);
      simpl; rewrite Hpass, ?Hcmp; simpl; repeat split; try done.
    by rewrite andb_false_r.
Qed.

(** X24.  The verdict of an analysis that ends without error is the
    conjunction of all its checks: there is one result per configured
    metric, in order, each passed exactly when its value compares to the
    threshold by the operator; the run passed exactly when every metric
    passed, the measured success rate is not below the threshold (when one
    is set) and the measured latency is not above the limit (when one is
    set); and the phase is Successful or Failed accordingly. *)
Theorem RunAnalysis_verdict_is_conjunction env rt p canary world result world' :
  RunAnalysis env rt p canary world = (Ret (result, None), world') →
  let metrics := AnalysisTemplate.Metrics
                   (CanaryDeploymentSpec.Analysis (CanaryDeployment.Spec canary)) in
  Forall2 result_of metrics (AnalysisResult.MetricResults result) ∧
  AnalysisResult.Passed result
  = forallb MetricResult.Passed (AnalysisResult.MetricResults result)
    && rate_ok canary result && latency_ok canary result ∧
  AnalysisResult.Phase result
  = (if AnalysisResult.Passed result then "Successful" else "Failed").
Proof.
  intros Hrun metrics. revert Hrun. rewrite RunAnalysis_unfold. fold metrics.
  destruct (evaluateMetrics _ _ _ _ _ _ world) as [[[r1 [e1|]]|m1] w1] eqn:H1;
    try (intros [=]; fail).
  apply evaluateMetrics_results in H1 as (results & Hres & Hall & Hpass & Hrate & Hlat).
  simpl in Hres, Hpass, Hrate, Hlat. subst results.
  unfold rate_ok, latency_ok.
  unfold checkSuccessRate, getSuccessRate, checkLatency, getAverageLatency. unfold_M.
  destruct (PrimFloat.ltb 0 _) eqn:Hwanted;
    [destruct (GetMetric env p _ w1) as [[[v [e|]]|msg] w2]; simpl;
       try (intros [=]; fail)|];
    (case_bool_decide as Hlimit;
       [match goal with
        | |- context [GetMetric env p ?q ?w] =>
            destruct (GetMetric env p q w) as [[[v' [e|]]|msg] w3]; simpl;
            try (intros [=]; fail)
        end|]);
    intros [= <- <-]; simpl;
    repeat (match goal with
            | |- context [if ?b then _ else _] => destruct b eqn:?
            end; simpl);
    rewrite <- ?Hpass; simpl in *;
    (split; [exact Hall|]); split;
    repeat match goal with
           | H : ?b = _ |- context [?b] => rewrite H
           end; simpl; try done; try congruence;
    try (by destruct (AnalysisResult.Passed r1));
    try (by destruct (forallb MetricResult.Passed (AnalysisResult.MetricResults r1))).
Qed.

(** The demo analysis against a backend that answers 0.5 to every query:
    the run ends without error, and its verdict is failed. *)
Lemma RunAnalysis_verdict_is_conjunction_witness :
  let env := env_with backend_half in
  let canary := demo_canary ∅ demo_analysis false "Progressing" 0 0 in
  let ran := RunAnalysis env go_runtime demo_provider canary (demo_world canary) in
  ∃ result,
    ran.1 = Ret (result, None) ∧
    Forall2 result_of [metric_errors; metric_saturation; metric_typo]
            (AnalysisResult.MetricResults result) ∧
    AnalysisResult.Passed result
    = forallb MetricResult.Passed (AnalysisResult.MetricResults result)
      && rate_ok canary result && latency_ok canary result ∧
    AnalysisResult.Passed result = false.
Proof.
  intros env canary ran.
  assert (Hrun : ∃ result, ran = (Ret (result, None), ran.2) ∧
                           AnalysisResult.Passed result = false).
  { vm_compute. eexists. split; reflexivity. }
  destruct Hrun as (result & Hrun & Hfailed).
  destruct (RunAnalysis_verdict_is_conjunction env go_runtime demo_provider canary
              (demo_world canary) result ran.2 Hrun)
    as (Hresults & Hverdict & _).
  exists result. split; [by rewrite Hrun|].
  split; [exact Hresults|]. split; [exact Hverdict|exact Hfailed].
Defined.

(** ** Queries, base URL and numbers that are not numbers *)

Lemma ReplaceAll_absent s placeholder new :
  mentions open_brace s = false →
  ReplaceAll s (String open_brace placeholder) new = s.
Proof.
  unfold ReplaceAll. induction s as [|a s IH]; [done|].
  cbn [mentions]. intros [Ha Hs]%orb_false_elim.
  apply bool_decide_eq_false in Ha.
  cbn [ReplaceAll_from String.prefix].
  destruct (Ascii.ascii_dec open_brace a) as [<-|_]; [done|].
  by rewrite IH.
Qed.

(** X25.  A query that contains no opening brace is sent as it is,
    whatever the names in the rollout and in whatever order the
    placeholders are visited. *)
Theorem replaceQueryPlaceholders_without_braces rt query canary :
  (∀ entries kv, kv ∈ range_order rt entries → kv ∈ entries) →
  mentions open_brace query = false →
  replaceQueryPlaceholders rt query canary = query.
Proof.
  intros Hrange Hquery. unfold replaceQueryPlaceholders.
  match goal with |- foldl _ _ (range_order rt ?l) = _ =>
    pose proof (Hrange l) as Hin; revert Hin; generalize (range_order rt l) end.
  intros visited Hin. induction visited as [|kv visited IH]; [done|].
  simpl. assert (ReplaceAll query kv.1 kv.2 = query) as ->.
  { specialize (Hin kv ltac:(by apply elem_of_cons; left)).
    repeat (apply elem_of_cons in Hin as [->|Hin]); simpl;
      try (by apply ReplaceAll_absent).
    by apply elem_of_nil in Hin. }
  apply IH. intros kv' Hkv'. apply Hin. apply elem_of_cons. by right.
Qed.

(** A plain query for the demo rollout. *)
Lemma replaceQueryPlaceholders_without_braces_witness :
  replaceQueryPlaceholders go_runtime "up"
    (demo_canary ∅ no_analysis false "Progressing" 0 0) = "up".
Proof.
  apply (replaceQueryPlaceholders_without_braces go_runtime "up").
  - intros entries kv Hkv. exact Hkv.
  - reflexivity.
Defined.

Lemma length_append_slash s : String.length (s +:+ "/") = S (String.length s).
Proof. induction s as [|a s IH]; simpl; [done|by rewrite IH]. Qed.

Lemma substring_last_slash s : String.substring (String.length s) 1 (s +:+ "/") = "/".
Proof. induction s as [|a s IH]; simpl; [done|exact IH]. Qed.

Lemma substring_before_slash s : String.substring 0 (String.length s) (s +:+ "/") = s.
Proof. induction s as [|a s IH]; simpl; [done|by rewrite IH]. Qed.

Lemma substring_S a s n m :
  String.substring (S n) m (String a s) = String.substring n m s.
Proof. reflexivity. Qed.

Lemma ends_with_slash s :
  (1 ≤ String.length s)%nat →
  String.substring (String.length s - 1) 1 s = "/" →
  ∃ s0, s = s0 +:+ "/".
Proof.
  induction s as [|a s IH]; [simpl; lia|]. intros _.
  destruct s as [|b s'].
  - simpl. intros [= ->]. by exists "".
  - replace (String.length (String a (String b s')) - 1)%nat
      with (S (String.length (String b s') - 1)) by (simpl; lia).
    rewrite substring_S. intros Hlast.
    destruct IH as [s0 Hs0]; [simpl; lia|exact Hlast|].
    exists (String a s0).
    change (String a s0 +:+ "/") with (String a (s0 +:+ "/")). by rewrite <- Hs0.
Qed.

(** X26.  The provider drops one trailing slash of the URL it is given,
    and only one: a URL followed by a slash gives that URL as base URL,
    and a URL that does not end with a slash is kept as it is. *)
Theorem NewPrometheusProvider_trims_one_slash url :
  PrometheusProvider.baseURL (NewPrometheusProvider (url +:+ "/")) = url ∧
  ((∀ s, url ≠ s +:+ "/") →
   PrometheusProvider.baseURL (NewPrometheusProvider url) = url).
Proof.
  unfold NewPrometheusProvider, TrimSuffix. simpl. split.
  - rewrite length_append_slash. simpl. rewrite Nat.sub_0_r.
    rewrite substring_last_slash, substring_before_slash.
    by rewrite bool_decide_eq_true_2.
  - intros Hno.
    case_bool_decide as Hlen; [|done].
    case_bool_decide as Hlast; [|done]. simpl.
    destruct (ends_with_slash url) as [s0 Hs0]; [lia|done|].
    by destruct (Hno s0).
Qed.

Lemma ltb_nan_l x : PrimFloat.ltb PrimFloat.nan x = false.
Proof. rewrite FloatAxioms.ltb_spec. reflexivity. Qed.

Lemma ltb_nan_r x : PrimFloat.ltb x PrimFloat.nan = false.
Proof.
  rewrite FloatAxioms.ltb_spec.
  change (Prim2SF PrimFloat.nan) with S754_nan.
  unfold SFltb, SFcompare. by destruct (Prim2SF x) as [?| [|] | |[|] ? ?].
Qed.

Lemma leb_nan_l x : PrimFloat.leb PrimFloat.nan x = false.
Proof. rewrite FloatAxioms.leb_spec. reflexivity. Qed.

Lemma leb_nan_r x : PrimFloat.leb x PrimFloat.nan = false.
Proof.
  rewrite FloatAxioms.leb_spec.
  change (Prim2SF PrimFloat.nan) with S754_nan.
  unfold SFleb, SFcompare. by destruct (Prim2SF x) as [?| [|] | |[|] ? ?].
Qed.

Lemma eqb_nan_l x : PrimFloat.eqb PrimFloat.nan x = false.
Proof. rewrite FloatAxioms.eqb_spec. reflexivity. Qed.

(** X27.  A value that is not a number fails a metric under each of the
    operators [>], [>=], [<], [<=] and [==], and passes it under [!=],
    whatever the threshold; and so does every value against a threshold
    that is not a number, for the first four. *)
Theorem compareValues_NaN threshold operator :
  compareValues PrimFloat.nan threshold operator = bool_decide (operator = "!=") ∧
  (∀ value, operator ∈ [">"; ">="; "<"; "<="] →
            compareValues value PrimFloat.nan operator = false).
Proof.
  split.
  - unfold compareValues.
    repeat case_bool_decide; subst; try done;
      rewrite ?ltb_nan_l, ?ltb_nan_r, ?leb_nan_l, ?leb_nan_r, ?eqb_nan_l; done.
  - intros value Hop. unfold compareValues.
    repeat (apply elem_of_cons in Hop as [->|Hop]); simpl;
      rewrite ?ltb_nan_l, ?ltb_nan_r, ?leb_nan_l, ?leb_nan_r; try done.
    by apply elem_of_nil in Hop.
Qed.

(** X28.  A success rate that is not a number passes the success-rate
    check.  With a threshold set, no named metric and no latency limit, a
    backend whose reply to the success-rate query, once its request is
    built, carries NaN, which is what a ratio of two zero rates evaluates
    to, makes the analysis end Successful. *)
Theorem NaN_success_rate_passes env rt p canary world :
  let analysis := CanaryDeploymentSpec.Analysis (CanaryDeployment.Spec canary) in
  let service := ServiceRef.Name (CanaryDeploymentSpec.Service (CanaryDeployment.Spec canary)) in
  AnalysisTemplate.Metrics analysis = [] →
  PrimFloat.ltb 0 (AnalysisTemplate.SuccessRate analysis) = true →
  AnalysisTemplate.MaxLatency analysis ≤ 0 →
  request_built env p (successRateQuery service) = true →
  reply_carries env
    (http_Do env (trace world) (PrometheusProvider.baseURL p) (successRateQuery service))
    PrimFloat.nan →
  ∃ result world',
    RunAnalysis env rt p canary world = (Ret (result, None), world') ∧
    AnalysisResult.Passed result = true ∧
    AnalysisResult.Phase result = "Successful" ∧
    AnalysisResult.SuccessRate result = PrimFloat.nan.
Proof.
  intros analysis service Hmetrics Hrate Hlimit Hbuilt
         (resp & first & others & s & Hreply & Hstatus & Hres & Hvalue & Hparse).
  rewrite RunAnalysis_unfold. fold analysis. rewrite Hmetrics. simpl. unfold_M.
  unfold checkSuccessRate, checkLatency, getSuccessRate. fold analysis service.
  rewrite Hrate. unfold_M. rewrite (GetMetric_built env p _ _ Hbuilt). unfold_M. simpl.
  rewrite Hreply. simpl. rewrite Hstatus. simpl. rewrite Hres, Hvalue, Hparse. simpl.
  rewrite ltb_nan_l. rewrite bool_decide_eq_false_2 by lia. simpl.
  eexists _, _. split; [reflexivity|]. done.
Qed.

(** The demo rollout with a success-rate threshold of 0.75 and a canary
    that has seen no request, so that the backend reports NaN. *)
Lemma NaN_success_rate_passes_witness :
  let env := parsing_NaN (env_with backend_NaN) in
  let canary := demo_canary ∅ rate_only false "Progressing" 0 0 in
  ∃ result world',
    RunAnalysis env go_runtime demo_provider canary (demo_world canary)
    = (Ret (result, None), world') ∧
    AnalysisResult.Passed result = true ∧
    AnalysisResult.Phase result = "Successful" ∧
    AnalysisResult.SuccessRate result = PrimFloat.nan.
Proof.
  intros env canary.
  apply (NaN_success_rate_passes env go_runtime demo_provider canary (demo_world canary)).
  - reflexivity.
  - reflexivity.
  - simpl. lia.
  - reflexivity.
  - eexists _, _, _, "NaN". split; [reflexivity|]. repeat split.
Defined.
